(** * Payment confirmation pipeline of the Ermunai order backend

    A shallow embedding of the Express handlers of the repository:
    [POST /create-order] (order initiation) and [POST /save-order]
    (payment confirmation), with the helpers they call, in the variants
    the repository holds: the revised server (required fields, optional
    identity check, signature, amount reconciliation), [server.js] (token
    middleware and [verifyRazorpaySignature]), the hardened server (no
    signature verification) and the basic server (no check at all).

    Conventions of the embedding.
    - A JavaScript value is a [value]: the JSON values a request body can
      carry, plus [Undefined] for a property that is not there.  JSON
      numbers are the integers ([Num z]); every amount of the system is an
      integral number of paise.  [NaN] only arises as the result of a
      failed numeric conversion and is kept in the separate type [number].
      The conversions between numbers and text belong to the runtime and
      are left abstract ([Runtime]).
    - A JavaScript string is a [string]: the bytes of its UTF-8 encoding,
      which is also what [crypto] hashes.
    - A [TypeError] raised by the runtime is the [None] of an option; the
      handlers run in the monad [comp], whose three outcomes are: go on,
      [return res.status(..).json(..)], and throw to the enclosing [catch].
    - The collaborators the handlers call (identity provider, payment
      gateway, document store, process environment) make up a [World],
      after the interfaces of section 6 of the specification.  The store
      keeps the record it is handed ([stored] has the timestamp sentinel,
      not a time) and decides by itself which writes it accepts. *)

From Stdlib Require Import ZArith Lia List Ascii String Bool.
From stdpp Require Import base option gmap strings pretty.
Import ListNotations.

Local Open Scope string_scope.
Local Open Scope list_scope.
Local Open Scope Z_scope.

(** ** The [crypto] module: HMAC-SHA256, hexadecimal digest

    [crypto.createHmac("sha256", key).update(text).digest("hex")], after
    FIPS 180-4 (SHA-256) and RFC 2104 (HMAC).  Words are 32-bit integers
    carried in [Z], with the wrap-around written out. *)
Module Crypto.

Definition wrap32 (x : Z) : Z := x mod 2 ^ 32.

Definition add32 (x y : Z) : Z := wrap32 (x + y).

Definition rotr (n x : Z) : Z :=
  Z.lor (Z.shiftr x n) (wrap32 (Z.shiftl x (32 - n))).

Definition not32 (x : Z) : Z := Z.lxor x 0xffffffff.

Definition Ch (x y z : Z) : Z := Z.lxor (Z.land x y) (Z.land (not32 x) z).

Definition Maj (x y z : Z) : Z :=
  Z.lxor (Z.lxor (Z.land x y) (Z.land x z)) (Z.land y z).

Definition bigSigma0 (x : Z) : Z := Z.lxor (Z.lxor (rotr 2 x) (rotr 13 x)) (rotr 22 x).
Definition bigSigma1 (x : Z) : Z := Z.lxor (Z.lxor (rotr 6 x) (rotr 11 x)) (rotr 25 x).
Definition smallSigma0 (x : Z) : Z := Z.lxor (Z.lxor (rotr 7 x) (rotr 18 x)) (Z.shiftr x 3).
Definition smallSigma1 (x : Z) : Z := Z.lxor (Z.lxor (rotr 17 x) (rotr 19 x)) (Z.shiftr x 10).

(** The constants are the first 32 bits of the fractional parts of the
    cube roots of the first sixty-four primes; the initial hash value takes
    the square roots of the first eight. *)
Definition is_prime (n : Z) : bool :=
  forallb (fun d => negb (n mod Z.of_nat d =? 0)) (seq 2 (Z.to_nat n - 2)).

Definition primes : list Z :=
  List.filter is_prime (map Z.of_nat (seq 2 310)).

(** The integer cube root, one bit at a time from bit [bits - 1] down. *)
Fixpoint cube_root_from (bits : nat) (n r : Z) : Z :=
  match bits with
  | O => r
  | S bits' =>
      let r' := r + 2 ^ Z.of_nat bits' in
      cube_root_from bits' n (if r' * r' * r' <=? n then r' else r)
  end.

Definition cube_root (n : Z) : Z := cube_root_from 40 n 0.

Definition round_constants : list Z :=
  Eval vm_compute in map (fun p => cube_root (p * 2 ^ 96) mod 2 ^ 32) primes.

(** The eight working variables, and the chaining value between blocks. *)
Record regs : Type := Regs { ra : Z; rb : Z; rc : Z; rd : Z; re : Z; rf : Z; rg : Z; rh : Z }.

Definition fractional_sqrt (i : nat) : Z :=
  Z.sqrt (nth i primes 0 * 2 ^ 64) mod 2 ^ 32.

Definition initial_hash : regs :=
  Eval vm_compute in
    Regs (fractional_sqrt 0) (fractional_sqrt 1) (fractional_sqrt 2) (fractional_sqrt 3)
         (fractional_sqrt 4) (fractional_sqrt 5) (fractional_sqrt 6) (fractional_sqrt 7).

(** The message schedule is grown with the newest word first, so that
    W(t-2), W(t-7), W(t-15) and W(t-16) sit at offsets 1, 6, 14 and 15. *)
Fixpoint grow_schedule (n : nat) (newest_first : list Z) : list Z :=
  match n with
  | O => newest_first
  | S n' =>
      let at_ i := nth i newest_first 0 in
      let wt := add32 (add32 (add32 (smallSigma1 (at_ 1%nat)) (at_ 6%nat))
                             (smallSigma0 (at_ 14%nat))) (at_ 15%nat) in
      grow_schedule n' (wt :: newest_first)
  end.

Definition schedule (block : list Z) : list Z :=
  rev (grow_schedule 48 (rev block)).

Definition one_round (s : regs) (kw : Z * Z) : regs :=
  let t1 := add32 (add32 (add32 (add32 (rh s) (bigSigma1 (re s)))
                                (Ch (re s) (rf s) (rg s))) (fst kw)) (snd kw) in
  let t2 := add32 (bigSigma0 (ra s)) (Maj (ra s) (rb s) (rc s)) in
  Regs (add32 t1 t2) (ra s) (rb s) (rc s) (add32 (rd s) t1) (re s) (rf s) (rg s).

Definition compress (h : regs) (block : list Z) : regs :=
  let s := fold_left one_round (combine round_constants (schedule block)) h in
  Regs (add32 (ra h) (ra s)) (add32 (rb h) (rb s)) (add32 (rc h) (rc s))
       (add32 (rd h) (rd s)) (add32 (re h) (re s)) (add32 (rf h) (rf s))
       (add32 (rg h) (rg s)) (add32 (rh h) (rh s)).

(** Big-endian bytes of a number, [n] of them. *)
Fixpoint be_bytes (n : nat) (x : Z) : list Z :=
  match n with
  | O => []
  | S n' => (Z.shiftr x (8 * Z.of_nat n')) mod 256 :: be_bytes n' x
  end.

(** Padding: the bit 1, zeros up to 56 modulo 64, the bit length on 8 bytes. *)
Definition pad (msg : list Z) : list Z :=
  let len := Z.of_nat (length msg) in
  let zeros := Z.to_nat ((55 - len) mod 64) in
  msg ++ 0x80 :: repeat 0 zeros ++ be_bytes 8 (8 * len).

Fixpoint words_of_bytes (bs : list Z) : list Z :=
  match bs with
  | b3 :: b2 :: b1 :: b0 :: rest =>
      (((b3 * 256 + b2) * 256 + b1) * 256 + b0) :: words_of_bytes rest
  | _ => []
  end.

(** Hash the words sixteen at a time; [fuel] bounds the number of blocks. *)
Fixpoint absorb (fuel : nat) (h : regs) (ws : list Z) : regs :=
  match fuel, ws with
  | S fuel', _ :: _ => absorb fuel' (compress h (firstn 16 ws)) (skipn 16 ws)
  | _, _ => h
  end.

Definition digest_bytes (h : regs) : list Z :=
  be_bytes 4 (ra h) ++ be_bytes 4 (rb h) ++ be_bytes 4 (rc h) ++ be_bytes 4 (rd h) ++
  be_bytes 4 (re h) ++ be_bytes 4 (rf h) ++ be_bytes 4 (rg h) ++ be_bytes 4 (rh h).

Definition sha256 (msg : list Z) : list Z :=
  let ws := words_of_bytes (pad msg) in
  digest_bytes (absorb (length ws) initial_hash ws).

(** RFC 2104: a key longer than the block is hashed first, then padded
    with zeros to the 64 bytes of a block. *)
Definition block_key (key : list Z) : list Z :=
  let k := if (64 <? Z.of_nat (length key)) then sha256 key else key in
  k ++ repeat 0 (64 - length k)%nat.

Definition hmac_sha256 (key msg : list Z) : list Z :=
  let k := block_key key in
  sha256 (map (Z.lxor 0x5c) k ++ sha256 (map (Z.lxor 0x36) k ++ msg)).

Definition bytes_of_string (s : string) : list Z :=
  map (fun c => Z.of_N (N_of_ascii c)) (list_ascii_of_string s).

Definition hex_digit (d : Z) : ascii :=
  nth (Z.to_nat d) (list_ascii_of_string "0123456789abcdef") "0"%char.

Fixpoint hex (bs : list Z) : string :=
  match bs with
  | [] => ""
  | b :: rest => String (hex_digit (b / 16)) (String (hex_digit (b mod 16)) (hex rest))
  end.

(** [createHmac("sha256", key).update(text).digest("hex")] *)
Definition hmac_sha256_hex (key text : string) : string :=
  hex (hmac_sha256 (bytes_of_string key) (bytes_of_string text)).

Definition sha256_hex (text : string) : string := hex (sha256 (bytes_of_string text)).

(** A lowercase hexadecimal digit. *)
Definition lower_hex (c : ascii) : Prop :=
  In c (list_ascii_of_string "0123456789abcdef").

End Crypto.

(** ** JavaScript values and the conversions the handlers rely on *)

#[local] Set Warnings "-register-all".

Inductive value : Type :=
  | Undefined
  | Null
  | Bool (b : bool)
  | Num (z : Z)
  | Str (s : string)
  | Arr (items : list value)
  | Obj (fields : list (string * value)).

(** The result of a numeric conversion. *)
Inductive number : Type :=
  | NaN
  | Fin (z : Z).

(** The conversions between numbers and text are the runtime's
    floating-point algorithms; they are taken as given. *)
Record Runtime : Type := {
  StringToNumber : string -> number;   (* Number("...") on a string *)
  NumberToString : Z -> string         (* String(n) on a number *)
}.

Module JS.

(** [!!v] *)
Definition truthy (v : value) : bool :=
  match v with
  | Undefined | Null => false
  | Bool b => b
  | Num z => negb (z =? 0)
  | Str s => negb (String.eqb s "")
  | Arr _ | Obj _ => true
  end.

(** [a || b] returns one of its operands. *)
Definition or (a b : value) : value := if truthy a then a else b.

(** [typeof v === "object"] *)
Definition typeof_object (v : value) : bool :=
  match v with
  | Null | Arr _ | Obj _ => true
  | _ => false
  end.

Fixpoint own (fields : list (string * value)) (k : string) : value :=
  match fields with
  | [] => Undefined
  | (k', v) :: rest => if String.eqb k k' then v else own rest k
  end.

(** [v.k] and [v[k]], for the property names the handlers read (none of
    them is an array index, [length] or a prototype method).  Reading a
    property of [undefined] or [null] throws. *)
Definition get (v : value) (k : string) : option value :=
  match v with
  | Undefined | Null => None
  | Obj fields => Some (own fields k)
  | _ => Some Undefined
  end.

Definition has_own (fields : list (string * value)) (k : string) : bool :=
  existsb (fun kv => String.eqb k (fst kv)) fields.

(** [String(v)], a template literal hole and string concatenation.  An
    array is joined with commas, [null] and [undefined] elements giving
    the empty text.  A parsed object has no callable [toString] of its
    own: it prints as [[object Object]], unless an own property shadows
    the inherited method, in which case the conversion throws. *)
Fixpoint ToString (rt : Runtime) (v : value) : option string :=
  match v with
  | Undefined => Some "undefined"
  | Null => Some "null"
  | Bool true => Some "true"
  | Bool false => Some "false"
  | Num z => Some (NumberToString rt z)
  | Str s => Some s
  | Arr items =>
      let element x :=
        match x with
        | Undefined | Null => Some ""
        | _ => ToString rt x
        end in
      (fix join (l : list value) : option string :=
         match l with
         | [] => Some ""
         | [x] => element x
         | x :: rest =>
             match element x, join rest with
             | Some s, Some r => Some (s +:+ "," +:+ r)
             | _, _ => None
             end
         end) items
  | Obj fields => if has_own fields "toString" then None else Some "[object Object]"
  end.

(** [Number(v)] *)
Definition ToNumber (rt : Runtime) (v : value) : option number :=
  match v with
  | Undefined => Some NaN
  | Null => Some (Fin 0)
  | Bool b => Some (Fin (if b then 1 else 0))
  | Num z => Some (Fin z)
  | Str s => Some (StringToNumber rt s)
  | Arr _ | Obj _ => StringToNumber rt <$> ToString rt v
  end.

(** [a === b] on two numbers, and [s === v] for a string [s]. *)
Definition number_eq (a b : number) : bool :=
  match a, b with
  | Fin x, Fin y => x =? y
  | _, _ => false
  end.

Definition string_eq (s : string) (v : value) : bool :=
  match v with
  | Str t => String.eqb s t
  | _ => false
  end.

(** [n || 0] on a number. *)
Definition number_or_zero (n : number) : Z :=
  match n with
  | NaN => 0
  | Fin z => z
  end.

(** White space and line terminators removed by [trim], as UTF-8. *)
Definition white_space : list string :=
  map (fun codes => string_of_list_ascii (map ascii_of_nat codes))
    [ [9]; [10]; [11]; [12]; [13]; [32];
      [194; 160]; [225; 154; 128];
      [226; 128; 128]; [226; 128; 129]; [226; 128; 130]; [226; 128; 131];
      [226; 128; 132]; [226; 128; 133]; [226; 128; 134]; [226; 128; 135];
      [226; 128; 136]; [226; 128; 137]; [226; 128; 138];
      [226; 128; 168]; [226; 128; 169]; [226; 128; 175];
      [226; 129; 159]; [227; 128; 128]; [239; 187; 191] ]%nat.

Definition string_rev (s : string) : string :=
  string_of_list_ascii (rev (list_ascii_of_string s)).

Fixpoint drop_string (n : nat) (s : string) : string :=
  match n, s with
  | S n', String _ rest => drop_string n' rest
  | _, _ => s
  end.

Fixpoint strip (fuel : nat) (table : list string) (s : string) : string :=
  match fuel with
  | O => s
  | S fuel' =>
      match find (fun p => String.prefix p s) table with
      | Some p => strip fuel' table (drop_string (String.length p) s)
      | None => s
      end
  end.

Definition trimStart (s : string) : string := strip (String.length s) white_space s.

Definition trimEnd (s : string) : string :=
  string_rev (strip (String.length s) (map string_rev white_space) (string_rev s)).

(** [s.trim()] *)
Definition trim (s : string) : string := trimEnd (trimStart s).

(** [s.split(sep)[1]] for a string that starts with [sep]: the text
    between the leading separator and the next one. *)
Fixpoint until_separator (sep s : string) : string :=
  if String.prefix sep s then ""
  else match s with
       | "" => ""
       | String c rest => String c (until_separator sep rest)
       end.

End JS.

(** ** The collaborators of the handlers *)

(** What the handlers read of a Razorpay order. *)
Record GatewayOrder : Type := { go_id : string; go_amount : Z }.

(** A field of a Firestore document: data, or the sentinel
    [admin.firestore.FieldValue.serverTimestamp()], which the store turns
    into the time of the write. *)
Inductive stored : Type :=
  | Data (v : value)
  | ServerTimestamp.

Definition document : Type := list (string * stored).

Fixpoint field (doc : document) (k : string) : option stored :=
  match doc with
  | [] => None
  | (k', v) :: rest => if String.eqb k k' then Some v else field rest k
  end.

Record World : Type := {
  runtime : Runtime;
  (* process.env.RAZORPAY_KEY_SECRET *)
  RAZORPAY_KEY_SECRET : option string;
  (* admin.auth().verifyIdToken: the uid of the decoded token, or a rejection *)
  verifyIdToken : string -> option string;
  (* the payment gateway: reachable or not, the orders it holds (newest
     first) and the identifier it gives to its n-th order *)
  gateway_up : bool;
  gateway_orders : list GatewayOrder;
  gateway_new_id : nat -> string;
  (* db.collection("orders"): the documents, the identifiers doc() generates,
     and the writes the store accepts *)
  orders : gmap string document;
  auto_id : nat -> string;
  auto_count : nat;
  store_accepts : string -> document -> bool
}.

Definition with_orders (w : World) (m : gmap string document) : World :=
  {| runtime := runtime w; RAZORPAY_KEY_SECRET := RAZORPAY_KEY_SECRET w;
     verifyIdToken := verifyIdToken w; gateway_up := gateway_up w;
     gateway_orders := gateway_orders w; gateway_new_id := gateway_new_id w;
     orders := m; auto_id := auto_id w; auto_count := auto_count w;
     store_accepts := store_accepts w |}.

Definition with_auto_count (w : World) (n : nat) : World :=
  {| runtime := runtime w; RAZORPAY_KEY_SECRET := RAZORPAY_KEY_SECRET w;
     verifyIdToken := verifyIdToken w; gateway_up := gateway_up w;
     gateway_orders := gateway_orders w; gateway_new_id := gateway_new_id w;
     orders := orders w; auto_id := auto_id w; auto_count := n;
     store_accepts := store_accepts w |}.

Definition with_gateway_orders (w : World) (l : list GatewayOrder) : World :=
  {| runtime := runtime w; RAZORPAY_KEY_SECRET := RAZORPAY_KEY_SECRET w;
     verifyIdToken := verifyIdToken w; gateway_up := gateway_up w;
     gateway_orders := l; gateway_new_id := gateway_new_id w;
     orders := orders w; auto_id := auto_id w; auto_count := auto_count w;
     store_accepts := store_accepts w |}.

(** [razorpay.orders.create(options)]: the gateway records a pending order
    under an identifier of its own and echoes the amount; the promise
    rejects when the gateway cannot be reached. *)
Definition orders_create (w : World) (amount : Z) : option (GatewayOrder * World) :=
  if gateway_up w then
    let order := {| go_id := gateway_new_id w (List.length (gateway_orders w));
                    go_amount := amount |} in
    Some (order, with_gateway_orders w (order :: gateway_orders w))
  else None.

(** [razorpay.orders.fetch(id)]: rejects when the gateway cannot be
    reached or holds no such order. *)
Definition orders_fetch (w : World) (order_id : string) : option GatewayOrder :=
  if gateway_up w
  then find (fun o => String.eqb (go_id o) order_id) (gateway_orders w)
  else None.

(** [ordersCol.doc()]: a reference with a generated identifier. *)
Definition doc_auto (w : World) : string * World :=
  (auto_id w (auto_count w), with_auto_count w (S (auto_count w))).

(** [docRef.set(data)]: writes the whole document (no merge), or rejects. *)
Definition doc_set (w : World) (doc_id : string) (data : document) : option World :=
  if store_accepts w doc_id data
  then Some (with_orders w (<[doc_id := data]> (orders w)))
  else None.

(** ** Requests, responses and the control flow of a handler *)

Record Request : Type := {
  authorization : option string;   (* req.headers.authorization *)
  body : value                     (* req.body, as parsed by bodyParser.json() *)
}.

Inductive Response : Type :=
  | Saved (doc_id : string)                 (* res.json({ success: true, id }) *)
  | Created (order : GatewayOrder)          (* res.json(order) *)
  | Failure (status : Z) (error : string).  (* res.status(status).json({ error }) *)

Definition is_failure (r : Response) : Prop :=
  match r with
  | Failure _ _ => True
  | _ => False
  end.

(** A handler step goes on with a value, ends the handler with a
    response, or throws to the handler's [catch]. *)
Inductive comp (A : Type) : Type :=
  | Next (a : A)
  | Return (r : Response)
  | Throw.
Arguments Next {A} a.
Arguments Return {A} r.
Arguments Throw {A}.

#[global] Instance comp_bind : MBind comp := fun A B k c =>
  match c with
  | Next a => k a
  | Return r => Return r
  | Throw => Throw
  end.

(** A runtime operation that may raise a [TypeError]. *)
Definition attempt {A : Type} (o : option A) : comp A :=
  match o with
  | Some a => Next a
  | None => Throw
  end.

(** [if (cond) return response;] *)
Definition return_if (cond : bool) (r : Response) : comp unit :=
  if cond then Return r else Next tt.

(** ** The revised server: [/create-order] and [/save-order] with
    required fields, optional identity check, signature verification and
    amount reconciliation *)
Module Revised.

(** The responses of [/save-order], under the names of the error taxonomy. *)
Definition OrderDataRequired : Response := Failure 400 "orderData is required".
Definition MissingField (f : string) : Response :=
  Failure 400 ("Missing required field: " +:+ f).
Definition IdentityMismatch : Response :=
  Failure 403 "Auth token UID does not match order userId".
Definition InvalidSignature : Response :=
  Failure 400 "Invalid payment signature - verification failed".
Definition AmountMismatch : Response := Failure 400 "Amount mismatch with Razorpay order".
Definition GatewayVerificationFailed : Response := Failure 500 "Failed to verify Razorpay order".
Definition PersistenceFailure : Response := Failure 500 "Error saving order".

(** The responses of [/create-order]. *)
Definition InvalidAmount : Response := Failure 400 "Valid amount (in paise) is required".
Definition GatewayUnavailable : Response := Failure 500 "Error creating order".

(** [/^Bearer (.+)$/]: the text after the prefix, which must be non-empty
    and free of line terminators. *)
Definition line_terminators : list string :=
  map (fun codes => string_of_list_ascii (map ascii_of_nat codes))
    [ [10]; [13]; [226; 128; 168]; [226; 128; 169] ]%nat.

Fixpoint contains_any (pats : list string) (s : string) : bool :=
  existsb (fun p => String.prefix p s) pats ||
  match s with
  | "" => false
  | String _ rest => contains_any pats rest
  end.

Definition bearer_match (authHeader : string) : option string :=
  if String.prefix "Bearer " authHeader then
    let token := JS.drop_string 7 authHeader in
    if String.eqb token "" || contains_any line_terminators token then None
    else Some token
  else None.

(** The decoded token is represented by its [uid]. *)
Definition verifyIdTokenFromRequest (w : World) (req : Request) : option string :=
  let authHeader := default "" (authorization req) in
  match bearer_match authHeader with
  | None => None
  | Some idToken => verifyIdToken w idToken
  end.

(** *** [POST /create-order] *)
Definition create_order (w : World) (req : Request) : Response * World :=
  let handler : comp (Response * World) :=
    amount ← attempt (JS.get (body req) "amount");
    _ ← return_if (negb (JS.truthy amount)) InvalidAmount;
    n ← attempt (JS.ToNumber (runtime w) amount);
    match n with
    | NaN => Return InvalidAmount                       (* isNaN(amount) *)
    | Fin z =>
        _ ← return_if (z <=? 0) InvalidAmount;          (* Number(amount) <= 0 *)
        (* amount: Math.round(Number(amount)), already paise *)
        created ← attempt (orders_create w z);
        Next (Created (fst created), snd created)
    end in
  match handler with
  | Next rw => rw
  | Return r => (r, w)
  | Throw => (GatewayUnavailable, w)
  end.

(** *** [POST /save-order] *)
Definition required : list string :=
  ["userId"; "total"; "razorpay_payment_id"; "razorpay_order_id"; "razorpay_signature"].

(** [for (const f of required) if (!orderData[f]) return 400] *)
Fixpoint check_required (orderData : value) (fields : list string) : comp unit :=
  match fields with
  | [] => Next tt
  | f :: rest =>
      v ← attempt (JS.get orderData f);
      if negb (JS.truthy v) then Return (MissingField f)
      else check_required orderData rest
  end.

(** [if (decoded) { if (decoded.uid !== orderData.userId) return 403 }];
    without a valid token the handler only logs a warning. *)
Definition check_identity (w : World) (req : Request) (orderData : value) : comp unit :=
  match verifyIdTokenFromRequest w req with
  | Some uid =>
      userId ← attempt (JS.get orderData "userId");
      return_if (negb (JS.string_eq uid userId)) IdentityMismatch
  | None => Next tt
  end.

Definition expectedSignature (w : World) (orderData : value) : comp string :=
  order_id ← attempt (JS.get orderData "razorpay_order_id");
  payment_id ← attempt (JS.get orderData "razorpay_payment_id");
  o ← attempt (JS.ToString (runtime w) order_id);
  p ← attempt (JS.ToString (runtime w) payment_id);
  Next (Crypto.hmac_sha256_hex (default "" (RAZORPAY_KEY_SECRET w)) (o +:+ "|" +:+ p)).

Definition check_signature (w : World) (orderData : value) : comp unit :=
  expected ← expectedSignature w orderData;
  provided ← attempt (JS.get orderData "razorpay_signature");
  return_if (negb (JS.string_eq expected provided)) InvalidSignature.

(** The inner [try]: whatever goes wrong while fetching or comparing ends
    in the 500 of its [catch]. *)
Definition check_amount (w : World) (orderData : value) : comp unit :=
  let fetched : option (number * number) :=
    order_id ← JS.get orderData "razorpay_order_id";
    order_text ← JS.ToString (runtime w) order_id;
    gatewayOrder ← orders_fetch w order_text;
    total ← JS.get orderData "total";
    clientTotal ← JS.ToNumber (runtime w) total;
    Some (Fin (go_amount gatewayOrder), clientTotal) in
  match fetched with
  | Some (gatewayAmount, clientTotal) =>
      return_if (negb (JS.number_eq gatewayAmount clientTotal)) AmountMismatch
  | None => Return GatewayVerificationFailed
  end.

(** The checks up to and including signature verification. *)
Definition authenticate (w : World) (req : Request) : comp value :=
  orderData ← attempt (JS.get (body req) "orderData");
  _ ← return_if (negb (JS.truthy orderData) || negb (JS.typeof_object orderData))
        OrderDataRequired;
  _ ← check_required orderData required;
  _ ← check_identity w req orderData;
  _ ← check_signature w orderData;
  Next orderData.

(** Everything [/save-order] checks before it writes. *)
Definition validate (w : World) (req : Request) : comp value :=
  orderData ← authenticate w req;
  _ ← check_amount w orderData;
  Next orderData.

(** [x && String(x).trim()] *)
Definition trimmed (rt : Runtime) (x : value) : option value :=
  if JS.truthy x then (fun s => Str (JS.trim s)) <$> JS.ToString rt x else Some x.

(** [(order_id && ...) || (razorpay_order_id && ...) || null] *)
Definition candidateId (rt : Runtime) (orderData : value) : option value :=
  order_id ← JS.get orderData "order_id";
  first ← trimmed rt order_id;
  if JS.truthy first then Some first
  else
    razorpay_order_id ← JS.get orderData "razorpay_order_id";
    second ← trimmed rt razorpay_order_id;
    Some (JS.or second Null).

(** [(c && c.k)] *)
Definition and_get (c : value) (k : string) : option value :=
  if JS.truthy c then JS.get c k else Some c.

Definition format_address (rt : Runtime) (customer : value) : option value :=
  address ← and_get customer "address";
  if JS.truthy address then
    a ← JS.get customer "address"; city ← JS.get customer "city";
    state ← JS.get customer "state"; pin ← JS.get customer "pin";
    sa ← JS.ToString rt a; sc ← JS.ToString rt (JS.or city (Str ""));
    ss ← JS.ToString rt (JS.or state (Str "")); sp ← JS.ToString rt (JS.or pin (Str ""));
    Some (Str (sa +:+ ", " +:+ sc +:+ ", " +:+ ss +:+ " - " +:+ sp))
  else Some Null.

Definition format_item (it : value) : option value :=
  name ← JS.get it "name"; qty ← JS.get it "qty";
  quantity ← JS.get it "quantity"; price ← JS.get it "price";
  Some (Obj [("name", name);
             ("quantity", JS.or (JS.or qty quantity) (Num 1));
             ("price", JS.or price (Num 0))]).

Definition format_items (items : value) : option value :=
  match items with
  | Arr l => Arr <$> mapM format_item l
  | _ => Some (Arr [])
  end.

Definition number_field (rt : Runtime) (v : value) : option value :=
  (fun n => Num (JS.number_or_zero n)) <$> JS.ToNumber rt v.

Definition formattedOrder (rt : Runtime) (finalDocId : string) (orderData : value)
  : option document :=
  userId ← JS.get orderData "userId";
  customer ← JS.get orderData "customer";
  name ← and_get customer "name";
  phone ← and_get customer "phone";
  address ← format_address rt customer;
  subtotal ← JS.get orderData "subtotal" ≫= number_field rt;
  shipping ← JS.get orderData "shipping" ≫= number_field rt;
  total ← JS.get orderData "total" ≫= number_field rt;
  payment_id ← JS.get orderData "razorpay_payment_id";
  order_id ← JS.get orderData "razorpay_order_id";
  signature ← JS.get orderData "razorpay_signature";
  status ← JS.get orderData "status";
  items ← JS.get orderData "items" ≫= format_items;
  Some [ ("orderId", Data (Str finalDocId));
         ("userId", Data userId);
         ("customerName", Data (JS.or name Null));
         ("phone", Data (JS.or phone Null));
         ("address", Data address);
         ("subtotal", Data subtotal);
         ("shipping", Data shipping);
         ("totalAmount", Data total);
         ("paymentId", Data (JS.or payment_id Null));
         ("razorpay_order_id", Data (JS.or order_id Null));
         ("razorpay_signature", Data (JS.or signature Null));
         ("paymentStatus", Data (JS.or status (Str "Paid")));
         ("items", Data items);
         ("createdAt", ServerTimestamp);
         ("rawPayload", Data orderData) ].

(** Step 3 of the handler: choose the document, build it, write it. *)
Definition persist (w : World) (orderData : value) : Response * World :=
  match candidateId (runtime w) orderData with
  | None => (PersistenceFailure, w)
  | Some candidate =>
      (* candidateId ? ordersCol.doc(candidateId) : ordersCol.doc(); the
         candidate is a non-empty string or null *)
      let '(finalDocId, w1) :=
        match candidate with
        | Str s => (s, w)
        | _ => doc_auto w
        end in
      match formattedOrder (runtime w) finalDocId orderData ≫= doc_set w1 finalDocId with
      | Some w2 => (Saved finalDocId, w2)
      | None => (PersistenceFailure, w1)
      end
  end.

Definition save_order (w : World) (req : Request) : Response * World :=
  match validate w req with
  | Next orderData => persist w orderData
  | Return r => (r, w)
  | Throw => (PersistenceFailure, w)
  end.

End Revised.

(** ** [server.js], the drop-in replacement: [/save-order] behind the
    token middleware, with [verifyRazorpaySignature] *)
Module DropIn.

Definition Unauthenticated_header : Response :=
  Failure 401 "Missing or invalid Authorization header".
Definition Unauthenticated_token : Response := Failure 401 "Unauthorized: Invalid token".
Definition MissingOrderData : Response := Failure 400 "Missing orderData".
Definition InvalidSignature : Response := Failure 400 "Invalid payment signature.".
Definition PersistenceFailure : Response := Failure 500 "Error saving order in Firebase".
Definition InvalidAmount : Response := Failure 400 "Valid amount is required".
Definition GatewayUnavailable : Response := Failure 500 "Error creating order".

(** The middleware; [req.user] is represented by its [uid]. *)
Definition verifyFirebaseToken (w : World) (req : Request) : comp string :=
  let authHeader := default "" (authorization req) in
  if negb (String.prefix "Bearer " authHeader) then Return Unauthenticated_header
  else
    (* authHeader.split("Bearer ")[1].trim() *)
    let idToken := JS.trim (JS.until_separator "Bearer " (JS.drop_string 7 authHeader)) in
    match verifyIdToken w idToken with
    | Some uid => Next uid
    | None => Return Unauthenticated_token
    end.

(** Any exception inside is caught and counts as a failed verification. *)
Definition verifyRazorpaySignature (w : World) (order_id payment_id signature : value) : bool :=
  if negb (JS.truthy order_id) || negb (JS.truthy payment_id) || negb (JS.truthy signature)
  then false
  else
    match JS.ToString (runtime w) order_id, JS.ToString (runtime w) payment_id with
    | Some o, Some p =>
        let body := o +:+ "|" +:+ p in
        let expected := Crypto.hmac_sha256_hex (default "" (RAZORPAY_KEY_SECRET w)) body in
        JS.string_eq expected signature
    | _, _ => false
    end.

Definition isNonEmptyString (v : value) : bool :=
  match v with
  | Str s => negb (String.eqb (JS.trim s) "")
  | _ => false
  end.

(** *** [POST /create-order] *)
Definition create_order (w : World) (req : Request) : Response * World :=
  let handler : comp (Response * World) :=
    amount ← attempt (JS.get (body req) "amount");
    _ ← return_if (negb (JS.truthy amount)) InvalidAmount;
    n ← attempt (JS.ToNumber (runtime w) amount);
    match n with
    | NaN => Return InvalidAmount                       (* isNaN(amount) *)
    | Fin z =>
        _ ← return_if (z <=? 0) InvalidAmount;          (* amount <= 0 *)
        (* amount in paise: Math.round(amount * 100) *)
        created ← attempt (orders_create w (z * 100));
        Next (Created (fst created), snd created)
    end in
  match handler with
  | Next rw => rw
  | Return r => (r, w)
  | Throw => (GatewayUnavailable, w)
  end.

(** *** [POST /save-order] *)

(** A destructuring default: [{ k = d } = orderData]. *)
Definition get_default (v : value) (k : string) (d : value) : option value :=
  (fun x => match x with Undefined => d | _ => x end) <$> JS.get v k.

(** [c ? sep + c : ""] inside the address template. *)
Definition address_part (rt : Runtime) (sep : string) (c : value) : option string :=
  if JS.truthy c then (fun s => sep +:+ s) <$> JS.ToString rt c else Some "".

Definition format_address (rt : Runtime) (customer : value) : option value :=
  address ← JS.get customer "address"; city ← JS.get customer "city";
  state ← JS.get customer "state"; pin ← JS.get customer "pin";
  sa ← JS.ToString rt (JS.or address (Str ""));
  sc ← address_part rt ", " city;
  ss ← address_part rt ", " state;
  sp ← address_part rt " - " pin;
  Some (Str (JS.trim (sa +:+ sc +:+ ss +:+ sp))).

Definition format_item (item : value) : option value :=
  name ← JS.get item "name"; qty ← JS.get item "qty"; price ← JS.get item "price";
  Some (Obj [("name", name); ("quantity", qty); ("price", price)]).

(** [(items || []).map(...)]: calling [map] on anything but an array throws. *)
Definition format_items (items : value) : option value :=
  match JS.or items (Arr []) with
  | Arr l => Arr <$> mapM format_item l
  | _ => None
  end.

Definition formattedOrder (rt : Runtime) (uid : string) (orderData : value)
  : option document :=
  items ← get_default orderData "items" (Arr []);
  subtotal ← JS.get orderData "subtotal";
  shipping ← JS.get orderData "shipping";
  total ← JS.get orderData "total";
  customer ← get_default orderData "customer" (Obj []);
  payment_id ← JS.get orderData "payment_id";
  order_id ← JS.get orderData "order_id";
  signature ← JS.get orderData "signature";
  name ← JS.get customer "name";
  phone ← JS.get customer "phone";
  address ← format_address rt customer;
  formatted_items ← format_items items;
  Some [ ("userid", Data (Str uid));
         ("customerName", Data (JS.or name (Str "")));
         ("phone", Data (JS.or phone (Str "")));
         ("address", Data address);
         ("totalAmount", Data total);
         ("subtotal", Data subtotal);
         ("shipping", Data shipping);
         ("paymentId", Data payment_id);
         ("orderId", Data order_id);
         ("paymentStatus", Data (Str "Paid"));
         ("datePlaced", ServerTimestamp);
         ("items", Data formatted_items);
         ("razorpaySignature", Data (JS.or signature Null)) ].

(** The text of a value known to be a string. *)
Definition string_of (v : value) : string :=
  match v with
  | Str s => s
  | _ => ""
  end.

(** Steps 3 to 5 of the handler. *)
Definition persist (w : World) (uid : string) (orderData : value) : Response * World :=
  match JS.get orderData "order_id", JS.get orderData "payment_id" with
  | Some order_id, Some payment_id =>
      let '(docId, w1) :=
        if isNonEmptyString order_id then (string_of order_id, w)
        else if isNonEmptyString payment_id then (string_of payment_id, w)
        else doc_auto w in
      match formattedOrder (runtime w) uid orderData ≫= doc_set w1 docId with
      | Some w2 => (Saved docId, w2)
      | None => (PersistenceFailure, w1)
      end
  | _, _ => (PersistenceFailure, w)
  end.

Definition save_order_handler (w : World) (uid : string) (req : Request) : Response * World :=
  let checks : comp value :=
    orderData ← attempt (JS.get (body req) "orderData");
    _ ← return_if (negb (JS.truthy orderData)) MissingOrderData;
    order_id ← attempt (JS.get orderData "order_id");
    payment_id ← attempt (JS.get orderData "payment_id");
    signature ← attempt (JS.get orderData "signature");
    let sigOk := verifyRazorpaySignature w order_id payment_id signature in
    _ ← return_if (negb sigOk) InvalidSignature;
    Next orderData in
  match checks with
  | Next orderData => persist w uid orderData
  | Return r => (r, w)
  | Throw => (PersistenceFailure, w)
  end.

(** The route: the middleware, then the handler. *)
Definition save_order (w : World) (req : Request) : Response * World :=
  match verifyFirebaseToken w req with
  | Next uid => save_order_handler w uid req
  | Return r => (r, w)
  | Throw => (Unauthenticated_token, w)
  end.

End DropIn.

(** ** The hardened server: [/save-order] without signature verification *)
Module Hardened.

Definition OrderDataRequired : Response := Failure 400 "orderData is required".
Definition CustomerMissing : Response :=
  Failure 400 "Customer information missing (customer.name required)".
Definition PersistenceFailure : Response := Failure 500 "Error saving order in Firebase".

(** [.replace(/(^[,\s]+|[,\s]+$)/g, "")]: the leading and the trailing run
    of commas and white space are removed. *)
Definition strip_commas (s : string) : string :=
  let table := "," :: JS.white_space in
  let s' := JS.strip (String.length s) table s in
  JS.string_rev (JS.strip (String.length s') (map JS.string_rev table) (JS.string_rev s')).

Definition format_address (rt : Runtime) (customer : value) : option value :=
  address ← JS.get customer "address"; city ← JS.get customer "city";
  state ← JS.get customer "state"; pin ← JS.get customer "pin";
  sa ← JS.ToString rt (JS.or address (Str "")); sc ← JS.ToString rt (JS.or city (Str ""));
  ss ← JS.ToString rt (JS.or state (Str "")); sp ← JS.ToString rt (JS.or pin (Str ""));
  Some (Str (strip_commas (sa +:+ ", " +:+ sc +:+ ", " +:+ ss +:+ " - " +:+ sp))).

Definition format_item (it : value) : option value :=
  name ← JS.get it "name"; qty ← JS.get it "qty"; price ← JS.get it "price";
  Some (Obj [("name", name); ("quantity", qty); ("price", price)]).

Definition format_items (items : value) : option value :=
  match items with
  | Arr l => Arr <$> mapM format_item l
  | _ => Some (Arr [])
  end.

Definition formattedOrder (rt : Runtime) (finalDocId : string) (orderData : value)
  : option document :=
  userId ← JS.get orderData "userId";
  customer ← JS.get orderData "customer";
  name ← JS.get customer "name";
  phone ← JS.get customer "phone";
  address ← format_address rt customer;
  subtotal ← JS.get orderData "subtotal" ≫= Revised.number_field rt;
  shipping ← JS.get orderData "shipping" ≫= Revised.number_field rt;
  total ← JS.get orderData "total" ≫= Revised.number_field rt;
  payment_id ← JS.get orderData "payment_id";
  order_id ← JS.get orderData "razorpay_order_id";
  signature ← JS.get orderData "razorpay_signature";
  status ← JS.get orderData "status";
  items ← JS.get orderData "items" ≫= format_items;
  Some [ ("orderId", Data (Str finalDocId));
         ("userId", Data (JS.or userId Null));
         ("customerName", Data (JS.or name Null));
         ("phone", Data (JS.or phone Null));
         ("address", Data address);
         ("subtotal", Data subtotal);
         ("shipping", Data shipping);
         ("totalAmount", Data total);
         ("paymentId", Data (JS.or payment_id Null));
         ("razorpay_order_id", Data (JS.or order_id Null));
         ("razorpay_signature", Data (JS.or signature Null));
         ("paymentStatus", Data (JS.or status (Str "Unknown")));
         ("items", Data items);
         ("createdAt", ServerTimestamp);
         ("rawPayload", Data orderData) ].

(** The document is chosen by the same expression as in the revised
    server. *)
Definition save_order (w : World) (req : Request) : Response * World :=
  let checks : comp value :=
    orderData ← attempt (JS.get (body req) "orderData");
    _ ← return_if (negb (JS.truthy orderData) || negb (JS.typeof_object orderData))
          OrderDataRequired;
    customer ← attempt (JS.get orderData "customer");
    _ ← return_if (negb (JS.truthy customer)) CustomerMissing;
    name ← attempt (JS.get customer "name");
    _ ← return_if (negb (JS.truthy name)) CustomerMissing;
    Next orderData in
  match checks with
  | Next orderData =>
      match Revised.candidateId (runtime w) orderData with
      | None => (PersistenceFailure, w)
      | Some candidate =>
          let '(finalDocId, w1) :=
            match candidate with
            | Str s => (s, w)
            | _ => doc_auto w
            end in
          match formattedOrder (runtime w) finalDocId orderData ≫= doc_set w1 finalDocId with
          | Some w2 => (Saved finalDocId, w2)
          | None => (PersistenceFailure, w1)
          end
      end
  | Return r => (r, w)
  | Throw => (PersistenceFailure, w)
  end.

(** *** [POST /create-order]: the amount comes in rupees *)
Definition InvalidAmount : Response := Failure 400 "Valid amount is required".
Definition GatewayUnavailable : Response := Failure 500 "Error creating order".

(** The answer [{ success: true, order }] is represented by its order. *)
Definition create_order (w : World) (req : Request) : Response * World :=
  let handler : comp (Response * World) :=
    amount ← attempt (JS.get (body req) "amount");
    _ ← return_if (negb (JS.truthy amount)) InvalidAmount;
    n ← attempt (JS.ToNumber (runtime w) amount);
    match n with
    | NaN => Return InvalidAmount                       (* isNaN(amount) *)
    | Fin z =>
        _ ← return_if (z <=? 0) InvalidAmount;          (* Number(amount) <= 0 *)
        (* amount: Math.round(Number(amount) * 100), paise *)
        created ← attempt (orders_create w (z * 100));
        Next (Created (fst created), snd created)
    end in
  match handler with
  | Next rw => rw
  | Return r => (r, w)
  | Throw => (GatewayUnavailable, w)
  end.

End Hardened.

(** ** The basic server: [/create-order] and [/save-order] as first
    written, the payload stored as it comes *)
Module Basic.

Definition InvalidAmount : Response := Failure 400 "Valid amount is required".
Definition GatewayUnavailable : Response := Failure 500 "Error creating order".
Definition PersistenceFailure : Response := Failure 500 "Error saving order in Firebase".

(** *** [POST /create-order] *)
Definition create_order (w : World) (req : Request) : Response * World :=
  let handler : comp (Response * World) :=
    amount ← attempt (JS.get (body req) "amount");
    _ ← return_if (negb (JS.truthy amount)) InvalidAmount;
    n ← attempt (JS.ToNumber (runtime w) amount);
    match n with
    | NaN => Return InvalidAmount                       (* isNaN(amount) *)
    | Fin z =>
        _ ← return_if (z <=? 0) InvalidAmount;          (* amount <= 0 *)
        (* the smallest unit: Math.round(amount * 100) *)
        created ← attempt (orders_create w (z * 100));
        Next (Created (fst created), snd created)
    end in
  match handler with
  | Next rw => rw
  | Return r => (r, w)
  | Throw => (GatewayUnavailable, w)
  end.

(** *** [POST /save-order] *)

(** The address template has no defaults: a part that is missing prints
    as [undefined]. *)
Definition format_address (rt : Runtime) (customer : value) : option value :=
  address ← JS.get customer "address"; city ← JS.get customer "city";
  state ← JS.get customer "state"; pin ← JS.get customer "pin";
  sa ← JS.ToString rt address; sc ← JS.ToString rt city;
  ss ← JS.ToString rt state; sp ← JS.ToString rt pin;
  Some (Str (sa +:+ ", " +:+ sc +:+ ", " +:+ ss +:+ " - " +:+ sp)).

Definition format_item (item : value) : option value :=
  name ← JS.get item "name"; qty ← JS.get item "qty"; price ← JS.get item "price";
  Some (Obj [("name", name); ("quantity", qty); ("price", price)]).

(** [orderData.items.map(...)]: only an array has a [map] to call. *)
Definition format_items (items : value) : option value :=
  match items with
  | Arr l => Arr <$> mapM format_item l
  | _ => None
  end.

Definition formattedOrder (rt : Runtime) (orderData : value) : option document :=
  customer ← JS.get orderData "customer";
  name ← JS.get customer "name";
  phone ← JS.get customer "phone";
  address ← format_address rt customer;
  total ← JS.get orderData "total";
  subtotal ← JS.get orderData "subtotal";
  shipping ← JS.get orderData "shipping";
  payment_id ← JS.get orderData "payment_id";
  order_id ← JS.get orderData "order_id";
  status ← JS.get orderData "status";
  items ← JS.get orderData "items" ≫= format_items;
  Some [ ("customerName", Data name);
         ("phone", Data phone);
         ("address", Data address);
         ("totalAmount", Data total);
         ("subtotal", Data subtotal);
         ("shipping", Data shipping);
         ("paymentId", Data payment_id);
         ("orderId", Data order_id);
         ("paymentStatus", Data status);
         ("datePlaced", ServerTimestamp);
         ("items", Data items) ].

(** [db.collection("orders").doc(docId)] with an argument: the identifier
    has to be a non-empty string, anything else makes the call throw (the
    reason for step 3 of [server.js]: no undefined or empty string is to
    be passed to [doc()]). *)
Definition doc_path (docId : value) : option string :=
  match docId with
  | Str s => if String.eqb s "" then None else Some s
  | _ => None
  end.

(** Whatever throws ends in the 500 of the handler's [catch]. *)
Definition save_order (w : World) (req : Request) : Response * World :=
  let handler : option (Response * World) :=
    orderData ← JS.get (body req) "orderData";
    formatted ← formattedOrder (runtime w) orderData;
    docId ← JS.get orderData "order_id" ≫= doc_path;
    w' ← doc_set w docId formatted;
    Some (Saved docId, w') in
  default (PersistenceFailure, w) handler.

End Basic.

(** ** The inputs of the examples, and statements about the handlers *)
Module Example.

(** The examples convert no number to or from text. *)
Definition rt : Runtime :=
  {| StringToNumber := fun _ => NaN; NumberToString := fun _ => "" |}.

(** A world with a signing secret, an identity provider that knows one
    token, a reachable gateway holding no order yet and an empty store
    that accepts every write. *)
Definition world : World :=
  {| runtime := rt;
     RAZORPAY_KEY_SECRET := Some "test_secret";
     verifyIdToken := fun t => if String.eqb t "token-u1" then Some "u1" else None;
     gateway_up := true;
     gateway_orders := [];
     gateway_new_id := fun n => "order_1";
     orders := ∅;
     auto_id := fun n => "auto_" +:+ pretty n;
     auto_count := 0;
     store_accepts := fun _ _ => true |}.

(** The same, once the gateway holds the order of 50000 paise. *)
Definition world_50000 : World :=
  with_gateway_orders world [ {| go_id := "order_1"; go_amount := 50000 |} ].

Definition signature_1 : string :=
  Crypto.hmac_sha256_hex "test_secret" "order_1|pay_1".

Definition confirm (credential : option string) (orderData : value) : Request :=
  {| authorization := credential; body := Obj [("orderData", orderData)] |}.

Definition initiate (amount : value) : Request :=
  {| authorization := None; body := Obj [("amount", amount)] |}.

(** The payload of the end-to-end scenario of the specification. *)
Definition scenario_fields (signature : string) : list (string * value) :=
  [ ("razorpay_order_id", Str "order_1"); ("razorpay_payment_id", Str "pay_1");
    ("razorpay_signature", Str signature); ("total", Num 10000);
    ("customer", Obj [("name", Str "A")]) ].

Definition fields_of (userId : string) (total : Z) : list (string * value) :=
  [ ("userId", Str userId); ("total", Num total);
    ("razorpay_order_id", Str "order_1"); ("razorpay_payment_id", Str "pay_1");
    ("razorpay_signature", Str signature_1) ].

Definition payload_fields (total : Z) : list (string * value) := fields_of "u1" total.

Definition payload (total : Z) : value := Obj (payload_fields total).

(** A payload with a forged signature and no [userId]. *)
Definition forged_anonymous : value :=
  Obj [ ("total", Num 50000);
        ("razorpay_order_id", Str "order_1"); ("razorpay_payment_id", Str "pay_1");
        ("razorpay_signature", Str "forged") ].

(** A payload that claims another user and carries nothing else. *)
Definition only_userId : value := Obj [ ("userId", Str "u2") ].

(** The world without the signing secret in its environment. *)
Definition world_no_secret : World :=
  {| runtime := rt;
     RAZORPAY_KEY_SECRET := None;
     verifyIdToken := verifyIdToken world;
     gateway_up := true;
     gateway_orders := [ {| go_id := "order_1"; go_amount := 50000 |} ];
     gateway_new_id := gateway_new_id world;
     orders := ∅;
     auto_id := auto_id world;
     auto_count := 0;
     store_accepts := fun _ _ => true |}.

(** A payload in the shape [server.js] reads, without any amount. *)
Definition dropin_payload (signature : value) : value :=
  Obj [ ("order_id", Str "order_1"); ("payment_id", Str "pay_1");
        ("signature", signature) ].

(** A payload that names its own document, with blanks around the name. *)
Definition named_payload : value :=
  Obj (("order_id", Str " abc ") :: payload_fields 50000).

(** A world whose gateway holds an order under a blank identifier, and
    the payload that confirms it. *)
Definition world_blank : World :=
  with_gateway_orders world [ {| go_id := " "; go_amount := 50000 |} ].

Definition blank_payload : value :=
  Obj [ ("userId", Str "u1"); ("total", Num 50000);
        ("razorpay_order_id", Str " "); ("razorpay_payment_id", Str "pay_1");
        ("razorpay_signature", Str (Crypto.hmac_sha256_hex "test_secret" " |pay_1")) ].

(** A payload with two items, one of them bare. *)
Definition payload_with_items : value :=
  Obj (("items", Arr [ Obj [("name", Str "rice"); ("qty", Num 2); ("price", Num 25000)];
                       Obj [("name", Str "salt")] ])
       :: payload_fields 50000).

(** A payload without its signature. *)
Definition unsigned : value :=
  Obj [ ("userId", Str "u1"); ("total", Num 50000);
        ("razorpay_order_id", Str "order_1"); ("razorpay_payment_id", Str "pay_1") ].

End Example.

Module Spec.

(** The payload carries a truthy value for each required field. *)
Definition complete (fields : list (string * value)) : bool :=
  forallb (fun f => JS.truthy (JS.own fields f)) Revised.required.

(** C1 as it is written, at one request: whenever the three signature
    fields are present and the signature is not the digest, the answer is
    [InvalidSignature] and the world is unchanged. *)
Definition signature_claim_as_written (w : World) (req : Request) : Prop :=
  forall orderData order_id payment_id signature,
    JS.get (body req) "orderData" = Some orderData ->
    JS.get orderData "razorpay_order_id" = Some (Str order_id) ->
    JS.get orderData "razorpay_payment_id" = Some (Str payment_id) ->
    JS.get orderData "razorpay_signature" = Some (Str signature) ->
    signature <> Crypto.hmac_sha256_hex (default "" (RAZORPAY_KEY_SECRET w))
                   (order_id +:+ "|" +:+ payment_id) ->
    Revised.save_order w req = (Revised.InvalidSignature, w).


(** C8 as it is written, at one request: a verified credential whose
    subject is not the payload's [userId] is answered with
    [IdentityMismatch]. *)
Definition identity_claim_as_written (w : World) (req : Request) : Prop :=
  forall uid orderData userId,
    Revised.verifyIdTokenFromRequest w req = Some uid ->
    JS.get (body req) "orderData" = Some orderData ->
    JS.get orderData "userId" = Some userId ->
    userId <> Str uid ->
    Revised.save_order w req = (Revised.IdentityMismatch, w).










(** The gateway issues no blank identifier. *)
Definition gateway_ids_nonblank (w : World) : bool :=
  forallb (fun o => negb (String.eqb (JS.trim (go_id o)) "")) (gateway_orders w).

End Spec.

(** ** Notions used to state what the handlers keep *)
Module Property.

(** The confirmation handlers of the four servers. *)
Definition confirmation_handlers : list (World -> Request -> Response * World) :=
  [ Revised.save_order; DropIn.save_order; Hardened.save_order; Basic.save_order ].

(** The initiation handlers that take the amount in rupees. *)
Definition rupee_handlers : list (World -> Request -> Response * World) :=
  [ DropIn.create_order; Hardened.create_order; Basic.create_order ].

(** The initiation handlers of the four servers. *)
Definition initiation_handlers : list (World -> Request -> Response * World) :=
  Revised.create_order :: rupee_handlers.

(** What a confirmation does to the world: one write, under the
    identifier it returns, when it succeeds and none when it fails; besides,
    at most the count of generated identifiers moves. *)
Definition confirmation_effect (w : World) (rw : Response * World) : Prop :=
  exists n,
    match fst rw with
    | Saved doc_id =>
        exists doc,
          store_accepts w doc_id doc = true /\
          snd rw = with_orders (with_auto_count w n) (<[doc_id := doc]> (orders w))
    | _ => snd rw = with_auto_count w n
    end.

(** A record of the revised server carries the digest, under [secret],
    of its own gateway order and payment identifiers. *)
Definition signed (rt : Runtime) (secret : string) (doc : document) : Prop :=
  exists order_id payment_id o p,
    field doc "razorpay_order_id" = Some (Data order_id) /\
    field doc "paymentId" = Some (Data payment_id) /\
    JS.ToString rt order_id = Some o /\
    JS.ToString rt payment_id = Some p /\
    field doc "razorpay_signature"
    = Some (Data (Str (Crypto.hmac_sha256_hex secret (o +:+ "|" +:+ p)))).

(** Every document of the store is signed. *)
Definition signed_store (w : World) : Prop :=
  forall doc_id doc,
    orders w !! doc_id = Some doc ->
    signed (runtime w) (default "" (RAZORPAY_KEY_SECRET w)) doc.

(** Removing the entries of a table from both ends of a text, as [trim]
    does for white space and the address pattern of the hardened server
    for commas and white space. *)
Definition strip_both_ends (table : list string) (s : string) : string :=
  let s' := JS.strip (String.length s) table s in
  JS.string_rev
    (JS.strip (String.length s') (map JS.string_rev table) (JS.string_rev s')).

(** No entry of the table begins or ends the text. *)
Definition bare (table : list string) (s : string) : Prop :=
  forall p t, In p table -> s <> p +:+ t /\ s <> t +:+ p.

(** The responses of the revised [/save-order]. *)
Definition revised_response (r : Response) : Prop :=
  r = Revised.OrderDataRequired \/
  (exists f, In f Revised.required /\ r = Revised.MissingField f) \/
  r = Revised.IdentityMismatch \/
  r = Revised.InvalidSignature \/
  r = Revised.AmountMismatch \/
  r = Revised.GatewayVerificationFailed \/
  r = Revised.PersistenceFailure \/
  exists doc_id, r = Saved doc_id.

(** The responses of the [/save-order] route of [server.js]. *)
Definition dropin_response (r : Response) : Prop :=
  r = DropIn.Unauthenticated_header \/
  r = DropIn.Unauthenticated_token \/
  r = DropIn.MissingOrderData \/
  r = DropIn.InvalidSignature \/
  r = DropIn.PersistenceFailure \/
  exists doc_id, r = Saved doc_id.

End Property.

(** ** Further inputs *)
Module Sample.

(** The payload of [server.js] with the signature of the example world,
    and a request that carries it with the token the provider knows. *)
Definition signed_dropin : value := Example.dropin_payload (Str Example.signature_1).

Definition authenticated (orderData : value) : Request :=
  Example.confirm (Some "Bearer token-u1") orderData.

(** A payload of the hardened server: a customer, nothing else. *)
Definition customer_only : value :=
  Obj [ ("customer", Obj [("name", Str "A"); ("city", Str "Erode")]) ].

(** A payload of the basic server. *)
Definition basic_payload : value :=
  Obj [ ("order_id", Str "order_1"); ("status", Str "Pending");
        ("total", Num 10000); ("items", Arr [ Obj [("name", Str "rice")] ]);
        ("customer", Obj [("name", Str "A")]) ].

End Sample.

(** * Properties *)

(** ** The digest *)
Module CryptoFacts.
Import Crypto.

(** The test vectors of FIPS 180-4 (one-block message, empty message) and
    an HMAC vector with a short key and with a key longer than a block. *)
Example sha256_abc :
  sha256_hex "abc" = "ba7816bf8f01cfea414140de5dae2223b00361a396177a9cb410ff61f20015ad".
Proof. vm_compute. reflexivity. Qed.

Example sha256_empty :
  sha256_hex "" = "e3b0c44298fc1c149afbf4c8996fb92427ae41e4649b934ca495991b7852b855".
Proof. vm_compute. reflexivity. Qed.

Example hmac_short_key :
  hmac_sha256_hex "key" "The quick brown fox jumps over the lazy dog"
  = "f7bc83f430538424b13298e6aa6fb143ef4d59a14946175997479dbc2d1a3cd8".
Proof. vm_compute. reflexivity. Qed.

Example hmac_long_key :
  hmac_sha256_hex
    "kkkkkkkkkkkkkkkkkkkkkkkkkkkkkkkkkkkkkkkkkkkkkkkkkkkkkkkkkkkkkkkkkkkkkk"
    "xxxxxxxxxxxxxxxxxxxxxxxxxxxxxxxxxxxxxxxxxxxxxxxxxxxxxxxxxxxxxxxxxxxxxxxxxxxxxxxxxxxxxxxxxxxxxxxxxxxxxxxxxxxxxxxxxxxxxxxxxxxxxxxxxx"
  = "65f3828fb4164fc0fce3be71ca4cf0a8915b8e484444e7765ab030abe4c28ac0".
Proof. vm_compute. reflexivity. Qed.

Lemma hex_length (bs : list Z) : String.length (hex bs) = (2 * List.length bs)%nat.
Proof.
  induction bs as [|b bs IH]; simpl; [reflexivity|].
  rewrite IH. lia.
Qed.

Lemma digest_bytes_length (h : regs) : List.length (digest_bytes h) = 32%nat.
Proof. reflexivity. Qed.

(** A hexadecimal SHA-256 digest has 64 characters. *)
Lemma hmac_hex_length (key text : string) :
  String.length (hmac_sha256_hex key text) = 64%nat.
Proof.
  unfold hmac_sha256_hex, hmac_sha256.
  rewrite hex_length. unfold sha256 at 1.
  rewrite digest_bytes_length. reflexivity.
Qed.

Lemma hex_digit_lower (d : Z) : lower_hex (hex_digit d).
Proof.
  unfold hex_digit, lower_hex.
  destruct (nth_in_or_default (Z.to_nat d) (list_ascii_of_string "0123456789abcdef")
              "0"%char) as [H | ->]; [exact H | simpl; auto].
Qed.

Lemma hex_lower (bs : list Z) : Forall lower_hex (list_ascii_of_string (hex bs)).
Proof.
  induction bs as [|b bs IH]; simpl; constructor; [|constructor]; auto using hex_digit_lower.
Qed.

(** ... all of them lowercase hexadecimal digits. *)
Lemma hmac_hex_lower (key text : string) :
  Forall lower_hex (list_ascii_of_string (hmac_sha256_hex key text)).
Proof. apply hex_lower. Qed.

Lemma hmac_hex_nonempty (key text : string) : hmac_sha256_hex key text <> "".
Proof.
  intros E. pose proof (hmac_hex_length key text) as L.
  rewrite E in L. discriminate L.
Qed.

End CryptoFacts.

#[global] Arguments Crypto.hmac_sha256_hex : simpl never.
#[global] Opaque Crypto.hmac_sha256_hex.
#[global] Arguments JS.trim : simpl never.
#[global] Arguments Revised.check_required : simpl never.
#[global] Arguments Revised.check_identity : simpl never.
#[global] Arguments Revised.check_signature : simpl never.
#[global] Arguments Revised.check_amount : simpl never.
#[global] Arguments Revised.persist : simpl never.
#[global] Arguments Revised.required : simpl never.

(** ** Values *)
Module JSFacts.

Lemma string_eq_true (s : string) (v : value) : JS.string_eq s v = true <-> v = Str s.
Proof.
  destruct v; simpl; try (split; [discriminate | intros [=]]).
  rewrite String.eqb_eq. split; [intros -> | intros [= ->]]; reflexivity.
Qed.

Lemma string_eq_refl (s : string) : JS.string_eq s (Str s) = true.
Proof. apply string_eq_true. reflexivity. Qed.

Lemma truthy_Str (s : string) : JS.truthy (Str s) = true <-> s <> "".
Proof.
  simpl. rewrite negb_true_iff. split.
  - intros H ->. discriminate H.
  - intros H. apply String.eqb_neq. exact H.
Qed.

Lemma truthy_digest (key text : string) :
  JS.truthy (Str (Crypto.hmac_sha256_hex key text)) = true.
Proof. apply truthy_Str, CryptoFacts.hmac_hex_nonempty. Qed.

(** Reading a property of a truthy value never throws. *)
Lemma get_truthy (v : value) (k : string) : JS.truthy v = true -> is_Some (JS.get v k).
Proof. destruct v; simpl; intros H; try discriminate H; eauto. Qed.

Lemma number_eq_true (a b : number) :
  JS.number_eq a b = true <-> exists z, a = Fin z /\ b = Fin z.
Proof.
  destruct a as [|x], b as [|y]; simpl; split; try discriminate;
    try (intros (z & E1 & E2); discriminate).
  - intros H. apply Z.eqb_eq in H. subst. eauto.
  - intros (z & [= ->] & [= ->]). apply Z.eqb_refl.
Qed.

End JSFacts.

(** ** The revised server *)
Module RevisedFacts.
Import Revised.

(** One step of an option computation that is known to succeed. *)
Ltac invert_bind H :=
  match type of H with
  | mbind _ ?m = Some _ =>
      let E := fresh "E" in
      destruct m eqn:E; cbn [mbind option_bind] in H; [|discriminate H]
  end.

Lemma bind_Next {A B : Type} (c : comp A) (k : A -> comp B) (b : B) :
  c ≫= k = Next b -> exists a, c = Next a /\ k a = Next b.
Proof. destruct c as [a| |]; simpl; intros H; try discriminate H. eauto. Qed.

Lemma attempt_Next {A : Type} (o : option A) (a : A) : attempt o = Next a -> o = Some a.
Proof. destruct o; simpl; intros [=]. congruence. Qed.

Lemma return_if_Next (cond : bool) (r : Response) (u : unit) :
  return_if cond r = Next u -> cond = false.
Proof. destruct cond; simpl; intros [=]. reflexivity. Qed.

Lemma check_required_cons (orderData : value) (f : string) (rest : list string) :
  check_required orderData (f :: rest) =
  (v ← attempt (JS.get orderData f);
   if negb (JS.truthy v) then Return (MissingField f) else check_required orderData rest).
Proof. reflexivity. Qed.

(** The loop over [required] stops at the first falsy field. *)
Lemma check_required_Obj (fields : list (string * value)) (fs : list string) :
  check_required (Obj fields) fs =
  match find (fun f => negb (JS.truthy (JS.own fields f))) fs with
  | Some f => Return (MissingField f)
  | None => Next tt
  end.
Proof.
  induction fs as [|f fs IH]; [reflexivity|].
  rewrite check_required_cons. simpl.
  destruct (JS.truthy (JS.own fields f)); simpl; [exact IH | reflexivity].
Qed.

Lemma check_required_complete (fields : list (string * value)) :
  Spec.complete fields = true -> check_required (Obj fields) required = Next tt.
Proof.
  intros H. rewrite check_required_Obj.
  destruct (find _ required) as [f|] eqn:E; [|reflexivity].
  apply find_some in E as [Hin Hf].
  unfold Spec.complete in H. rewrite forallb_forall in H.
  rewrite (H f Hin) in Hf. discriminate Hf.
Qed.

Lemma find_first {A : Type} (P : A -> bool) (l : list A) (x : A) :
  In x l -> P x = true -> exists y, find P l = Some y.
Proof.
  intros Hin Hx. destruct (find P l) as [y|] eqn:E; [eauto|].
  rewrite (find_none _ _ E x Hin) in Hx. discriminate Hx.
Qed.

(** The answer to a payload whose first falsy required field is [g]. *)
Lemma missing_field_response (req : Request) (fields : list (string * value)) (g : string) :
  JS.get (body req) "orderData" = Some (Obj fields) ->
  find (fun f => negb (JS.truthy (JS.own fields f))) required = Some g ->
  forall w, authenticate w req = Return (MissingField g) /\
            save_order w req = (MissingField g, w).
Proof.
  intros Hbody E w.
  assert (Ha : authenticate w req = Return (MissingField g)).
  { unfold authenticate. rewrite Hbody. simpl.
    rewrite (check_required_Obj fields required), E. reflexivity. }
  split; [exact Ha|].
  unfold save_order, validate. rewrite Ha. reflexivity.
Qed.

(** C10: the required-field check of [/save-order] tests truthiness.  A
    payload in which one of the five required fields is falsy (absent,
    null, false, zero or the empty string) is answered with the 400 that
    names a falsy required field, whatever the world, hence whatever the
    secret and the signature: the checks end there, before the signature
    is looked at, and nothing is written. *)
Theorem required_fields_truthiness
    (req : Request) (fields : list (string * value)) (f : string) :
  JS.get (body req) "orderData" = Some (Obj fields) ->
  In f required ->
  JS.truthy (JS.own fields f) = false ->
  exists g, In g required /\ JS.truthy (JS.own fields g) = false /\
            forall w, authenticate w req = Return (MissingField g) /\
                      save_order w req = (MissingField g, w).
Proof.
  intros Hbody Hin Hf.
  destruct (find_first (fun f => negb (JS.truthy (JS.own fields f))) required f Hin)
    as [g E].
  { rewrite Hf. reflexivity. }
  pose proof (find_some _ _ E) as [Hg Hfalsy].
  exists g. split; [exact Hg|].
  split; [now apply negb_true_iff|].
  exact (missing_field_response req fields g Hbody E).
Qed.

Lemma required_fields_truthiness_witness :
  let req := Example.confirm None (Example.payload 0) in
  (JS.get (body req) "orderData" = Some (Obj (Example.payload_fields 0)) /\
   In "total" required /\
   JS.truthy (JS.own (Example.payload_fields 0) "total") = false) /\
  exists g, In g required /\ JS.truthy (JS.own (Example.payload_fields 0) g) = false /\
            forall w, authenticate w req = Return (MissingField g) /\
                      save_order w req = (MissingField g, w).
Proof.
  split.
  - split; [reflexivity|]. split; [|reflexivity].
    unfold required. simpl. auto.
  - apply (required_fields_truthiness (Example.confirm None (Example.payload 0))
             (Example.payload_fields 0) "total").
    + reflexivity.
    + unfold required. simpl. auto.
    + reflexivity.
Defined.

(** A payload with the integer total 0 is rejected for its total. *)
Example total_zero_rejected :
  save_order Example.world_50000 (Example.confirm None (Example.payload 0))
  = (MissingField "total", Example.world_50000).
Proof. reflexivity. Qed.

(** ... and one whose [userId] is the empty string for its [userId]. *)
Example empty_userId_rejected :
  save_order Example.world_50000
    (Example.confirm None (Obj (("userId", Str "") :: Example.payload_fields 50000)))
  = (MissingField "userId", Example.world_50000).
Proof. reflexivity. Qed.

(** *** What passing the checks means *)

Lemma authenticate_Next (w : World) (req : Request) (orderData : value) :
  authenticate w req = Next orderData ->
  JS.get (body req) "orderData" = Some orderData /\
  JS.truthy orderData = true /\
  check_required orderData required = Next tt /\
  check_identity w req orderData = Next tt /\
  check_signature w orderData = Next tt.
Proof.
  unfold authenticate. intros H.
  apply bind_Next in H as (od & Hget & H). apply attempt_Next in Hget.
  apply bind_Next in H as ([] & Hobj & H). apply return_if_Next in Hobj.
  apply bind_Next in H as ([] & Hreq & H).
  apply bind_Next in H as ([] & Hid & H).
  apply bind_Next in H as ([] & Hsig & H).
  injection H as <-.
  apply orb_false_iff in Hobj as [Ht _]. apply negb_false_iff in Ht.
  auto.
Qed.

Lemma check_signature_Next (w : World) (orderData : value) :
  check_signature w orderData = Next tt ->
  exists order_id payment_id o p,
    JS.get orderData "razorpay_order_id" = Some order_id /\
    JS.get orderData "razorpay_payment_id" = Some payment_id /\
    JS.ToString (runtime w) order_id = Some o /\
    JS.ToString (runtime w) payment_id = Some p /\
    JS.get orderData "razorpay_signature"
    = Some (Str (Crypto.hmac_sha256_hex (default "" (RAZORPAY_KEY_SECRET w))
                   (o +:+ "|" +:+ p))).
Proof.
  unfold check_signature, expectedSignature. intros H.
  apply bind_Next in H as (expected & He & H).
  apply bind_Next in He as (order_id & H1 & He). apply attempt_Next in H1.
  apply bind_Next in He as (payment_id & H2 & He). apply attempt_Next in H2.
  apply bind_Next in He as (o & H3 & He). apply attempt_Next in H3.
  apply bind_Next in He as (p & H4 & He). apply attempt_Next in H4.
  injection He as <-.
  apply bind_Next in H as (provided & H5 & H). apply attempt_Next in H5.
  apply return_if_Next, negb_false_iff, JSFacts.string_eq_true in H. subst provided.
  eauto 10.
Qed.

Lemma save_order_authenticated (w : World) (req : Request) (orderData : value) :
  authenticate w req = Next orderData ->
  save_order w req =
  match check_amount w orderData with
  | Next _ => persist w orderData
  | Return r => (r, w)
  | Throw => (PersistenceFailure, w)
  end.
Proof.
  intros H. unfold save_order, validate. rewrite H. simpl.
  destruct (check_amount w orderData) as [[]| |]; reflexivity.
Qed.

(** C2: a payload that has passed signature verification is reconciled
    with the gateway.  The order is fetched by the text of its identifier;
    when the fetch fails the answer is the 500 of [GatewayVerificationFailed];
    when the gateway's amount and the client's total are not the same number
    the answer is the 400 of [AmountMismatch]; in both cases the world, and
    with it the store, is left as it was.  Only on equal amounts does the
    handler go on to write. *)
Theorem amount_reconciliation (w : World) (req : Request) (orderData : value) :
  authenticate w req = Next orderData ->
  exists order_id total order_text,
    JS.get orderData "razorpay_order_id" = Some order_id /\
    JS.get orderData "total" = Some total /\
    JS.ToString (runtime w) order_id = Some order_text /\
    match orders_fetch w order_text with
    | None => save_order w req = (GatewayVerificationFailed, w)
    | Some gatewayOrder =>
        match JS.ToNumber (runtime w) total with
        | Some (Fin clientTotal) =>
            if go_amount gatewayOrder =? clientTotal
            then save_order w req = persist w orderData
            else save_order w req = (AmountMismatch, w)
        | Some NaN => save_order w req = (AmountMismatch, w)
        | None => save_order w req = (GatewayVerificationFailed, w)
        end
    end.
Proof.
  intros Hauth. rewrite (save_order_authenticated _ _ _ Hauth).
  apply authenticate_Next in Hauth as (_ & Htruthy & _ & _ & Hsig).
  apply check_signature_Next in Hsig as (order_id & _ & o & _ & Hoid & _ & Ho & _).
  destruct (JSFacts.get_truthy orderData "total" Htruthy) as [total Htotal].
  exists order_id, total, o. repeat split; try assumption.
  unfold check_amount. rewrite Hoid, Htotal. simpl. rewrite Ho. simpl.
  destruct (orders_fetch w o) as [gatewayOrder|]; simpl; [|reflexivity].
  destruct (JS.ToNumber (runtime w) total) as [[|clientTotal]|]; simpl; try reflexivity.
  destruct (go_amount gatewayOrder =? clientTotal); reflexivity.
Qed.

Lemma amount_reconciliation_witness :
  authenticate Example.world_50000 (Example.confirm None (Example.payload 49999))
  = Next (Example.payload 49999) /\
  exists order_id total order_text,
    JS.get (Example.payload 49999) "razorpay_order_id" = Some order_id /\
    JS.get (Example.payload 49999) "total" = Some total /\
    JS.ToString (runtime Example.world_50000) order_id = Some order_text /\
    match orders_fetch Example.world_50000 order_text with
    | None => save_order Example.world_50000 (Example.confirm None (Example.payload 49999))
              = (GatewayVerificationFailed, Example.world_50000)
    | Some gatewayOrder =>
        match JS.ToNumber (runtime Example.world_50000) total with
        | Some (Fin clientTotal) =>
            if go_amount gatewayOrder =? clientTotal
            then save_order Example.world_50000 (Example.confirm None (Example.payload 49999))
                 = persist Example.world_50000 (Example.payload 49999)
            else save_order Example.world_50000 (Example.confirm None (Example.payload 49999))
                 = (AmountMismatch, Example.world_50000)
        | Some NaN => save_order Example.world_50000
                        (Example.confirm None (Example.payload 49999))
                      = (AmountMismatch, Example.world_50000)
        | None => save_order Example.world_50000
                    (Example.confirm None (Example.payload 49999))
                  = (GatewayVerificationFailed, Example.world_50000)
        end
    end.
Proof.
  split; [vm_compute; reflexivity|].
  apply (amount_reconciliation Example.world_50000
           (Example.confirm None (Example.payload 49999)) (Example.payload 49999)).
  vm_compute. reflexivity.
Defined.

(** The amounts of the specification: the gateway recorded 50000. *)
Example total_50000_proceeds :
  fst (save_order Example.world_50000 (Example.confirm None (Example.payload 50000)))
  = Saved "order_1".
Proof. vm_compute. reflexivity. Qed.

Example total_49999_mismatch :
  save_order Example.world_50000 (Example.confirm None (Example.payload 49999))
  = (AmountMismatch, Example.world_50000).
Proof. vm_compute. reflexivity. Qed.

Example gateway_down_fails_closed :
  let w := with_gateway_orders Example.world [] in
  save_order w (Example.confirm None (Example.payload 50000))
  = (GatewayVerificationFailed, w).
Proof. vm_compute. reflexivity. Qed.

(** *** Identity and signature *)

Lemma check_identity_none (w : World) (req : Request) (orderData : value) :
  verifyIdTokenFromRequest w req = None -> check_identity w req orderData = Next tt.
Proof. unfold check_identity. intros ->. reflexivity. Qed.

Lemma check_identity_same (w : World) (req : Request) (fields : list (string * value)) :
  (forall uid, verifyIdTokenFromRequest w req = Some uid -> JS.own fields "userId" = Str uid) ->
  check_identity w req (Obj fields) = Next tt.
Proof.
  intros H. unfold check_identity.
  destruct (verifyIdTokenFromRequest w req) as [uid|]; [|reflexivity].
  simpl. rewrite (H uid eq_refl), JSFacts.string_eq_refl. reflexivity.
Qed.

Lemma check_identity_other (w : World) (req : Request) (fields : list (string * value))
    (uid : string) :
  verifyIdTokenFromRequest w req = Some uid ->
  JS.own fields "userId" <> Str uid ->
  check_identity w req (Obj fields) = Return IdentityMismatch.
Proof.
  intros Hv Hne. unfold check_identity. rewrite Hv. simpl.
  destruct (JS.string_eq uid (JS.own fields "userId")) eqn:E; [|reflexivity].
  apply JSFacts.string_eq_true in E. contradiction.
Qed.

Lemma check_signature_strings (w : World) (fields : list (string * value)) (o p : string) :
  JS.own fields "razorpay_order_id" = Str o ->
  JS.own fields "razorpay_payment_id" = Str p ->
  check_signature w (Obj fields) =
  return_if
    (negb (JS.string_eq
             (Crypto.hmac_sha256_hex (default "" (RAZORPAY_KEY_SECRET w)) (o +:+ "|" +:+ p))
             (JS.own fields "razorpay_signature")))
    InvalidSignature.
Proof.
  intros Ho Hp. unfold check_signature, expectedSignature. simpl.
  rewrite Ho, Hp. reflexivity.
Qed.

Lemma authenticate_complete (w : World) (req : Request) (fields : list (string * value)) :
  JS.get (body req) "orderData" = Some (Obj fields) ->
  Spec.complete fields = true ->
  authenticate w req =
  (_ ← check_identity w req (Obj fields);
   _ ← check_signature w (Obj fields);
   Next (Obj fields)).
Proof.
  intros Hbody Hc. unfold authenticate. rewrite Hbody. simpl.
  rewrite (check_required_complete fields Hc). reflexivity.
Qed.

Lemma save_order_not_authenticated (w : World) (req : Request) (r : Response) :
  authenticate w req = Return r -> save_order w req = (r, w).
Proof. intros H. unfold save_order, validate. rewrite H. reflexivity. Qed.

(** The signature check of the revised server, for a payload that gets
    that far. *)
Lemma signature_check
    (w : World) (req : Request) (fields : list (string * value)) (o p : string) :
  JS.get (body req) "orderData" = Some (Obj fields) ->
  Spec.complete fields = true ->
  JS.own fields "razorpay_order_id" = Str o ->
  JS.own fields "razorpay_payment_id" = Str p ->
  (forall uid, verifyIdTokenFromRequest w req = Some uid -> JS.own fields "userId" = Str uid) ->
  let expected :=
    Crypto.hmac_sha256_hex (default "" (RAZORPAY_KEY_SECRET w)) (o +:+ "|" +:+ p) in
  (authenticate w req = Next (Obj fields) <->
   JS.own fields "razorpay_signature" = Str expected) /\
  (JS.own fields "razorpay_signature" <> Str expected ->
   save_order w req = (InvalidSignature, w)) /\
  String.length expected = 64%nat /\
  Forall Crypto.lower_hex (list_ascii_of_string expected).
Proof.
  intros Hbody Hc Ho Hp Hid expected.
  assert (Ha : authenticate w req =
               (_ ← return_if (negb (JS.string_eq expected (JS.own fields "razorpay_signature")))
                      InvalidSignature;
                Next (Obj fields))).
  { rewrite (authenticate_complete w req fields Hbody Hc).
    rewrite (check_identity_same w req fields Hid). simpl.
    rewrite (check_signature_strings w fields o p Ho Hp). reflexivity. }
  split; [|split; [|split]].
  - rewrite Ha. split.
    + intros H. apply bind_Next in H as ([] & H & _).
      apply return_if_Next, negb_false_iff in H. now apply JSFacts.string_eq_true.
    + intros ->. rewrite JSFacts.string_eq_refl. reflexivity.
  - intros Hne. apply save_order_not_authenticated. rewrite Ha.
    destruct (JS.string_eq expected (JS.own fields "razorpay_signature")) eqn:E;
      [|reflexivity].
    apply JSFacts.string_eq_true in E. contradiction.
  - apply CryptoFacts.hmac_hex_length.
  - apply CryptoFacts.hmac_hex_lower.
Qed.

(** The signature is forged, the three signature fields are there, and
    yet the answer is not [InvalidSignature]: the payload has no [userId]. *)
Lemma signature_claim_counterexample :
  ~ Spec.signature_claim_as_written Example.world_50000
      (Example.confirm None Example.forged_anonymous).
Proof.
  intros H.
  specialize (H Example.forged_anonymous "order_1" "pay_1" "forged"
                eq_refl eq_refl eq_refl eq_refl).
  assert (Hforged : "forged" <> Crypto.hmac_sha256_hex
                      (default "" (RAZORPAY_KEY_SECRET Example.world_50000))
                      ("order_1" +:+ "|" +:+ "pay_1"))
    by (vm_compute; discriminate).
  specialize (H Hforged). vm_compute in H. discriminate H.
Qed.

Example forged_anonymous_response :
  save_order Example.world_50000 (Example.confirm None Example.forged_anonymous)
  = (MissingField "userId", Example.world_50000).
Proof. reflexivity. Qed.

(** *** The responses that can follow the identity check *)

Lemma check_signature_Return (w : World) (orderData : value) (r : Response) :
  check_signature w orderData = Return r -> r = InvalidSignature.
Proof.
  unfold check_signature, expectedSignature.
  destruct (JS.get orderData "razorpay_order_id") as [a|]; simpl; [|discriminate].
  destruct (JS.get orderData "razorpay_payment_id") as [b|]; simpl; [|discriminate].
  destruct (JS.ToString (runtime w) a); simpl; [|discriminate].
  destruct (JS.ToString (runtime w) b); simpl; [|discriminate].
  destruct (JS.get orderData "razorpay_signature") as [c|]; simpl; [|discriminate].
  destruct (JS.string_eq _ c); simpl; intros [=]. congruence.
Qed.

Lemma check_amount_Return (w : World) (orderData : value) (r : Response) :
  check_amount w orderData = Return r ->
  r = AmountMismatch \/ r = GatewayVerificationFailed.
Proof.
  unfold check_amount.
  match goal with |- context [match ?f with _ => _ end] => destruct f as [[a b]|] end.
  - destruct (JS.number_eq a b); simpl; intros [=]. auto.
  - intros [=]. auto.
Qed.

Lemma check_amount_not_Throw (w : World) (orderData : value) :
  check_amount w orderData <> Throw.
Proof.
  unfold check_amount.
  match goal with |- context [match ?f with _ => _ end] => destruct f as [[a b]|] end.
  - destruct (JS.number_eq a b); discriminate.
  - discriminate.
Qed.

Lemma persist_response (w : World) (orderData : value) :
  fst (persist w orderData) = PersistenceFailure \/
  exists doc_id, fst (persist w orderData) = Saved doc_id.
Proof.
  unfold persist.
  destruct (candidateId (runtime w) orderData) as [candidate|]; [|auto].
  destruct (match candidate with Str s => (s, w) | _ => doc_auto w end) as [finalDocId w1].
  destruct (formattedOrder (runtime w) finalDocId orderData ≫= doc_set w1 finalDocId);
    simpl; eauto.
Qed.

Lemma responses_after_signature (w : World) (req : Request) (orderData : value) :
  authenticate w req = Next orderData ->
  fst (save_order w req) = AmountMismatch \/
  fst (save_order w req) = GatewayVerificationFailed \/
  fst (save_order w req) = PersistenceFailure \/
  exists doc_id, fst (save_order w req) = Saved doc_id.
Proof.
  intros H. rewrite (save_order_authenticated _ _ _ H).
  destruct (check_amount w orderData) as [[]|r|] eqn:E.
  - destruct (persist_response w orderData) as [P | P]; auto.
  - apply check_amount_Return in E as [-> | ->]; auto.
  - auto.
Qed.

(** C8, amended: in the revised server, for a payload whose five required
    fields are truthy.  When the identity provider verifies the bearer
    credential and its subject is not the payload's [userId], the answer is
    the 403 of [IdentityMismatch] and nothing is written.  When there is no
    valid credential the handler goes on to signature verification, and
    whatever it answers is not an identity rejection. *)
Theorem identity_check (w : World) (req : Request) (fields : list (string * value)) :
  JS.get (body req) "orderData" = Some (Obj fields) ->
  Spec.complete fields = true ->
  match verifyIdTokenFromRequest w req with
  | Some uid =>
      JS.own fields "userId" <> Str uid ->
      save_order w req = (IdentityMismatch, w)
  | None =>
      authenticate w req = (_ ← check_signature w (Obj fields); Next (Obj fields)) /\
      forall status error, fst (save_order w req) = Failure status error ->
                           status <> 401 /\ status <> 403
  end.
Proof.
  intros Hbody Hc.
  pose proof (authenticate_complete w req fields Hbody Hc) as Ha.
  destruct (verifyIdTokenFromRequest w req) as [uid|] eqn:Hv.
  - intros Hne. apply save_order_not_authenticated.
    rewrite Ha, (check_identity_other w req fields uid Hv Hne). reflexivity.
  - rewrite (check_identity_none w req (Obj fields) Hv) in Ha. simpl in Ha.
    split; [exact Ha|].
    intros status error.
    destruct (check_signature w (Obj fields)) as [[]|r|] eqn:Hs; simpl in Ha.
    + destruct (responses_after_signature w req (Obj fields) Ha)
        as [-> | [-> | [-> | [doc_id ->]]]]; intros [= <- _]; split; discriminate.
    + apply check_signature_Return in Hs. subst r.
      rewrite (save_order_not_authenticated w req _ Ha).
      intros [= <- _]. split; discriminate.
    + unfold save_order, validate. rewrite Ha. simpl.
      intros [= <- _]. split; discriminate.
Qed.

Lemma identity_check_witness :
  let w := Example.world_50000 in
  let fields := Example.fields_of "u2" 50000 in
  let req := Example.confirm (Some "Bearer token-u1") (Obj fields) in
  (JS.get (body req) "orderData" = Some (Obj fields) /\ Spec.complete fields = true) /\
  match verifyIdTokenFromRequest w req with
  | Some uid =>
      JS.own fields "userId" <> Str uid ->
      save_order w req = (IdentityMismatch, w)
  | None =>
      authenticate w req = (_ ← check_signature w (Obj fields); Next (Obj fields)) /\
      forall status error, fst (save_order w req) = Failure status error ->
                           status <> 401 /\ status <> 403
  end.
Proof.
  split; [split; reflexivity|].
  apply (identity_check Example.world_50000
           (Example.confirm (Some "Bearer token-u1") (Obj (Example.fields_of "u2" 50000)))
           (Example.fields_of "u2" 50000));
    reflexivity.
Defined.

Example other_user_rejected :
  save_order Example.world_50000
    (Example.confirm (Some "Bearer token-u1") (Obj (Example.fields_of "u2" 50000)))
  = (IdentityMismatch, Example.world_50000).
Proof. vm_compute. reflexivity. Qed.

Example no_credential_proceeds :
  fst (save_order Example.world_50000
         (Example.confirm None (Obj (Example.fields_of "u2" 50000))))
  = Saved "order_1".
Proof. vm_compute. reflexivity. Qed.

(** The subject of the credential is not the claimed user, and yet the
    answer is not [IdentityMismatch]: the payload has no [total]. *)
Lemma identity_claim_counterexample :
  ~ Spec.identity_claim_as_written Example.world_50000
      (Example.confirm (Some "Bearer token-u1") Example.only_userId).
Proof.
  intros H.
  specialize (H "u1" Example.only_userId (Str "u2") eq_refl eq_refl eq_refl).
  assert (Hne : Str "u2" <> Str "u1") by discriminate.
  specialize (H Hne). vm_compute in H. discriminate H.
Qed.

Example only_userId_response :
  save_order Example.world_50000
    (Example.confirm (Some "Bearer token-u1") Example.only_userId)
  = (MissingField "total", Example.world_50000).
Proof. reflexivity. Qed.


Example unsigned_response :
  save_order Example.world_50000 (Example.confirm None Example.unsigned)
  = (MissingField "razorpay_signature", Example.world_50000).
Proof. reflexivity. Qed.

(** *** The end-to-end scenario *)






Example scenario_payload_response :
  let w1 := snd (create_order Example.world (Example.initiate (Num 10000))) in
  save_order w1
    (Example.confirm None
       (Obj (Example.scenario_fields
               "444ab3353f39d9a6cd042ce01e598f3a2819f46159b58f0ff40d4eed15d8e158")))
  = (MissingField "userId", w1).
Proof. vm_compute. reflexivity. Qed.

(** *** What a successful confirmation went through *)

Lemma bind_Return {A B : Type} (c : comp A) (k : A -> comp B) (r : Response) :
  c ≫= k = Return r -> c = Return r \/ exists a, c = Next a /\ k a = Return r.
Proof.
  destruct c as [a| |]; simpl; intros H; try discriminate H; eauto.
  injection H as ->. left. reflexivity.
Qed.

Lemma check_required_Return (orderData : value) (fs : list string) (r : Response) :
  check_required orderData fs = Return r -> is_failure r.
Proof.
  induction fs as [|f fs IH]; [discriminate|].
  rewrite check_required_cons.
  destruct (JS.get orderData f) as [v|]; simpl; [|discriminate].
  destruct (JS.truthy v); simpl; [exact IH|].
  intros [= <-]. exact I.
Qed.

Lemma check_identity_Return (w : World) (req : Request) (orderData : value) (r : Response) :
  check_identity w req orderData = Return r -> is_failure r.
Proof.
  unfold check_identity.
  destruct (verifyIdTokenFromRequest w req); [|discriminate].
  destruct (JS.get orderData "userId") as [v|]; simpl; [|discriminate].
  destruct (JS.string_eq _ v); simpl; intros [= <-]. exact I.
Qed.

Lemma authenticate_Return (w : World) (req : Request) (r : Response) :
  authenticate w req = Return r -> is_failure r.
Proof.
  unfold authenticate. intros H.
  apply bind_Return in H as [H | (od & _ & H)].
  { destruct (JS.get (body req) "orderData"); discriminate H. }
  apply bind_Return in H as [H | ([] & _ & H)].
  { destruct (_ || _); simpl in H; [|discriminate H]. injection H as <-. exact I. }
  apply bind_Return in H as [H | ([] & _ & H)].
  { exact (check_required_Return _ _ _ H). }
  apply bind_Return in H as [H | ([] & _ & H)].
  { exact (check_identity_Return _ _ _ _ H). }
  apply bind_Return in H as [H | ([] & _ & H)]; [|discriminate H].
  apply check_signature_Return in H. subst r. exact I.
Qed.

Lemma validate_Return (w : World) (req : Request) (r : Response) :
  validate w req = Return r -> is_failure r.
Proof.
  unfold validate. intros H.
  apply bind_Return in H as [H | (od & _ & H)].
  { exact (authenticate_Return _ _ _ H). }
  apply bind_Return in H as [H | ([] & _ & H)]; [|discriminate H].
  apply check_amount_Return in H as [-> | ->]; exact I.
Qed.

Lemma validate_Next (w : World) (req : Request) (orderData : value) :
  validate w req = Next orderData ->
  authenticate w req = Next orderData /\ check_amount w orderData = Next tt.
Proof.
  unfold validate. intros H.
  apply bind_Next in H as (od & Ha & H).
  apply bind_Next in H as ([] & Hc & H).
  injection H as <-. auto.
Qed.

Lemma save_order_Saved (w : World) (req : Request) (doc_id : string) (w' : World) :
  save_order w req = (Saved doc_id, w') ->
  exists orderData,
    validate w req = Next orderData /\ persist w orderData = (Saved doc_id, w').
Proof.
  unfold save_order.
  destruct (validate w req) as [od|r|] eqn:E.
  - eauto.
  - intros [= -> _]. apply validate_Return in E. contradiction.
  - discriminate.
Qed.

Lemma persist_Saved (w : World) (orderData : value) (doc_id : string) (w' : World) :
  persist w orderData = (Saved doc_id, w') ->
  exists candidate doc w1,
    candidateId (runtime w) orderData = Some candidate /\
    match candidate with Str s => (s, w) | _ => doc_auto w end = (doc_id, w1) /\
    formattedOrder (runtime w) doc_id orderData = Some doc /\
    store_accepts w1 doc_id doc = true /\
    w' = with_orders w1 (<[doc_id := doc]> (orders w1)).
Proof.
  unfold persist.
  destruct (candidateId (runtime w) orderData) as [candidate|]; [|discriminate].
  destruct (match candidate with Str s => (s, w) | _ => doc_auto w end)
    as [finalDocId w1] eqn:Hm.
  destruct (formattedOrder (runtime w) finalDocId orderData) as [doc|] eqn:Hdoc;
    simpl; [|discriminate].
  unfold doc_set.
  destruct (store_accepts w1 finalDocId doc) eqn:Hacc; [|discriminate].
  intros [= <- <-]. exists candidate, doc, w1.
  repeat split; assumption || reflexivity.
Qed.

(** The shape of the record handed to [set]. *)
Lemma formattedOrder_Some (rt : Runtime) (finalDocId : string) (orderData : value)
    (doc : document) :
  formattedOrder rt finalDocId orderData = Some doc ->
  exists userId customer name phone address subtotal shipping total
         payment_id order_id signature status items,
    JS.get orderData "userId" = Some userId /\
    JS.get orderData "customer" = Some customer /\
    and_get customer "name" = Some name /\
    and_get customer "phone" = Some phone /\
    format_address rt customer = Some address /\
    JS.get orderData "subtotal" ≫= number_field rt = Some subtotal /\
    JS.get orderData "shipping" ≫= number_field rt = Some shipping /\
    JS.get orderData "total" ≫= number_field rt = Some total /\
    JS.get orderData "razorpay_payment_id" = Some payment_id /\
    JS.get orderData "razorpay_order_id" = Some order_id /\
    JS.get orderData "razorpay_signature" = Some signature /\
    JS.get orderData "status" = Some status /\
    JS.get orderData "items" ≫= format_items = Some items /\
    doc = [ ("orderId", Data (Str finalDocId));
            ("userId", Data userId);
            ("customerName", Data (JS.or name Null));
            ("phone", Data (JS.or phone Null));
            ("address", Data address);
            ("subtotal", Data subtotal);
            ("shipping", Data shipping);
            ("totalAmount", Data total);
            ("paymentId", Data (JS.or payment_id Null));
            ("razorpay_order_id", Data (JS.or order_id Null));
            ("razorpay_signature", Data (JS.or signature Null));
            ("paymentStatus", Data (JS.or status (Str "Paid")));
            ("items", Data items);
            ("createdAt", ServerTimestamp);
            ("rawPayload", Data orderData) ].
Proof.
  unfold formattedOrder. intros H.
  do 13 invert_bind H.
  injection H as <-.
  do 13 eexists. repeat (split; [eassumption || reflexivity|]). reflexivity.
Qed.

(** *** The document identifier *)


(** The candidate is a non-empty string or null. *)
Lemma candidateId_shape (rt : Runtime) (orderData candidate : value) :
  candidateId rt orderData = Some candidate ->
  candidate = Null \/ exists s, candidate = Str s /\ s <> "".
Proof.
  assert (Hshape : forall x t, trimmed rt x = Some t -> JS.truthy t = true ->
                               exists s, t = Str s /\ s <> "").
  { intros x t Ht Htruthy. unfold trimmed in Ht.
    destruct (JS.truthy x) eqn:Hx.
    - destruct (JS.ToString rt x) as [sx|]; simpl in Ht; [|discriminate Ht].
      injection Ht as <-. exists (JS.trim sx). split; [reflexivity|].
      now apply JSFacts.truthy_Str.
    - injection Ht as <-. congruence. }
  unfold candidateId. intros H.
  destruct (JS.get orderData "order_id") as [a|]; cbn [mbind option_bind] in H;
    [|discriminate H].
  destruct (trimmed rt a) as [first|] eqn:E1; cbn [mbind option_bind] in H;
    [|discriminate H].
  destruct (JS.truthy first) eqn:T1.
  - injection H as <-. right. exact (Hshape a first E1 T1).
  - destruct (JS.get orderData "razorpay_order_id") as [b|]; cbn [mbind option_bind] in H;
      [|discriminate H].
    destruct (trimmed rt b) as [second|] eqn:E2; cbn [mbind option_bind] in H;
      [|discriminate H].
    injection H as <-. unfold JS.or.
    destruct (JS.truthy second) eqn:T2; [right | left; reflexivity].
    exact (Hshape b second E2 T2).
Qed.



(** The three cases of the specification: an explicit [order_id] wins
    over a different gateway identifier; without it the gateway identifier
    is used; with neither usable the store generates one. *)
Example explicit_order_id_wins :
  fst (save_order Example.world_50000 (Example.confirm None Example.named_payload))
  = Saved "abc".
Proof. vm_compute. reflexivity. Qed.

Example gateway_identifier_used :
  fst (save_order Example.world_50000 (Example.confirm None (Example.payload 50000)))
  = Saved "order_1".
Proof. vm_compute. reflexivity. Qed.

Example identifier_generated :
  fst (save_order Example.world_blank (Example.confirm None Example.blank_payload))
  = Saved "auto_0".
Proof. vm_compute. reflexivity. Qed.

(** *** Confirming twice *)

Lemma validate_with_orders (w : World) (m : gmap string document) (req : Request) :
  validate (with_orders w m) req = validate w req.
Proof. reflexivity. Qed.

Lemma check_required_Next (orderData : value) (fs : list string) (f : string) :
  check_required orderData fs = Next tt ->
  In f fs ->
  exists v, JS.get orderData f = Some v /\ JS.truthy v = true.
Proof.
  induction fs as [|g fs IH]; [intros _ []|].
  rewrite check_required_cons. intros H Hin.
  destruct (JS.get orderData g) as [v|] eqn:Hg; simpl in H; [|discriminate H].
  destruct (JS.truthy v) eqn:Hv; simpl in H; [|discriminate H].
  destruct Hin as [<- | Hin]; [eauto | auto].
Qed.

Lemma check_amount_Next (w : World) (orderData : value) :
  check_amount w orderData = Next tt ->
  exists order_id order_text gatewayOrder,
    JS.get orderData "razorpay_order_id" = Some order_id /\
    JS.ToString (runtime w) order_id = Some order_text /\
    orders_fetch w order_text = Some gatewayOrder.
Proof.
  unfold check_amount.
  destruct (JS.get orderData "razorpay_order_id") as [order_id|];
    cbn [mbind option_bind]; [|discriminate].
  destruct (JS.ToString (runtime w) order_id) as [order_text|] eqn:Ht;
    cbn [mbind option_bind]; [|discriminate].
  destruct (orders_fetch w order_text) as [gatewayOrder|] eqn:Hf;
    cbn [mbind option_bind]; [|discriminate].
  intros _. eauto 10.
Qed.

Lemma fetched_identifier_nonblank (w : World) (order_text : string) (o : GatewayOrder) :
  Spec.gateway_ids_nonblank w = true ->
  orders_fetch w order_text = Some o ->
  String.eqb (JS.trim order_text) "" = false.
Proof.
  unfold Spec.gateway_ids_nonblank, orders_fetch. intros Hall Hfetch.
  destruct (gateway_up w); [|discriminate Hfetch].
  apply find_some in Hfetch as [Hin Heq].
  apply String.eqb_eq in Heq. subst order_text.
  rewrite forallb_forall in Hall. specialize (Hall o Hin).
  now apply negb_true_iff in Hall.
Qed.

Lemma trimmed_truthy (rt : Runtime) (x : value) :
  JS.truthy x = true ->
  trimmed rt x = (fun s => Str (JS.trim s)) <$> JS.ToString rt x.
Proof. unfold trimmed. intros ->. reflexivity. Qed.

Lemma trimmed_falsy (rt : Runtime) (x : value) :
  JS.truthy x = false -> trimmed rt x = Some x.
Proof. unfold trimmed. intros ->. reflexivity. Qed.

(** With a gateway whose identifiers are not blank, a validated payload
    always names its document: no identifier is generated. *)
Lemma candidate_named (w : World) (req : Request) (orderData candidate : value) :
  Spec.gateway_ids_nonblank w = true ->
  validate w req = Next orderData ->
  candidateId (runtime w) orderData = Some candidate ->
  exists s, candidate = Str s.
Proof.
  intros Hgw Hval Hcand.
  apply validate_Next in Hval as [Hauth Hamount].
  apply authenticate_Next in Hauth as (_ & _ & Hreq & _ & _).
  destruct (check_required_Next orderData required "razorpay_order_id" Hreq)
    as (b & Hb & Hbt).
  { unfold required. simpl. auto. }
  apply check_amount_Next in Hamount as (b' & t & o & Hb' & Ht & Hfetch).
  assert (b' = b) by congruence. subst b'.
  pose proof (fetched_identifier_nonblank w t o Hgw Hfetch) as Hnb.
  assert (Hsecond : trimmed (runtime w) b ≫= (fun second => Some (JS.or second Null))
                    = Some (Str (JS.trim t))).
  { rewrite (trimmed_truthy _ _ Hbt), Ht. simpl. unfold JS.or. simpl.
    rewrite Hnb. reflexivity. }
  unfold candidateId in Hcand. rewrite Hb in Hcand.
  destruct (JS.get orderData "order_id") as [a|]; cbn [mbind option_bind] in Hcand;
    [|discriminate Hcand].
  rewrite Hsecond in Hcand.
  destruct (JS.truthy a) eqn:Ha.
  - rewrite (trimmed_truthy _ _ Ha) in Hcand.
    destruct (JS.ToString (runtime w) a) as [sa|]; simpl in Hcand; [|discriminate Hcand].
    destruct (negb (JS.trim sa =? "")%string); injection Hcand as <-; eauto.
  - rewrite (trimmed_falsy _ _ Ha) in Hcand. simpl in Hcand. rewrite Ha in Hcand.
    injection Hcand as <-. eauto.
Qed.

(** Confirming again a payload that named its document. *)
Lemma second_confirmation
    (w : World) (req : Request) (orderData : value) (doc_id s : string) (w1 : World) :
  validate w req = Next orderData ->
  persist w orderData = (Saved doc_id, w1) ->
  candidateId (runtime w) orderData = Some (Str s) ->
  save_order w1 req = (Saved doc_id, w1).
Proof.
  intros Hval Hpersist Hnamed.
  apply persist_Saved in Hpersist as (candidate & doc & w0 & Hcand & Hid & Hdoc & Hacc & ->).
  assert (candidate = Str s) by congruence. subst candidate.
  injection Hid as <- <-.
  unfold save_order. rewrite validate_with_orders, Hval.
  unfold persist. simpl runtime. rewrite Hcand, Hdoc. cbn [mbind option_bind].
  unfold doc_set. simpl store_accepts. rewrite Hacc.
  unfold with_orders. simpl. rewrite insert_insert_eq. reflexivity.
Qed.



(** With a gateway that issues no blank identifier every confirmed payload
    names its document. *)
Corollary confirm_twice_gateway (w : World) (req : Request) (doc_id : string) (w1 : World) :
  Spec.gateway_ids_nonblank w = true ->
  save_order w req = (Saved doc_id, w1) ->
  save_order w1 req = (Saved doc_id, w1).
Proof.
  intros Hgw Hsave.
  apply save_order_Saved in Hsave as (od & Hval & Hpersist).
  pose proof (persist_Saved _ _ _ _ Hpersist) as (candidate & _ & _ & Hcand & _).
  destruct (candidate_named w req od candidate Hgw Hval Hcand) as [s ->].
  exact (second_confirmation w req od doc_id s w1 Hval Hpersist Hcand).
Qed.

(** Where the gateway does hold a blank identifier, each confirmation
    generates an identifier of its own. *)
Example generated_identifier_not_repeated :
  let req := Example.confirm None Example.blank_payload in
  let w1 := snd (save_order Example.world_blank req) in
  fst (save_order Example.world_blank req) = Saved "auto_0" /\
  fst (save_order w1 req) = Saved "auto_1".
Proof. vm_compute. split; reflexivity. Qed.

(** *** The record that is written *)









(** The name of an item is copied as it is: an item without one is
    stored with an undefined name. *)
Example item_name_copied :
  format_item (Obj [("price", Num 500)])
  = Some (Obj [("name", Undefined); ("quantity", Num 1); ("price", Num 500)]).
Proof. reflexivity. Qed.

(** The items as they are stored: the bare one gets quantity 1 and price 0. *)
Example stored_items :
  let w' := snd (save_order Example.world_50000
                   (Example.confirm None Example.payload_with_items)) in
  (orders w' !! "order_1") ≫= (fun doc => field doc "items")
  = Some (Data (Arr [ Obj [("name", Str "rice"); ("quantity", Num 2); ("price", Num 25000)];
                      Obj [("name", Str "salt"); ("quantity", Num 1); ("price", Num 0)] ])).
Proof. vm_compute. reflexivity. Qed.

End RevisedFacts.

(** ** [server.js], the drop-in replacement *)
Module DropInFacts.
Import DropIn.



(** The helper accepts exactly the digest of the two identifiers. *)
Lemma verifyRazorpaySignature_true (w : World) (order_id payment_id signature : value) :
  verifyRazorpaySignature w order_id payment_id signature = true <->
  JS.truthy order_id = true /\ JS.truthy payment_id = true /\
  exists o p,
    JS.ToString (runtime w) order_id = Some o /\
    JS.ToString (runtime w) payment_id = Some p /\
    signature = Str (Crypto.hmac_sha256_hex (default "" (RAZORPAY_KEY_SECRET w))
                       (o +:+ "|" +:+ p)).
Proof.
  unfold verifyRazorpaySignature. split.
  - destruct (JS.truthy order_id); simpl; [|discriminate].
    destruct (JS.truthy payment_id); simpl; [|discriminate].
    destruct (JS.truthy signature); simpl; [|discriminate].
    destruct (JS.ToString (runtime w) order_id) as [o|]; [|discriminate].
    destruct (JS.ToString (runtime w) payment_id) as [p|]; [|discriminate].
    intros H. apply JSFacts.string_eq_true in H. eauto 10.
  - intros (-> & -> & o & p & -> & -> & ->).
    rewrite JSFacts.truthy_digest. simpl. apply JSFacts.string_eq_refl.
Qed.

(** Behind the middleware, the handler writes only when the helper agrees. *)
Lemma save_order_signature
    (w : World) (req : Request) (uid : string) (orderData order_id payment_id signature : value) :
  verifyFirebaseToken w req = Next uid ->
  JS.get (body req) "orderData" = Some orderData ->
  JS.truthy orderData = true ->
  JS.get orderData "order_id" = Some order_id ->
  JS.get orderData "payment_id" = Some payment_id ->
  JS.get orderData "signature" = Some signature ->
  save_order w req =
  if verifyRazorpaySignature w order_id payment_id signature
  then persist w uid orderData
  else (InvalidSignature, w).
Proof.
  intros Htok Hbody Ht Ho Hp Hs.
  unfold save_order. rewrite Htok.
  unfold save_order_handler. rewrite Hbody. simpl. rewrite Ht. simpl.
  rewrite Ho, Hp, Hs. simpl.
  destruct (verifyRazorpaySignature w order_id payment_id signature); reflexivity.
Qed.





(** With no secret configured, whoever signs under the empty key is served. *)
Example empty_key_accepted :
  fst (save_order Example.world_no_secret
         (Example.confirm (Some "Bearer token-u1")
            (Example.dropin_payload
               (Str "bdc788b13b9bf544409174488f2f0cdb0ca9753b327f084529ec43b4cbccde7e"))))
  = Saved "order_1".
Proof. vm_compute. reflexivity. Qed.

(** [server.js] takes the amount in rupees: initiating 10000 records a
    gateway order of 1000000 paise. *)
Example create_order_multiplies :
  fst (create_order Example.world (Example.initiate (Num 10000)))
  = Created {| go_id := "order_1"; go_amount := 1000000 |}.
Proof. vm_compute. reflexivity. Qed.


Example record_without_total :
  formattedOrder Example.rt "u1" (Example.dropin_payload (Str "sig")) ≫=
    (fun doc => field doc "totalAmount")
  = Some (Data Undefined).
Proof. vm_compute. reflexivity. Qed.

End DropInFacts.

(** ** Signature verification in both servers *)
Module SignatureFacts.

Lemma verifyRazorpaySignature_strings (w : World) (o p : string) (signature : value) :
  o <> "" -> p <> "" ->
  (DropIn.verifyRazorpaySignature w (Str o) (Str p) signature = true <->
   signature = Str (Crypto.hmac_sha256_hex (default "" (RAZORPAY_KEY_SECRET w))
                      (o +:+ "|" +:+ p))).
Proof.
  intros Ho Hp. rewrite DropInFacts.verifyRazorpaySignature_true. split.
  - intros (_ & _ & o' & p' & [= <-] & [= <-] & ->). reflexivity.
  - intros ->. split; [now apply JSFacts.truthy_Str|].
    split; [now apply JSFacts.truthy_Str|]. exists o, p. auto.
Qed.

(** C1, amended: take a payload whose gateway order id and payment id
    are non-empty strings.  In the revised server, when also [userId],
    [total] and the signature are truthy and the request carries no verified
    credential of another user, the signature is accepted, and the handler
    goes on to reconcile the amount, exactly when the submitted signature is
    the string of the 64 lowercase hexadecimal digits of the HMAC-SHA256,
    under the signing secret, of order id, a bar and payment id; otherwise
    the answer is [InvalidSignature] and the world is unchanged.  In
    [server.js], [verifyRazorpaySignature] accepts exactly that string, and
    behind the token middleware any other signature is answered with
    [InvalidSignature], the world unchanged. *)
Theorem signature_verification
    (w : World) (req : Request) (fields : list (string * value)) (o p : string) :
  JS.get (body req) "orderData" = Some (Obj fields) ->
  Spec.complete fields = true ->
  JS.own fields "razorpay_order_id" = Str o ->
  JS.own fields "razorpay_payment_id" = Str p ->
  (forall uid, Revised.verifyIdTokenFromRequest w req = Some uid ->
               JS.own fields "userId" = Str uid) ->
  let expected :=
    Crypto.hmac_sha256_hex (default "" (RAZORPAY_KEY_SECRET w)) (o +:+ "|" +:+ p) in
  (Revised.authenticate w req = Next (Obj fields) <->
   JS.own fields "razorpay_signature" = Str expected) /\
  (JS.own fields "razorpay_signature" <> Str expected ->
   Revised.save_order w req = (Revised.InvalidSignature, w)) /\
  (forall signature,
     DropIn.verifyRazorpaySignature w (Str o) (Str p) signature = true <->
     signature = Str expected) /\
  (forall request uid orderData signature,
     DropIn.verifyFirebaseToken w request = Next uid ->
     JS.get (body request) "orderData" = Some orderData ->
     JS.truthy orderData = true ->
     JS.get orderData "order_id" = Some (Str o) ->
     JS.get orderData "payment_id" = Some (Str p) ->
     JS.get orderData "signature" = Some signature ->
     signature <> Str expected ->
     DropIn.save_order w request = (DropIn.InvalidSignature, w)) /\
  String.length expected = 64%nat /\
  Forall Crypto.lower_hex (list_ascii_of_string expected).
Proof.
  intros Hbody Hc Ho Hp Hid expected.
  destruct (RevisedFacts.signature_check w req fields o p Hbody Hc Ho Hp Hid)
    as (Hiff & Hreject & Hlen & Hhex).
  assert (Hone : o <> "").
  { apply JSFacts.truthy_Str. rewrite <- Ho.
    unfold Spec.complete in Hc. rewrite forallb_forall in Hc.
    apply Hc. unfold Revised.required. simpl. auto. }
  assert (Hpne : p <> "").
  { apply JSFacts.truthy_Str. rewrite <- Hp.
    unfold Spec.complete in Hc. rewrite forallb_forall in Hc.
    apply Hc. unfold Revised.required. simpl. auto. }
  split; [exact Hiff|]. split; [exact Hreject|].
  split; [intros signature; now apply verifyRazorpaySignature_strings|].
  split; [|split; assumption].
  intros request uid orderData signature Htok Hb Ht Hoid Hpid Hsig Hne.
  rewrite (DropInFacts.save_order_signature w request uid orderData _ _ _
             Htok Hb Ht Hoid Hpid Hsig).
  destruct (DropIn.verifyRazorpaySignature w (Str o) (Str p) signature) eqn:E;
    [|reflexivity].
  apply verifyRazorpaySignature_strings in E; [contradiction | assumption..].
Qed.

Lemma signature_verification_witness :
  let w := Example.world_50000 in
  let req := Example.confirm (Some "Bearer token-u1") (Example.payload 50000) in
  let fields := Example.payload_fields 50000 in
  let expected :=
    Crypto.hmac_sha256_hex (default "" (RAZORPAY_KEY_SECRET w)) ("order_1" +:+ "|" +:+ "pay_1") in
  (JS.get (body req) "orderData" = Some (Obj fields) /\
   Spec.complete fields = true /\
   JS.own fields "razorpay_order_id" = Str "order_1" /\
   JS.own fields "razorpay_payment_id" = Str "pay_1" /\
   (forall uid, Revised.verifyIdTokenFromRequest w req = Some uid ->
                JS.own fields "userId" = Str uid)) /\
  (Revised.authenticate w req = Next (Obj fields) <->
   JS.own fields "razorpay_signature" = Str expected) /\
  (JS.own fields "razorpay_signature" <> Str expected ->
   Revised.save_order w req = (Revised.InvalidSignature, w)) /\
  (forall signature,
     DropIn.verifyRazorpaySignature w (Str "order_1") (Str "pay_1") signature = true <->
     signature = Str expected).
Proof.
  assert (Hid : forall uid,
             Revised.verifyIdTokenFromRequest Example.world_50000
               (Example.confirm (Some "Bearer token-u1") (Example.payload 50000)) = Some uid ->
             JS.own (Example.payload_fields 50000) "userId" = Str uid).
  { intros uid H. vm_compute in H. injection H as <-. reflexivity. }
  split.
  - split; [reflexivity|]. split; [reflexivity|]. split; [reflexivity|].
    split; [reflexivity | exact Hid].
  - destruct (signature_verification Example.world_50000
                (Example.confirm (Some "Bearer token-u1") (Example.payload 50000))
                (Example.payload_fields 50000) "order_1" "pay_1"
                eq_refl eq_refl eq_refl eq_refl Hid)
      as (Hiff & Hreject & Hhelper & _).
    split; [exact Hiff|]. split; [exact Hreject | exact Hhelper].
Defined.

(** A forged signature on an otherwise complete payload. *)
Example forged_signature_rejected :
  Revised.save_order Example.world_50000
    (Example.confirm None
       (Obj (("razorpay_signature", Str "forged") :: Example.payload_fields 50000)))
  = (Revised.InvalidSignature, Example.world_50000).
Proof. vm_compute. reflexivity. Qed.

End SignatureFacts.

(** ** The hardened server *)
Module HardenedFacts.
Import Hardened.

(** A payload with neither identifier is stored under a generated one. *)
Example neither_identifier :
  fst (save_order Example.world
         (Example.confirm None (Obj [("customer", Obj [("name", Str "A")])])))
  = Saved "auto_0".
Proof. vm_compute. reflexivity. Qed.


Example confirmed_twice :
  let req := Example.confirm None (Obj [("customer", Obj [("name", Str "A")])]) in
  let w1 := snd (save_order Example.world req) in
  fst (save_order Example.world req) = Saved "auto_0" /\
  fst (save_order w1 req) = Saved "auto_1" /\
  size (orders (snd (save_order w1 req))) = 2%nat.
Proof. vm_compute. repeat split; reflexivity. Qed.

(** The amounts default to zero here too, but the fields of an item are
    copied as they come. *)
Example item_fields_copied :
  format_item (Obj [("name", Str "salt")])
  = Some (Obj [("name", Str "salt"); ("quantity", Undefined); ("price", Undefined)]).
Proof. reflexivity. Qed.

Example address_stripped :
  format_address Example.rt (Obj [("city", Str "Erode")]) = Some (Str "Erode,  -").
Proof. vm_compute. reflexivity. Qed.

End HardenedFacts.

(** ** Texts: stripping both ends *)
Module TextFacts.

Lemma chars_append (a b : string) :
  list_ascii_of_string (a +:+ b) = list_ascii_of_string a ++ list_ascii_of_string b.
Proof. induction a as [|c a IH]; simpl; [reflexivity | now rewrite IH]. Qed.

Lemma chars_inj (a b : string) : list_ascii_of_string a = list_ascii_of_string b -> a = b.
Proof.
  intros H.
  rewrite <- (string_of_list_ascii_of_string a), <- (string_of_list_ascii_of_string b).
  now rewrite H.
Qed.

Lemma chars_rev (s : string) :
  list_ascii_of_string (JS.string_rev s) = rev (list_ascii_of_string s).
Proof. unfold JS.string_rev. apply list_ascii_of_string_of_list_ascii. Qed.

Lemma chars_drop (n : nat) (s : string) :
  list_ascii_of_string (JS.drop_string n s) = skipn n (list_ascii_of_string s).
Proof. revert s. induction n as [|n IH]; intros [|c s]; simpl; auto. Qed.

Lemma chars_length (s : string) : List.length (list_ascii_of_string s) = String.length s.
Proof. induction s as [|c s IH]; simpl; [reflexivity | now rewrite IH]. Qed.

Lemma string_rev_involutive (s : string) : JS.string_rev (JS.string_rev s) = s.
Proof. apply chars_inj. rewrite !chars_rev. apply rev_involutive. Qed.

Lemma string_rev_append (a b : string) :
  JS.string_rev (a +:+ b) = JS.string_rev b +:+ JS.string_rev a.
Proof.
  apply chars_inj. rewrite chars_rev, !chars_append, !chars_rev. apply rev_app_distr.
Qed.

Lemma string_rev_length (s : string) : String.length (JS.string_rev s) = String.length s.
Proof. rewrite <- !chars_length, chars_rev. apply length_rev. Qed.

Lemma append_assoc (a b c : string) : (a +:+ b) +:+ c = a +:+ (b +:+ c).
Proof. apply chars_inj. rewrite !chars_append. symmetry. apply app_assoc. Qed.

Lemma drop_string_length (n : nat) (s : string) :
  String.length (JS.drop_string n s) = (String.length s - n)%nat.
Proof. rewrite <- !chars_length, chars_drop. apply length_skipn. Qed.

(** [p] is a prefix of [s] when [s] is [p] followed by some text. *)
Lemma prefix_append (p s : string) : String.prefix p s = true <-> exists t, s = p +:+ t.
Proof.
  revert s. induction p as [|c p IH]; intros [|d s]; simpl.
  - split; eauto.
  - split; eauto.
  - split; [discriminate | intros [t H]; discriminate H].
  - destruct (Ascii.ascii_dec c d) as [-> | Hne].
    + rewrite IH. split; intros [t H]; exists t; [now rewrite H | now injection H].
    + split; [discriminate | intros [t H]; injection H; congruence].
Qed.

Lemma find_all_false {A : Type} (f : A -> bool) (l : list A) :
  (forall x, In x l -> f x = false) -> find f l = None.
Proof.
  induction l as [|x l IH]; simpl; [reflexivity|].
  intros H. rewrite (H x (or_introl eq_refl)). apply IH. auto.
Qed.

Section Strip.
Variable table : list string.
Hypothesis table_nonempty : Forall (fun p => p <> "") table.

Lemma strip_stable (fuel : nat) (s : string) :
  find (fun p => String.prefix p s) table = None -> JS.strip fuel table s = s.
Proof. destruct fuel; simpl; [reflexivity|]. intros ->. reflexivity. Qed.

(** With fuel for every character, stripping goes on until no entry of
    the table begins the text. *)
Lemma strip_settled (fuel : nat) (s : string) :
  (String.length s <= fuel)%nat ->
  find (fun p => String.prefix p (JS.strip fuel table s)) table = None.
Proof.
  revert s. induction fuel as [|fuel IH]; intros s Hlen; simpl.
  - destruct s as [|c s]; [|simpl in Hlen; lia].
    apply find_all_false. intros p Hin.
    pose proof (proj1 (List.Forall_forall _ _) table_nonempty p Hin) as Hp.
    destruct p; [contradiction | reflexivity].
  - destruct (find (fun p => String.prefix p s) table) as [p|] eqn:E; [|exact E].
    apply find_some in E as [Hin Hp]. apply IH.
    rewrite drop_string_length.
    pose proof (proj1 (List.Forall_forall _ _) table_nonempty p Hin) as Hne.
    destruct p as [|c p]; [contradiction|]. simpl. lia.
Qed.

Lemma drop_string_drop (m n : nat) (s : string) :
  JS.drop_string n (JS.drop_string m s) = JS.drop_string (m + n) s.
Proof.
  apply chars_inj. rewrite !chars_drop. rewrite skipn_skipn. f_equal. lia.
Qed.

(** What is left is the text without some of its first characters. *)
Lemma strip_drop (fuel : nat) (s : string) :
  exists n, JS.strip fuel table s = JS.drop_string n s.
Proof.
  revert s. induction fuel as [|fuel IH]; intros s; simpl.
  - exists 0%nat. reflexivity.
  - destruct (find (fun p => String.prefix p s) table) as [p|].
    + destruct (IH (JS.drop_string (String.length p) s)) as [n Hn].
      exists (String.length p + n)%nat. rewrite Hn. apply drop_string_drop.
    + exists 0%nat. reflexivity.
Qed.

End Strip.

Lemma reversed_nonempty (table : list string) :
  Forall (fun p => p <> "") table ->
  Forall (fun p => p <> "") (map JS.string_rev table).
Proof.
  intros H. induction H as [|p l Hp _ IH]; simpl; constructor; [|exact IH].
  intros E. apply Hp. rewrite <- (string_rev_involutive p), E. reflexivity.
Qed.

Section BothEnds.
Variable table : list string.
Hypothesis table_nonempty : Forall (fun p => p <> "") table.

(** The result of stripping both ends begins the text stripped at its
    start. *)
Lemma strip_both_ends_begins (s : string) :
  exists t, JS.strip (String.length s) table s = Property.strip_both_ends table s +:+ t.
Proof.
  unfold Property.strip_both_ends.
  set (a := JS.strip (String.length s) table s).
  destruct (strip_drop (map JS.string_rev table) (String.length a) (JS.string_rev a))
    as [n ->].
  set (l := list_ascii_of_string a).
  exists (string_of_list_ascii (skipn (List.length l - n) l)).
  apply chars_inj. rewrite chars_append, chars_rev, chars_drop, chars_rev.
  fold l. rewrite skipn_rev, rev_involutive, list_ascii_of_string_of_list_ascii.
  symmetry. apply firstn_skipn.
Qed.

Lemma strip_both_ends_prefix (s p : string) :
  In p table -> String.prefix p (Property.strip_both_ends table s) = false.
Proof.
  intros Hin.
  destruct (String.prefix p (Property.strip_both_ends table s)) eqn:E; [|reflexivity].
  apply prefix_append in E as [t' E].
  destruct (strip_both_ends_begins s) as [t Ht].
  pose proof (strip_settled table table_nonempty (String.length s) s (le_n _)) as Hnone.
  pose proof (find_none _ _ Hnone p Hin) as Hp. cbn beta in Hp.
  assert (Htrue : String.prefix p (JS.strip (String.length s) table s) = true).
  { apply prefix_append. exists (t' +:+ t). rewrite Ht, E. apply append_assoc. }
  congruence.
Qed.

Lemma strip_both_ends_suffix (s p : string) :
  In p table ->
  String.prefix (JS.string_rev p) (JS.string_rev (Property.strip_both_ends table s)) = false.
Proof.
  intros Hin. unfold Property.strip_both_ends.
  set (a := JS.strip (String.length s) table s).
  rewrite string_rev_involutive.
  assert (Hlen : (String.length (JS.string_rev a) <= String.length a)%nat)
    by (rewrite string_rev_length; lia).
  pose proof (strip_settled (map JS.string_rev table) (reversed_nonempty table table_nonempty)
                (String.length a) (JS.string_rev a) Hlen) as Hnone.
  exact (find_none _ _ Hnone (JS.string_rev p) (in_map _ _ _ Hin)).
Qed.

(** Stripping a second time changes nothing. *)
Lemma strip_both_ends_idempotent (s : string) :
  Property.strip_both_ends table (Property.strip_both_ends table s)
  = Property.strip_both_ends table s.
Proof.
  set (r := Property.strip_both_ends table s).
  unfold Property.strip_both_ends at 1.
  rewrite (strip_stable table (String.length r) r).
  - rewrite (strip_stable (map JS.string_rev table)); [apply string_rev_involutive|].
    apply find_all_false. intros q Hq. apply in_map_iff in Hq as (p & <- & Hin).
    now apply strip_both_ends_suffix.
  - apply find_all_false. intros p Hin. now apply strip_both_ends_prefix.
Qed.

Lemma strip_both_ends_bare (s : string) :
  Property.bare table (Property.strip_both_ends table s).
Proof.
  intros p t Hin. split; intros E.
  - pose proof (strip_both_ends_prefix s p Hin) as H.
    rewrite (proj2 (prefix_append p _) (ex_intro _ t E)) in H. discriminate H.
  - pose proof (strip_both_ends_suffix s p Hin) as H.
    rewrite E, string_rev_append in H.
    rewrite (proj2 (prefix_append _ _) (ex_intro _ (JS.string_rev t) eq_refl)) in H.
    discriminate H.
Qed.

End BothEnds.

Lemma white_space_nonempty : Forall (fun p => p <> "") JS.white_space.
Proof.
  unfold JS.white_space. cbn.
  repeat (constructor; [discriminate|]). constructor.
Qed.

Lemma trim_strip_both_ends (s : string) : JS.trim s = Property.strip_both_ends JS.white_space s.
Proof. reflexivity. Qed.

(** [trim] of a trimmed text is that text. *)
Lemma trim_idempotent (s : string) : JS.trim (JS.trim s) = JS.trim s.
Proof.
  rewrite !trim_strip_both_ends.
  apply strip_both_ends_idempotent, white_space_nonempty.
Qed.

End TextFacts.

(** ** Order initiation *)
Module InitiationFacts.

Lemma orders_create_Some (w : World) (amount : Z) (order : GatewayOrder) (w' : World) :
  orders_create w amount = Some (order, w') ->
  go_amount order = amount /\
  go_id order = gateway_new_id w (List.length (gateway_orders w)) /\
  gateway_orders w' = order :: gateway_orders w /\
  orders_fetch w' (go_id order) = Some order /\
  orders w' = orders w.
Proof.
  unfold orders_create. destruct (gateway_up w) eqn:Hup; [|discriminate].
  intros [= <- <-]. repeat split.
  unfold orders_fetch. simpl. rewrite Hup, String.eqb_refl. reflexivity.
Qed.

(** The steps an initiation went through when it answers with an order. *)
Ltac invert_created H :=
  destruct (JS.get (body _) "amount") as [amount|] eqn:Hget; simpl in H;
    [|discriminate H];
  destruct (JS.truthy amount) eqn:Htruthy; simpl in H; [|discriminate H];
  destruct (JS.ToNumber _ amount) as [[|z]|] eqn:Hnum; simpl in H; try discriminate H;
  destruct (z <=? 0) eqn:Hpos; simpl in H; [discriminate H|];
  destruct (orders_create _ _) as [[o w1]|] eqn:Hcreate; simpl in H; [|discriminate H];
  injection H as <- <-;
  apply Z.leb_gt in Hpos;
  apply orders_create_Some in Hcreate as (Hamount & Hid & Horders & Hfetch & Hstore);
  exists amount, z.

Lemma create_order_Created (w : World) (req : Request) (order : GatewayOrder) (w' : World) :
  Revised.create_order w req = (Created order, w') ->
  exists amount z,
    JS.get (body req) "amount" = Some amount /\
    JS.truthy amount = true /\
    JS.ToNumber (runtime w) amount = Some (Fin z) /\
    0 < z /\ go_amount order = z /\
    go_id order = gateway_new_id w (List.length (gateway_orders w)) /\
    gateway_orders w' = order :: gateway_orders w /\
    orders_fetch w' (go_id order) = Some order /\
    orders w' = orders w.
Proof.
  unfold Revised.create_order. intros H. invert_created H.
  repeat split; assumption.
Qed.





(** X3: confirming, in the revised server, an order that the revised
    [/create-order] has just created.  For a payload that passes the checks
    up to the signature and names that order, amount reconciliation passes
    exactly when the payload's total is the amount that was initiated: the
    handler then goes on to write, and answers [AmountMismatch] with the
    world unchanged for any other total. *)
Theorem confirmation_after_initiation
    (w : World) (req : Request) (order : GatewayOrder) (w1 : World)
    (confirmation : Request) (orderData total : value) (clientTotal : Z) :
  Revised.create_order w req = (Created order, w1) ->
  Revised.authenticate w1 confirmation = Next orderData ->
  JS.get orderData "razorpay_order_id" = Some (Str (go_id order)) ->
  JS.get orderData "total" = Some total ->
  JS.ToNumber (runtime w1) total = Some (Fin clientTotal) ->
  Revised.save_order w1 confirmation =
  if go_amount order =? clientTotal
  then Revised.persist w1 orderData
  else (Revised.AmountMismatch, w1).
Proof.
  intros Hcreate Hauth Hoid Htotal Hnum.
  apply create_order_Created in Hcreate
    as (_ & _ & _ & _ & _ & _ & _ & _ & _ & Hfetch & _).
  rewrite (RevisedFacts.save_order_authenticated _ _ _ Hauth).
  unfold Revised.check_amount. rewrite Hoid. cbn [mbind option_bind JS.ToString].
  rewrite Hfetch. cbn [mbind option_bind]. rewrite Htotal. cbn [mbind option_bind].
  rewrite Hnum. cbn [mbind option_bind JS.number_eq].
  destruct (go_amount order =? clientTotal); reflexivity.
Qed.

Lemma confirmation_after_initiation_witness :
  let w := Example.world in
  let req := Example.initiate (Num 10000) in
  let order := {| go_id := "order_1"; go_amount := 10000 |} in
  let w1 := snd (Revised.create_order w req) in
  let confirmation := Example.confirm None (Example.payload 10000) in
  (Revised.create_order w req = (Created order, w1) /\
   Revised.authenticate w1 confirmation = Next (Example.payload 10000) /\
   JS.get (Example.payload 10000) "razorpay_order_id" = Some (Str (go_id order)) /\
   JS.get (Example.payload 10000) "total" = Some (Num 10000) /\
   JS.ToNumber (runtime w1) (Num 10000) = Some (Fin 10000)) /\
  Revised.save_order w1 confirmation = Revised.persist w1 (Example.payload 10000).
Proof.
  assert (Hauth :
            Revised.authenticate
              (snd (Revised.create_order Example.world (Example.initiate (Num 10000))))
              (Example.confirm None (Example.payload 10000))
            = Next (Example.payload 10000))
    by (vm_compute; reflexivity).
  split; [split; [reflexivity|]; split; [exact Hauth|]; repeat split|].
  exact (confirmation_after_initiation Example.world (Example.initiate (Num 10000))
           {| go_id := "order_1"; go_amount := 10000 |}
           (snd (Revised.create_order Example.world (Example.initiate (Num 10000))))
           (Example.confirm None (Example.payload 10000)) (Example.payload 10000)
           (Num 10000) 10000 eq_refl Hauth eq_refl eq_refl eq_refl).
Defined.

(** X4: the amount check of [/create-order], in each of the four
    servers, for a request whose body is an object.  The answer is a 400
    exactly when the amount is falsy (absent, null, false, zero, the empty
    string), or is not a number once converted, or is a number that is not
    positive.  Whenever the answer is an error, the 400 or the 500 of a
    failed gateway call, the world is left as it was: no order is recorded. *)
Theorem invalid_amount_exactly
    (create_order : World -> Request -> Response * World)
    (w : World) (req : Request) (fields : list (string * value)) :
  In create_order Property.initiation_handlers ->
  body req = Obj fields ->
  let amount := JS.own fields "amount" in
  ((exists error, fst (create_order w req) = Failure 400 error) <->
   JS.truthy amount = false \/
   JS.ToNumber (runtime w) amount = Some NaN \/
   exists z, JS.ToNumber (runtime w) amount = Some (Fin z) /\ z <= 0) /\
  (is_failure (fst (create_order w req)) -> snd (create_order w req) = w).
Proof.
  intros Hin Hbody amount.
  assert (Hcases :
            forall (invalid : Response) (scale : Z -> Z) (error : string),
              invalid = Failure 400 error ->
              let rw :=
                match
                  (amount ← attempt (JS.get (body req) "amount");
                   _ ← return_if (negb (JS.truthy amount)) invalid;
                   n ← attempt (JS.ToNumber (runtime w) amount);
                   match n with
                   | NaN => Return invalid
                   | Fin z =>
                       _ ← return_if (z <=? 0) invalid;
                       created ← attempt (orders_create w (scale z));
                       Next (Created (fst created), snd created)
                   end)
                with
                | Next rw => rw
                | Return r => (r, w)
                | Throw => (Failure 500 "Error creating order", w)
                end in
              ((exists error, fst rw = Failure 400 error) <->
               JS.truthy amount = false \/
               JS.ToNumber (runtime w) amount = Some NaN \/
               exists z, JS.ToNumber (runtime w) amount = Some (Fin z) /\ z <= 0) /\
              (is_failure (fst rw) -> snd rw = w)).
  { intros invalid scale error ->. rewrite Hbody. cbn [JS.get attempt mbind comp_bind].
    fold amount.
    destruct (JS.truthy amount) eqn:Htruthy; cbn [negb return_if mbind comp_bind].
    2: { simpl. split; [split; eauto | reflexivity]. }
    destruct (JS.ToNumber (runtime w) amount) as [[|z]|] eqn:Hnum;
      cbn [attempt mbind comp_bind].
    - simpl. split; [split; eauto | reflexivity].
    - destruct (z <=? 0) eqn:Hpos; cbn [return_if mbind comp_bind].
      + apply Z.leb_le in Hpos. simpl. split; [split; eauto 6 | reflexivity].
      + apply Z.leb_gt in Hpos. unfold orders_create.
        destruct (gateway_up w); cbn [attempt mbind comp_bind fst snd].
        * split; [|contradiction]. split.
          -- intros [e H]. discriminate H.
          -- intros [H | [H | (z' & [= <-] & H)]]; try discriminate H. lia.
        * split; [|reflexivity]. split.
          -- intros [e H]. discriminate H.
          -- intros [H | [H | (z' & [= <-] & H)]]; try discriminate H. lia.
    - simpl. split; [|reflexivity]. split.
      + intros [e H]. discriminate H.
      + intros [H | [H | (z' & H & _)]]; discriminate H. }
  destruct Hin as [<- | [<- | [<- | [<- | []]]]].
  - exact (Hcases Revised.InvalidAmount (fun z => z) _ eq_refl).
  - exact (Hcases DropIn.InvalidAmount (fun z => z * 100) _ eq_refl).
  - exact (Hcases Hardened.InvalidAmount (fun z => z * 100) _ eq_refl).
  - exact (Hcases Basic.InvalidAmount (fun z => z * 100) _ eq_refl).
Qed.

Lemma invalid_amount_exactly_witness :
  let req := Example.initiate (Num (-5)) in
  (In Revised.create_order Property.initiation_handlers /\
   body req = Obj [("amount", Num (-5))]) /\
  (exists error, fst (Revised.create_order Example.world req) = Failure 400 error) /\
  snd (Revised.create_order Example.world req) = Example.world.
Proof.
  assert (Hin : In Revised.create_order Property.initiation_handlers)
    by (left; reflexivity).
  split; [split; [exact Hin | reflexivity]|].
  destruct (invalid_amount_exactly Revised.create_order Example.world
              (Example.initiate (Num (-5))) [("amount", Num (-5))] Hin eq_refl)
    as [Hiff Hsame].
  split.
  - apply Hiff. right. right. exists (-5). split; [reflexivity | lia].
  - apply Hsame. exact I.
Defined.

(** Edge cases of the amount check: [true] counts as the number 1, and
    the rupee handlers make a hundred paise of it. *)
Example amount_true_is_one :
  fst (Revised.create_order Example.world (Example.initiate (Bool true)))
  = Created {| go_id := "order_1"; go_amount := 1 |} /\
  fst (Hardened.create_order Example.world (Example.initiate (Bool true)))
  = Created {| go_id := "order_1"; go_amount := 100 |}.
Proof. split; reflexivity. Qed.

End InitiationFacts.

(** ** What a confirmation does to the world *)
Module EffectFacts.

Lemma world_eta (w : World) : with_auto_count w (auto_count w) = w.
Proof. destruct w. reflexivity. Qed.

Lemma failure_effect (w : World) (r : Response) :
  is_failure r -> Property.confirmation_effect w (r, w).
Proof.
  intros Hr. exists (auto_count w).
  destruct r; try contradiction. simpl. symmetry. apply world_eta.
Qed.

(** The write that ends a handler. *)
Lemma set_effect (w w1 : World) (n : nat) (doc_id : string) (o : option document)
    (r : Response) :
  w1 = with_auto_count w n ->
  is_failure r ->
  Property.confirmation_effect w
    match o ≫= doc_set w1 doc_id with
    | Some w2 => (Saved doc_id, w2)
    | None => (r, w1)
    end.
Proof.
  intros -> Hr. exists n.
  destruct o as [doc|]; cbn [mbind option_bind].
  - unfold doc_set. simpl store_accepts.
    destruct (store_accepts w doc_id doc) eqn:E.
    + simpl. exists doc. split; [exact E | reflexivity].
    + destruct r; try contradiction. reflexivity.
  - destruct r; try contradiction. reflexivity.
Qed.

Lemma persist_effect (w : World) (orderData : value) :
  Property.confirmation_effect w (Revised.persist w orderData).
Proof.
  unfold Revised.persist.
  destruct (Revised.candidateId (runtime w) orderData) as [c|];
    [|apply failure_effect; exact I].
  destruct c; cbn [doc_auto];
    try (apply (set_effect w _ (S (auto_count w))); [reflexivity | exact I]).
  apply (set_effect w w (auto_count w)); [symmetry; apply world_eta | exact I].
Qed.

Lemma revised_effect (w : World) (req : Request) :
  Property.confirmation_effect w (Revised.save_order w req).
Proof.
  unfold Revised.save_order.
  destruct (Revised.validate w req) as [od|r|] eqn:E.
  - apply persist_effect.
  - apply failure_effect. exact (RevisedFacts.validate_Return _ _ _ E).
  - apply failure_effect. exact I.
Qed.

Lemma hardened_effect (w : World) (req : Request) :
  Property.confirmation_effect w (Hardened.save_order w req).
Proof.
  unfold Hardened.save_order. cbv zeta.
  match goal with
  | |- context [match ?c with Next _ => _ | Return _ => _ | Throw => _ end] =>
      destruct c as [od|r|] eqn:E
  end.
  - destruct (Revised.candidateId (runtime w) od) as [c|];
      [|apply failure_effect; exact I].
    destruct c; cbn [doc_auto];
      try (apply (set_effect w _ (S (auto_count w))); [reflexivity | exact I]).
    apply (set_effect w w (auto_count w)); [symmetry; apply world_eta | exact I].
  - apply failure_effect.
    apply RevisedFacts.bind_Return in E as [E | (od & _ & E)].
    { destruct (JS.get (body req) "orderData"); discriminate E. }
    apply RevisedFacts.bind_Return in E as [E | ([] & _ & E)].
    { destruct (_ || _); simpl in E; [|discriminate E]. injection E as <-. exact I. }
    apply RevisedFacts.bind_Return in E as [E | (customer & _ & E)].
    { destruct (JS.get od "customer"); discriminate E. }
    apply RevisedFacts.bind_Return in E as [E | ([] & _ & E)].
    { destruct (negb _); simpl in E; [|discriminate E]. injection E as <-. exact I. }
    apply RevisedFacts.bind_Return in E as [E | (name & _ & E)].
    { destruct (JS.get customer "name"); discriminate E. }
    apply RevisedFacts.bind_Return in E as [E | ([] & _ & E)]; [|discriminate E].
    destruct (negb _); simpl in E; [|discriminate E]. injection E as <-. exact I.
  - apply failure_effect. exact I.
Qed.

Lemma dropin_persist_effect (w : World) (uid : string) (orderData : value) :
  Property.confirmation_effect w (DropIn.persist w uid orderData).
Proof.
  unfold DropIn.persist.
  destruct (JS.get orderData "order_id") as [order_id|]; [|apply failure_effect; exact I].
  destruct (JS.get orderData "payment_id") as [payment_id|];
    [|apply failure_effect; exact I].
  destruct (DropIn.isNonEmptyString order_id).
  - apply (set_effect w w (auto_count w)); [symmetry; apply world_eta | exact I].
  - destruct (DropIn.isNonEmptyString payment_id).
    + apply (set_effect w w (auto_count w)); [symmetry; apply world_eta | exact I].
    + cbn [doc_auto]. apply (set_effect w _ (S (auto_count w))); [reflexivity | exact I].
Qed.

(** The responses with which the handler of [server.js] ends before it
    writes. *)
Lemma dropin_checks_Return (w : World) (req : Request) (r : Response) :
  (orderData ← attempt (JS.get (body req) "orderData");
   _ ← return_if (negb (JS.truthy orderData)) DropIn.MissingOrderData;
   order_id ← attempt (JS.get orderData "order_id");
   payment_id ← attempt (JS.get orderData "payment_id");
   signature ← attempt (JS.get orderData "signature");
   _ ← return_if (negb (DropIn.verifyRazorpaySignature w order_id payment_id signature))
         DropIn.InvalidSignature;
   Next orderData) = Return r ->
  r = DropIn.MissingOrderData \/ r = DropIn.InvalidSignature.
Proof.
  intros E.
  apply RevisedFacts.bind_Return in E as [E | (od & _ & E)].
  { destruct (JS.get (body req) "orderData"); discriminate E. }
  apply RevisedFacts.bind_Return in E as [E | ([] & _ & E)].
  { destruct (negb _); simpl in E; [|discriminate E]. injection E as <-. auto. }
  apply RevisedFacts.bind_Return in E as [E | (order_id & _ & E)].
  { destruct (JS.get od "order_id"); discriminate E. }
  apply RevisedFacts.bind_Return in E as [E | (payment_id & _ & E)].
  { destruct (JS.get od "payment_id"); discriminate E. }
  apply RevisedFacts.bind_Return in E as [E | (signature & _ & E)].
  { destruct (JS.get od "signature"); discriminate E. }
  apply RevisedFacts.bind_Return in E as [E | ([] & _ & E)]; [|discriminate E].
  destruct (negb _); simpl in E; [|discriminate E]. injection E as <-. auto.
Qed.

Lemma verifyFirebaseToken_Return (w : World) (req : Request) (r : Response) :
  DropIn.verifyFirebaseToken w req = Return r ->
  r = DropIn.Unauthenticated_header \/ r = DropIn.Unauthenticated_token.
Proof.
  unfold DropIn.verifyFirebaseToken.
  destruct (negb _); [intros [= <-]; auto|].
  destruct (verifyIdToken w _); intros [= <-]. auto.
Qed.

Lemma verifyFirebaseToken_not_Throw (w : World) (req : Request) :
  DropIn.verifyFirebaseToken w req <> Throw.
Proof.
  unfold DropIn.verifyFirebaseToken.
  destruct (negb _); [discriminate|].
  destruct (verifyIdToken w _); discriminate.
Qed.

Lemma dropin_effect (w : World) (req : Request) :
  Property.confirmation_effect w (DropIn.save_order w req).
Proof.
  unfold DropIn.save_order.
  destruct (DropIn.verifyFirebaseToken w req) as [uid|r|] eqn:Ht.
  - unfold DropIn.save_order_handler. cbv zeta.
    match goal with
    | |- context [match ?c with Next _ => _ | Return _ => _ | Throw => _ end] =>
        destruct c as [od|r|] eqn:E
    end.
    + apply dropin_persist_effect.
    + apply failure_effect. apply dropin_checks_Return in E as [-> | ->]; exact I.
    + apply failure_effect. exact I.
  - apply failure_effect. apply verifyFirebaseToken_Return in Ht as [-> | ->]; exact I.
  - apply failure_effect. exact I.
Qed.

Lemma basic_effect (w : World) (req : Request) :
  Property.confirmation_effect w (Basic.save_order w req).
Proof.
  unfold Basic.save_order. cbv zeta.
  destruct (JS.get (body req) "orderData") as [od|]; cbn [mbind option_bind];
    [|apply failure_effect; exact I].
  destruct (Basic.formattedOrder (runtime w) od) as [doc|]; cbn [mbind option_bind];
    [|apply failure_effect; exact I].
  destruct (JS.get od "order_id" ≫= Basic.doc_path) as [docId|]; cbn [mbind option_bind];
    [|apply failure_effect; exact I].
  unfold doc_set. destruct (store_accepts w docId doc) eqn:Hacc; cbn [mbind option_bind];
    [|apply failure_effect; exact I].
  exists (auto_count w). simpl. exists doc. split; [exact Hacc|].
  rewrite world_eta. reflexivity.
Qed.

Lemma confirmation_handler_effect
    (save_order : World -> Request -> Response * World) (w : World) (req : Request) :
  In save_order Property.confirmation_handlers ->
  Property.confirmation_effect w (save_order w req).
Proof.
  intros [<- | [<- | [<- | [<- | []]]]].
  - apply revised_effect.
  - apply dropin_effect.
  - apply hardened_effect.
  - apply basic_effect.
Qed.

(** X5: in each of the four servers, a confirmation that is answered
    with an error has written nothing: the documents of the store are those
    it held before, and so are the orders of the gateway. *)
Theorem rejection_writes_nothing
    (save_order : World -> Request -> Response * World) (w : World) (req : Request) :
  In save_order Property.confirmation_handlers ->
  is_failure (fst (save_order w req)) ->
  orders (snd (save_order w req)) = orders w /\
  gateway_orders (snd (save_order w req)) = gateway_orders w.
Proof.
  intros Hin Hf.
  destruct (confirmation_handler_effect save_order w req Hin) as [n H].
  destruct (fst (save_order w req)); try contradiction.
  rewrite H. split; reflexivity.
Qed.

Lemma rejection_writes_nothing_witness :
  let req := Example.confirm (Some "Bearer token-u1") Example.only_userId in
  (In Revised.save_order Property.confirmation_handlers /\
   is_failure (fst (Revised.save_order Example.world_50000 req))) /\
  orders (snd (Revised.save_order Example.world_50000 req)) = orders Example.world_50000 /\
  gateway_orders (snd (Revised.save_order Example.world_50000 req))
  = gateway_orders Example.world_50000.
Proof.
  assert (Hin : In Revised.save_order Property.confirmation_handlers)
    by (left; reflexivity).
  split; [split; [exact Hin | exact I]|].
  exact (rejection_writes_nothing Revised.save_order Example.world_50000
           (Example.confirm (Some "Bearer token-u1") Example.only_userId) Hin I).
Defined.

(** X6: in each of the four servers, a confirmation that succeeds has
    written exactly one document, under the identifier it returns: the
    store accepted that write, every other document is as it was, and the
    orders of the gateway are untouched. *)
Theorem acceptance_writes_one
    (save_order : World -> Request -> Response * World) (w : World) (req : Request)
    (doc_id : string) (w' : World) :
  In save_order Property.confirmation_handlers ->
  save_order w req = (Saved doc_id, w') ->
  exists doc,
    store_accepts w doc_id doc = true /\
    orders w' = <[doc_id := doc]> (orders w) /\
    (forall other, other <> doc_id -> orders w' !! other = orders w !! other) /\
    gateway_orders w' = gateway_orders w.
Proof.
  intros Hin Hsave.
  destruct (confirmation_handler_effect save_order w req Hin) as [n H].
  rewrite Hsave in H. simpl in H. destruct H as (doc & Hacc & ->).
  exists doc. split; [exact Hacc|]. split; [reflexivity|]. split; [|reflexivity].
  intros other Hne. simpl. apply lookup_insert_ne. congruence.
Qed.

Lemma acceptance_writes_one_witness :
  let req := Example.confirm None Sample.customer_only in
  let w' := snd (Hardened.save_order Example.world req) in
  (In Hardened.save_order Property.confirmation_handlers /\
   Hardened.save_order Example.world req = (Saved "auto_0", w')) /\
  exists doc,
    store_accepts Example.world "auto_0" doc = true /\
    orders w' = <["auto_0" := doc]> (orders Example.world) /\
    (forall other, other <> "auto_0" -> orders w' !! other = orders Example.world !! other) /\
    gateway_orders w' = gateway_orders Example.world.
Proof.
  assert (Hin : In Hardened.save_order Property.confirmation_handlers)
    by (right; right; left; reflexivity).
  assert (Hsave : Hardened.save_order Example.world (Example.confirm None Sample.customer_only)
                  = (Saved "auto_0",
                     snd (Hardened.save_order Example.world
                            (Example.confirm None Sample.customer_only))))
    by (vm_compute; reflexivity).
  split; [split; [exact Hin | exact Hsave]|].
  exact (acceptance_writes_one Hardened.save_order Example.world
           (Example.confirm None Sample.customer_only) "auto_0"
           (snd (Hardened.save_order Example.world (Example.confirm None Sample.customer_only)))
           Hin Hsave).
Defined.

End EffectFacts.

(** ** The revised server: what is stored, and under which name *)
Module StoredFacts.
Import Revised.

(** Passing amount reconciliation: the total is the gateway's amount. *)
Lemma check_amount_agreed (w : World) (orderData : value) :
  check_amount w orderData = Next tt ->
  exists order_id order_text gatewayOrder total,
    JS.get orderData "razorpay_order_id" = Some order_id /\
    JS.ToString (runtime w) order_id = Some order_text /\
    orders_fetch w order_text = Some gatewayOrder /\
    JS.get orderData "total" = Some total /\
    JS.ToNumber (runtime w) total = Some (Fin (go_amount gatewayOrder)).
Proof.
  unfold check_amount.
  destruct (JS.get orderData "razorpay_order_id") as [order_id|] eqn:Hoid;
    cbn [mbind option_bind]; [|discriminate].
  destruct (JS.ToString (runtime w) order_id) as [order_text|] eqn:Htext;
    cbn [mbind option_bind]; [|discriminate].
  destruct (orders_fetch w order_text) as [gatewayOrder|] eqn:Hfetch;
    cbn [mbind option_bind]; [|discriminate].
  destruct (JS.get orderData "total") as [total|] eqn:Htotal;
    cbn [mbind option_bind]; [|discriminate].
  destruct (JS.ToNumber (runtime w) total) as [clientTotal|] eqn:Hnum;
    cbn [mbind option_bind]; [|discriminate].
  intros H. apply RevisedFacts.return_if_Next, negb_false_iff in H.
  apply JSFacts.number_eq_true in H as (z & [= Hz] & ->).
  exists order_id, order_text, gatewayOrder, total. rewrite Hz. auto.
Qed.

(** Everything a successful confirmation went through. *)
Lemma save_order_stored (w : World) (req : Request) (doc_id : string) (w' : World) :
  save_order w req = (Saved doc_id, w') ->
  exists orderData doc candidate w1,
    authenticate w req = Next orderData /\
    check_amount w orderData = Next tt /\
    candidateId (runtime w) orderData = Some candidate /\
    match candidate with Str s => (s, w) | _ => doc_auto w end = (doc_id, w1) /\
    formattedOrder (runtime w) doc_id orderData = Some doc /\
    orders w' !! doc_id = Some doc.
Proof.
  intros Hsave.
  apply RevisedFacts.save_order_Saved in Hsave as (od & Hval & Hpersist).
  apply RevisedFacts.validate_Next in Hval as [Hauth Hamount].
  apply RevisedFacts.persist_Saved in Hpersist
    as (candidate & doc & w1 & Hcand & Hid & Hdoc & _ & ->).
  exists od, doc, candidate, w1. repeat split; try assumption.
  apply lookup_insert_eq.
Qed.

Lemma or_truthy (v d : value) : JS.truthy v = true -> JS.or v d = v.
Proof. unfold JS.or. intros ->. reflexivity. Qed.

Lemma in_required (f : string) :
  In f ["userId"; "total"; "razorpay_payment_id"; "razorpay_order_id"; "razorpay_signature"] ->
  In f required.
Proof. intros H. exact H. Qed.

(** The record of an authenticated payload is signed. *)
Lemma formattedOrder_signed
    (w : World) (req : Request) (orderData : value) (doc_id : string) (doc : document) :
  authenticate w req = Next orderData ->
  formattedOrder (runtime w) doc_id orderData = Some doc ->
  Property.signed (runtime w) (default "" (RAZORPAY_KEY_SECRET w)) doc.
Proof.
  intros Hauth Hdoc.
  apply RevisedFacts.authenticate_Next in Hauth as (_ & _ & Hreq & _ & Hsig).
  apply RevisedFacts.check_signature_Next in Hsig
    as (order_id & payment_id & o & p & Hoid & Hpid & Ho & Hp & Hsignature).
  destruct (RevisedFacts.check_required_Next orderData required "razorpay_order_id" Hreq)
    as (a & Ha & Hat); [apply in_required; simpl; auto|].
  destruct (RevisedFacts.check_required_Next orderData required "razorpay_payment_id" Hreq)
    as (b & Hb & Hbt); [apply in_required; simpl; auto|].
  assert (a = order_id) by congruence. assert (b = payment_id) by congruence. subst a b.
  apply RevisedFacts.formattedOrder_Some in Hdoc
    as (userId & customer & name & phone & address & subtotal & shipping & total &
        payment_id' & order_id' & signature & status & items &
        _ & _ & _ & _ & _ & _ & _ & _ & Hpid' & Hoid' & Hsig' & _ & _ & ->).
  assert (payment_id' = payment_id) by congruence.
  assert (order_id' = order_id) by congruence.
  assert (signature = Str (Crypto.hmac_sha256_hex (default "" (RAZORPAY_KEY_SECRET w))
                             (o +:+ "|" +:+ p))) by congruence.
  subst payment_id' order_id' signature.
  exists order_id, payment_id, o, p.
  split; [cbn [field String.eqb Ascii.eqb Bool.eqb]; now rewrite (or_truthy _ _ Hat)|].
  split; [cbn [field String.eqb Ascii.eqb Bool.eqb]; now rewrite (or_truthy _ _ Hbt)|].
  split; [exact Ho|]. split; [exact Hp|].
  cbn [field String.eqb Ascii.eqb Bool.eqb].
  rewrite (or_truthy _ _ (JSFacts.truthy_digest _ _)). reflexivity.
Qed.

(** X7: what the revised server stores has been verified.  The record
    written by a successful confirmation carries the digest, under the
    signing secret, of its own gateway order and payment identifiers, and
    its [totalAmount] is the amount the gateway holds for that order. *)
Theorem stored_record_verified
    (w : World) (req : Request) (doc_id : string) (w' : World) :
  save_order w req = (Saved doc_id, w') ->
  exists doc order_id order_text gatewayOrder,
    orders w' !! doc_id = Some doc /\
    Property.signed (runtime w) (default "" (RAZORPAY_KEY_SECRET w)) doc /\
    field doc "razorpay_order_id" = Some (Data order_id) /\
    JS.ToString (runtime w) order_id = Some order_text /\
    orders_fetch w order_text = Some gatewayOrder /\
    field doc "totalAmount" = Some (Data (Num (go_amount gatewayOrder))).
Proof.
  intros Hsave.
  apply save_order_stored in Hsave
    as (od & doc & candidate & w1 & Hauth & Hamount & _ & _ & Hdoc & Hlookup).
  pose proof (formattedOrder_signed w req od doc_id doc Hauth Hdoc) as Hsigned.
  apply check_amount_agreed in Hamount
    as (order_id & order_text & gatewayOrder & total & Hoid & Htext & Hfetch & Htotal & Hnum).
  apply RevisedFacts.authenticate_Next in Hauth as (_ & _ & Hreq & _ & _).
  destruct (RevisedFacts.check_required_Next od required "razorpay_order_id" Hreq)
    as (a & Ha & Hat); [apply in_required; simpl; auto|].
  assert (a = order_id) by congruence. subst a.
  exists doc, order_id, order_text, gatewayOrder.
  split; [exact Hlookup|]. split; [exact Hsigned|].
  apply RevisedFacts.formattedOrder_Some in Hdoc
    as (userId & customer & name & phone & address & subtotal & shipping & total' &
        payment_id' & order_id' & signature & status & items &
        _ & _ & _ & _ & _ & _ & _ & Htotal' & _ & Hoid' & _ & _ & _ & ->).
  assert (order_id' = order_id) by congruence. subst order_id'.
  rewrite Htotal in Htotal'. cbn [mbind option_bind] in Htotal'.
  unfold number_field in Htotal'. rewrite Hnum in Htotal'. simpl in Htotal'.
  injection Htotal' as <-.
  split; [cbn [field String.eqb Ascii.eqb Bool.eqb]; now rewrite (or_truthy _ _ Hat)|].
  split; [exact Htext|]. split; [exact Hfetch | reflexivity].
Qed.

Lemma stored_record_verified_witness :
  let req := Example.confirm None (Example.payload 50000) in
  let w' := snd (save_order Example.world_50000 req) in
  save_order Example.world_50000 req = (Saved "order_1", w') /\
  exists doc order_id order_text gatewayOrder,
    orders w' !! "order_1" = Some doc /\
    Property.signed (runtime Example.world_50000)
      (default "" (RAZORPAY_KEY_SECRET Example.world_50000)) doc /\
    field doc "razorpay_order_id" = Some (Data order_id) /\
    JS.ToString (runtime Example.world_50000) order_id = Some order_text /\
    orders_fetch Example.world_50000 order_text = Some gatewayOrder /\
    field doc "totalAmount" = Some (Data (Num (go_amount gatewayOrder))).
Proof.
  assert (Hsave : save_order Example.world_50000 (Example.confirm None (Example.payload 50000))
                  = (Saved "order_1",
                     snd (save_order Example.world_50000
                            (Example.confirm None (Example.payload 50000)))))
    by (vm_compute; reflexivity).
  split; [exact Hsave|].
  exact (stored_record_verified Example.world_50000
           (Example.confirm None (Example.payload 50000)) "order_1"
           (snd (save_order Example.world_50000
                   (Example.confirm None (Example.payload 50000))))
           Hsave).
Defined.

(** Neither handler of the revised server changes the runtime or the
    signing secret; initiation leaves the documents alone. *)
Lemma create_order_frame (w : World) (req : Request) :
  let w' := snd (create_order w req) in
  orders w' = orders w /\ runtime w' = runtime w /\
  RAZORPAY_KEY_SECRET w' = RAZORPAY_KEY_SECRET w.
Proof.
  unfold create_order.
  destruct (JS.get (body req) "amount") as [amount|]; simpl; [|auto].
  destruct (JS.truthy amount); simpl; [|auto].
  destruct (JS.ToNumber (runtime w) amount) as [[|z]|]; simpl; auto.
  destruct (z <=? 0); simpl; [auto|].
  unfold orders_create. destruct (gateway_up w); simpl; auto.
Qed.

(** X8: the revised server keeps its store signed.  If every document of
    the store carries the digest of its own identifiers under the signing
    secret, this is still so after any request to [/save-order], whatever its
    answer, and after any request to [/create-order]. *)
Theorem signed_store_preserved (w : World) (req : Request) :
  Property.signed_store w ->
  Property.signed_store (snd (save_order w req)) /\
  Property.signed_store (snd (create_order w req)).
Proof.
  intros Hinv. split.
  - destruct (EffectFacts.revised_effect w req) as [n Heffect].
    destruct (save_order w req) as [r w'] eqn:Hsave. simpl in Heffect |- *.
    destruct r as [doc_id|order|status error].
    + destruct Heffect as (doc0 & _ & Hw).
      apply save_order_stored in Hsave
        as (od & doc & candidate & w1 & Hauth & _ & _ & _ & Hdoc & Hlookup).
      pose proof (formattedOrder_signed w req od doc_id doc Hauth Hdoc) as Hsigned.
      subst w'. intros other d Hd. simpl in Hd, Hlookup |- *.
      destruct (decide (other = doc_id)) as [-> | Hne].
      * assert (d = doc) by congruence. subst d. exact Hsigned.
      * rewrite lookup_insert_ne in Hd by congruence. exact (Hinv other d Hd).
    + subst w'. exact Hinv.
    + subst w'. exact Hinv.
  - destruct (create_order_frame w req) as (Ho & Hr & Hs).
    intros doc_id doc Hd. rewrite Hr, Hs. rewrite Ho in Hd. exact (Hinv doc_id doc Hd).
Qed.

Lemma empty_store_signed : Property.signed_store Example.world_50000.
Proof. intros doc_id doc H. vm_compute in H. discriminate H. Defined.

Lemma signed_store_preserved_witness :
  let req := Example.confirm None (Example.payload 50000) in
  let w1 := snd (save_order Example.world_50000 req) in
  Property.signed_store w1 /\
  Property.signed_store (snd (save_order w1 (Example.confirm None Example.named_payload))).
Proof.
  assert (H1 : Property.signed_store
                 (snd (save_order Example.world_50000
                         (Example.confirm None (Example.payload 50000)))))
    by exact (proj1 (signed_store_preserved Example.world_50000
                       (Example.confirm None (Example.payload 50000)) empty_store_signed)).
  split; [exact H1|].
  exact (proj1 (signed_store_preserved
                  (snd (save_order Example.world_50000
                          (Example.confirm None (Example.payload 50000))))
                  (Example.confirm None Example.named_payload) H1)).
Defined.

End StoredFacts.

(** ** The revised server: identity, identifiers, responses *)
Module IdentityFacts.
Import Revised.

Lemma bearer_match_Some (header token : string) :
  bearer_match header = Some token -> header = "Bearer " +:+ token /\ token <> "".
Proof.
  unfold bearer_match.
  destruct (String.prefix "Bearer " header) eqn:Hp; [|discriminate].
  apply TextFacts.prefix_append in Hp as [t ->].
  change (JS.drop_string 7 ("Bearer " +:+ t)) with t.
  destruct (String.eqb_spec t "") as [-> | Hne]; simpl; [discriminate|].
  destruct (contains_any line_terminators t); [discriminate|].
  intros [= <-]. auto.
Qed.

Lemma verifyIdTokenFromRequest_Some (w : World) (req : Request) (uid : string) :
  verifyIdTokenFromRequest w req = Some uid ->
  exists token,
    authorization req = Some ("Bearer " +:+ token) /\ token <> "" /\
    verifyIdToken w token = Some uid.
Proof.
  unfold verifyIdTokenFromRequest.
  destruct (bearer_match (default "" (authorization req))) as [token|] eqn:E;
    [|discriminate].
  intros Hv. apply bearer_match_Some in E as [Hheader Hne].
  destruct (authorization req) as [header|]; simpl in Hheader; [|discriminate Hheader].
  exists token. subst header. auto.
Qed.

(** X9: in the revised server, when the request carries a credential
    that the identity provider verifies, the header is [Bearer] followed by
    the token the provider was asked about, and the record of a successful
    confirmation has for [userId] the subject of that token. *)
Theorem stored_user_is_token_subject
    (w : World) (req : Request) (doc_id : string) (w' : World) (uid : string) :
  save_order w req = (Saved doc_id, w') ->
  verifyIdTokenFromRequest w req = Some uid ->
  (exists token,
     authorization req = Some ("Bearer " +:+ token) /\ token <> "" /\
     verifyIdToken w token = Some uid) /\
  exists doc,
    orders w' !! doc_id = Some doc /\
    field doc "userId" = Some (Data (Str uid)).
Proof.
  intros Hsave Hv. split; [exact (verifyIdTokenFromRequest_Some w req uid Hv)|].
  apply StoredFacts.save_order_stored in Hsave
    as (od & doc & candidate & w1 & Hauth & _ & _ & _ & Hdoc & Hlookup).
  apply RevisedFacts.authenticate_Next in Hauth as (_ & _ & _ & Hid & _).
  unfold check_identity in Hid. rewrite Hv in Hid.
  apply RevisedFacts.bind_Next in Hid as (userId & Hu & Hid).
  apply RevisedFacts.attempt_Next in Hu.
  apply RevisedFacts.return_if_Next, negb_false_iff, JSFacts.string_eq_true in Hid.
  subst userId.
  exists doc. split; [exact Hlookup|].
  apply RevisedFacts.formattedOrder_Some in Hdoc
    as (userId & customer & name & phone & address & subtotal & shipping & total &
        payment_id & order_id & signature & status & items &
        Hu' & _ & _ & _ & _ & _ & _ & _ & _ & _ & _ & _ & _ & ->).
  assert (userId = Str uid) by congruence. subst userId. reflexivity.
Qed.

Lemma stored_user_is_token_subject_witness :
  let req := Example.confirm (Some "Bearer token-u1") (Example.payload 50000) in
  let w' := snd (save_order Example.world_50000 req) in
  (save_order Example.world_50000 req = (Saved "order_1", w') /\
   verifyIdTokenFromRequest Example.world_50000 req = Some "u1") /\
  exists doc,
    orders w' !! "order_1" = Some doc /\
    field doc "userId" = Some (Data (Str "u1")).
Proof.
  assert (Hsave : save_order Example.world_50000
                    (Example.confirm (Some "Bearer token-u1") (Example.payload 50000))
                  = (Saved "order_1",
                     snd (save_order Example.world_50000
                            (Example.confirm (Some "Bearer token-u1")
                               (Example.payload 50000)))))
    by (vm_compute; reflexivity).
  assert (Hv : verifyIdTokenFromRequest Example.world_50000
                 (Example.confirm (Some "Bearer token-u1") (Example.payload 50000))
               = Some "u1")
    by (vm_compute; reflexivity).
  split; [split; [exact Hsave | exact Hv]|].
  exact (proj2 (stored_user_is_token_subject Example.world_50000
                  (Example.confirm (Some "Bearer token-u1") (Example.payload 50000))
                  "order_1"
                  (snd (save_order Example.world_50000
                          (Example.confirm (Some "Bearer token-u1") (Example.payload 50000))))
                  "u1" Hsave Hv)).
Defined.

(** *** The identifier of the document *)

Lemma trimmed_shape (rt : Runtime) (x t : value) :
  trimmed rt x = Some t -> JS.truthy t = true ->
  exists s, t = Str s /\ JS.trim s = s /\ s <> "" /\ Property.bare JS.white_space s.
Proof.
  unfold trimmed. intros Ht Htruthy.
  destruct (JS.truthy x) eqn:Hx.
  - destruct (JS.ToString rt x) as [sx|]; simpl in Ht; [|discriminate Ht].
    injection Ht as <-. exists (JS.trim sx).
    split; [reflexivity|]. split; [apply TextFacts.trim_idempotent|].
    split; [now apply JSFacts.truthy_Str|].
    rewrite TextFacts.trim_strip_both_ends.
    apply TextFacts.strip_both_ends_bare, TextFacts.white_space_nonempty.
  - injection Ht as <-. congruence.
Qed.

Lemma candidateId_trimmed (rt : Runtime) (orderData : value) (s : string) :
  candidateId rt orderData = Some (Str s) ->
  JS.trim s = s /\ s <> "" /\ Property.bare JS.white_space s.
Proof.
  unfold candidateId. intros H.
  destruct (JS.get orderData "order_id") as [a|]; cbn [mbind option_bind] in H;
    [|discriminate H].
  destruct (trimmed rt a) as [first|] eqn:E1; cbn [mbind option_bind] in H;
    [|discriminate H].
  destruct (JS.truthy first) eqn:T1.
  - injection H as ->.
    destruct (trimmed_shape rt a (Str s) E1 T1) as (s' & [= <-] & Hs). exact Hs.
  - destruct (JS.get orderData "razorpay_order_id") as [b|]; cbn [mbind option_bind] in H;
      [|discriminate H].
    destruct (trimmed rt b) as [second|] eqn:E2; cbn [mbind option_bind] in H;
      [|discriminate H].
    injection H as H. unfold JS.or in H.
    destruct (JS.truthy second) eqn:T2; [|discriminate H]. subst second.
    destruct (trimmed_shape rt b (Str s) E2 T2) as (s' & [= <-] & Hs). exact Hs.
Qed.

Lemma chosen_identifier (w : World) (candidate : value) (doc_id : string) (w1 : World) :
  (forall s, candidate = Str s ->
             JS.trim s = s /\ s <> "" /\ Property.bare JS.white_space s) ->
  match candidate with Str s => (s, w) | _ => doc_auto w end = (doc_id, w1) ->
  (JS.trim doc_id = doc_id /\ doc_id <> "" /\ Property.bare JS.white_space doc_id) \/
  doc_id = auto_id w (auto_count w).
Proof.
  intros Hs Hid.
  destruct candidate; try (injection Hid as <- _; right; reflexivity).
  injection Hid as <- _. left. exact (Hs s eq_refl).
Qed.

End IdentityFacts.

(** ** The hardened server *)
Module HardenedRecordFacts.
Import Hardened.

(** Everything a successful confirmation of the hardened server went
    through. *)
Lemma hardened_save_order_accepted (w : World) (req : Request) (doc_id : string) (w' : World) :
  save_order w req = (Saved doc_id, w') ->
  exists orderData customer name candidate w1 doc,
    JS.get (body req) "orderData" = Some orderData /\
    JS.get orderData "customer" = Some customer /\ JS.truthy customer = true /\
    JS.get customer "name" = Some name /\ JS.truthy name = true /\
    Revised.candidateId (runtime w) orderData = Some candidate /\
    match candidate with Str s => (s, w) | _ => doc_auto w end = (doc_id, w1) /\
    formattedOrder (runtime w) doc_id orderData = Some doc /\
    orders w' !! doc_id = Some doc.
Proof.
  unfold save_order. cbv zeta.
  match goal with
  | |- context [match ?c with Next _ => _ | Return _ => _ | Throw => _ end] =>
      destruct c as [od|r|] eqn:E
  end.
  - apply RevisedFacts.bind_Next in E as (od' & Hbody & E).
    apply RevisedFacts.attempt_Next in Hbody.
    apply RevisedFacts.bind_Next in E as ([] & _ & E).
    apply RevisedFacts.bind_Next in E as (customer & Hc & E).
    apply RevisedFacts.attempt_Next in Hc.
    apply RevisedFacts.bind_Next in E as ([] & Hct & E).
    apply RevisedFacts.return_if_Next, negb_false_iff in Hct.
    apply RevisedFacts.bind_Next in E as (name & Hn & E).
    apply RevisedFacts.attempt_Next in Hn.
    apply RevisedFacts.bind_Next in E as ([] & Hnt & E).
    apply RevisedFacts.return_if_Next, negb_false_iff in Hnt.
    injection E as ->.
    destruct (Revised.candidateId (runtime w) od) as [candidate|] eqn:Hcand;
      [|discriminate].
    destruct (match candidate with Str s => (s, w) | _ => doc_auto w end)
      as [finalDocId w1] eqn:Hm.
    destruct (formattedOrder (runtime w) finalDocId od) as [doc|] eqn:Hdoc;
      simpl; [|discriminate].
    unfold doc_set. destruct (store_accepts w1 finalDocId doc); [|discriminate].
    intros [= <- <-].
    exists od, customer, name, candidate, w1, doc.
    repeat split; try assumption. apply lookup_insert_eq.
  - intros [= -> _].
    apply RevisedFacts.bind_Return in E as [E | (od & _ & E)].
    { destruct (JS.get (body req) "orderData"); discriminate E. }
    apply RevisedFacts.bind_Return in E as [E | ([] & _ & E)].
    { destruct (_ || _); simpl in E; discriminate E. }
    apply RevisedFacts.bind_Return in E as [E | (customer & _ & E)].
    { destruct (JS.get od "customer"); discriminate E. }
    apply RevisedFacts.bind_Return in E as [E | ([] & _ & E)].
    { destruct (negb _); simpl in E; discriminate E. }
    apply RevisedFacts.bind_Return in E as [E | (name & _ & E)].
    { destruct (JS.get customer "name"); discriminate E. }
    apply RevisedFacts.bind_Return in E as [E | ([] & _ & E)]; [|discriminate E].
    destruct (negb _); simpl in E; discriminate E.
  - discriminate.
Qed.

(** The shape of the record the hardened server hands to [set]. *)
Lemma hardened_formattedOrder_shape (rt : Runtime) (finalDocId : string) (orderData : value)
    (doc : document) :
  formattedOrder rt finalDocId orderData = Some doc ->
  exists userId customer name phone address subtotal shipping total
         payment_id order_id signature status items,
    JS.get orderData "customer" = Some customer /\
    format_address rt customer = Some address /\
    JS.get orderData "razorpay_signature" = Some signature /\
    JS.get orderData "status" = Some status /\
    doc = [ ("orderId", Data (Str finalDocId));
            ("userId", Data (JS.or userId Null));
            ("customerName", Data (JS.or name Null));
            ("phone", Data (JS.or phone Null));
            ("address", Data address);
            ("subtotal", Data subtotal);
            ("shipping", Data shipping);
            ("totalAmount", Data total);
            ("paymentId", Data (JS.or payment_id Null));
            ("razorpay_order_id", Data (JS.or order_id Null));
            ("razorpay_signature", Data (JS.or signature Null));
            ("paymentStatus", Data (JS.or status (Str "Unknown")));
            ("items", Data items);
            ("createdAt", ServerTimestamp);
            ("rawPayload", Data orderData) ].
Proof.
  unfold formattedOrder. intros H.
  do 13 RevisedFacts.invert_bind H.
  injection H as <-.
  do 13 eexists. repeat (split; [eassumption || reflexivity|]). reflexivity.
Qed.

Lemma strip_commas_both_ends (s : string) :
  strip_commas s = Property.strip_both_ends ("," :: JS.white_space) s.
Proof. reflexivity. Qed.

Lemma separators_nonempty : Forall (fun p => p <> "") ("," :: JS.white_space).
Proof. constructor; [discriminate | exact TextFacts.white_space_nonempty]. Qed.

(** X10: the address the hardened server stores has bare ends.  In the
    record of a successful confirmation the address is a text that neither
    begins nor ends with a comma or a white-space character, and on which
    the pattern of the handler has nothing more to remove. *)
Theorem stored_address_bare (w : World) (req : Request) (doc_id : string) (w' : World) :
  save_order w req = (Saved doc_id, w') ->
  exists doc address,
    orders w' !! doc_id = Some doc /\
    field doc "address" = Some (Data (Str address)) /\
    Property.bare ("," :: JS.white_space) address /\
    strip_commas address = address.
Proof.
  intros Hsave.
  apply hardened_save_order_accepted in Hsave
    as (od & customer & name & candidate & w1 & doc & _ & Hc & _ & _ & _ & _ & _ & Hdoc & Hl).
  apply hardened_formattedOrder_shape in Hdoc
    as (userId & customer' & name' & phone & address & subtotal & shipping & total &
        payment_id & order_id & signature & status & items & Hc' & Haddr & _ & _ & ->).
  unfold format_address in Haddr. do 8 RevisedFacts.invert_bind Haddr.
  injection Haddr as <-.
  eexists. eexists. split; [exact Hl|]. split; [reflexivity|].
  rewrite !strip_commas_both_ends. split.
  - apply TextFacts.strip_both_ends_bare, separators_nonempty.
  - apply TextFacts.strip_both_ends_idempotent, separators_nonempty.
Qed.

Lemma stored_address_bare_witness :
  let req := Example.confirm None Sample.customer_only in
  let w' := snd (save_order Example.world req) in
  save_order Example.world req = (Saved "auto_0", w') /\
  exists doc address,
    orders w' !! "auto_0" = Some doc /\
    field doc "address" = Some (Data (Str address)) /\
    Property.bare ("," :: JS.white_space) address /\
    strip_commas address = address.
Proof.
  assert (Hsave : save_order Example.world (Example.confirm None Sample.customer_only)
                  = (Saved "auto_0",
                     snd (save_order Example.world
                            (Example.confirm None Sample.customer_only))))
    by (vm_compute; reflexivity).
  split; [exact Hsave|].
  exact (stored_address_bare Example.world (Example.confirm None Sample.customer_only)
           "auto_0"
           (snd (save_order Example.world (Example.confirm None Sample.customer_only)))
           Hsave).
Defined.

(** The address of the example: city only. *)
Example customer_only_address :
  format_address Example.rt (Obj [("name", Str "A"); ("city", Str "Erode")])
  = Some (Str "Erode,  -").
Proof. vm_compute. reflexivity. Qed.

(** X11: the identifier under which the revised and the hardened server
    store a document is either a text taken from the payload, which is then
    not empty and neither begins nor ends with a white-space character
    ([trim] leaves it as it is), or the identifier the store generates. *)
Theorem stored_identifier_trimmed
    (confirm : World -> Request -> Response * World)
    (w : World) (req : Request) (doc_id : string) (w' : World) :
  In confirm [Revised.save_order; save_order] ->
  confirm w req = (Saved doc_id, w') ->
  (JS.trim doc_id = doc_id /\ doc_id <> "" /\ Property.bare JS.white_space doc_id) \/
  doc_id = auto_id w (auto_count w).
Proof.
  intros [<- | [<- | []]] Hsave.
  - apply StoredFacts.save_order_stored in Hsave
      as (od & doc & candidate & w1 & _ & _ & Hcand & Hid & _).
    apply (IdentityFacts.chosen_identifier w candidate doc_id w1); [|exact Hid].
    intros s ->. exact (IdentityFacts.candidateId_trimmed _ _ _ Hcand).
  - apply hardened_save_order_accepted in Hsave
      as (od & customer & name & candidate & w1 & doc & _ & _ & _ & _ & _ & Hcand & Hid & _).
    apply (IdentityFacts.chosen_identifier w candidate doc_id w1); [|exact Hid].
    intros s ->. exact (IdentityFacts.candidateId_trimmed _ _ _ Hcand).
Qed.

Lemma stored_identifier_trimmed_witness :
  let req := Example.confirm None Example.named_payload in
  let w' := snd (Revised.save_order Example.world_50000 req) in
  (In Revised.save_order [Revised.save_order; save_order] /\
   Revised.save_order Example.world_50000 req = (Saved "abc", w')) /\
  ((JS.trim "abc" = "abc" /\ "abc" <> "" /\ Property.bare JS.white_space "abc") \/
   "abc" = auto_id Example.world_50000 (auto_count Example.world_50000)).
Proof.
  assert (Hin : In Revised.save_order [Revised.save_order; save_order])
    by (left; reflexivity).
  assert (Hsave : Revised.save_order Example.world_50000
                    (Example.confirm None Example.named_payload)
                  = (Saved "abc",
                     snd (Revised.save_order Example.world_50000
                            (Example.confirm None Example.named_payload))))
    by (vm_compute; reflexivity).
  split; [split; [exact Hin | exact Hsave]|].
  exact (stored_identifier_trimmed Revised.save_order Example.world_50000
           (Example.confirm None Example.named_payload) "abc"
           (snd (Revised.save_order Example.world_50000
                   (Example.confirm None Example.named_payload)))
           Hin Hsave).
Defined.

(** X12: the hardened server asks for a customer name and for nothing
    else.  For a request whose body is an object: the answer is
    [OrderDataRequired] exactly when [orderData] is falsy or not an object;
    it is [CustomerMissing] exactly when [orderData] is an object whose
    [customer] or whose customer's [name] is falsy; in every other case the
    handler writes, and its answer is the identifier of the document or the
    500 of a failed write.  No signature and no amount is looked at. *)
Theorem hardened_rejections (w : World) (req : Request) (fields : list (string * value)) :
  body req = Obj fields ->
  let orderData := JS.own fields "orderData" in
  let customer := default Undefined (JS.get orderData "customer") in
  let name := default Undefined (JS.get customer "name") in
  (fst (save_order w req) = OrderDataRequired <->
   JS.truthy orderData && JS.typeof_object orderData = false) /\
  (fst (save_order w req) = CustomerMissing <->
   JS.truthy orderData && JS.typeof_object orderData = true /\
   JS.truthy customer && JS.truthy name = false) /\
  (JS.truthy orderData && JS.typeof_object orderData = true ->
   JS.truthy customer && JS.truthy name = true ->
   fst (save_order w req) = PersistenceFailure \/
   exists doc_id, fst (save_order w req) = Saved doc_id).
Proof.
  intros Hbody orderData customer name.
  unfold save_order. cbv zeta. rewrite Hbody. cbn [JS.get attempt].
  fold orderData. cbn [mbind comp_bind].
  rewrite <- negb_andb.
  destruct (JS.truthy orderData && JS.typeof_object orderData) eqn:Hobj;
    cbn [negb return_if mbind comp_bind fst].
  2: { split; [split; reflexivity || discriminate|].
       split; [|discriminate].
       split; [discriminate | intros [H _]; discriminate H]. }
  apply andb_true_iff in Hobj as [Ht _].
  destruct (JSFacts.get_truthy orderData "customer" Ht) as [c Hc].
  assert (Hcustomer : customer = c) by (unfold customer; rewrite Hc; reflexivity).
  rewrite Hc. cbn [attempt mbind comp_bind]. rewrite <- Hcustomer.
  destruct (JS.truthy customer) eqn:Hct; cbn [negb return_if mbind comp_bind fst andb].
  2: { split; [split; discriminate|].
       split; [split; auto|]. intros _ H. discriminate H. }
  destruct (JSFacts.get_truthy customer "name" Hct) as [m Hm].
  assert (Hname : name = m) by (unfold name; rewrite Hm; reflexivity).
  rewrite Hm. cbn [attempt mbind comp_bind]. rewrite <- Hname.
  destruct (JS.truthy name) eqn:Hnt; cbn [negb return_if mbind comp_bind fst].
  2: { split; [split; discriminate|].
       split; [split; auto|]. intros _ H. discriminate H. }
  assert (Hwrite :
            let rw :=
              match Revised.candidateId (runtime w) orderData with
              | Some candidate =>
                  let '(finalDocId, w1) :=
                    match candidate with
                    | Str s => (s, w)
                    | _ => doc_auto w
                    end in
                  match formattedOrder (runtime w) finalDocId orderData ≫= doc_set w1 finalDocId
                  with
                  | Some w2 => (Saved finalDocId, w2)
                  | None => (PersistenceFailure, w1)
                  end
              | None => (PersistenceFailure, w)
              end in
            fst rw = PersistenceFailure \/ exists doc_id, fst rw = Saved doc_id).
  { destruct (Revised.candidateId (runtime w) orderData) as [candidate|]; [|left; reflexivity].
    destruct (match candidate with Str s => (s, w) | _ => doc_auto w end) as [d w1].
    destruct (formattedOrder (runtime w) d orderData ≫= doc_set w1 d); simpl; eauto. }
  cbv zeta in Hwrite.
  split; [|split].
  - split; [|discriminate]. intros H. destruct Hwrite as [E | [d E]]; rewrite E in H;
      discriminate H.
  - split; [|intros [_ H]; discriminate H].
    intros H. destruct Hwrite as [E | [d E]]; rewrite E in H; discriminate H.
  - intros _ _. exact Hwrite.
Qed.

Lemma hardened_rejections_witness :
  let req := Example.confirm None (Obj []) in
  body req = Obj [("orderData", Obj [])] /\
  fst (save_order Example.world req) = CustomerMissing.
Proof.
  split; [reflexivity|].
  destruct (hardened_rejections Example.world (Example.confirm None (Obj []))
              [("orderData", Obj [])] eq_refl)
    as (_ & Hiff & _).
  apply Hiff. split; reflexivity.
Defined.

(** A payload that carries no signature and no amount is stored. *)
Example unsigned_payload_stored :
  fst (save_order Example.world (Example.confirm None Sample.customer_only))
  = Saved "auto_0".
Proof. vm_compute. reflexivity. Qed.

End HardenedRecordFacts.

(** ** The responses of the confirmation handlers *)
Module ResponseFacts.

Lemma check_required_Return_field (orderData : value) (fs : list string) (r : Response) :
  Revised.check_required orderData fs = Return r ->
  exists f, In f fs /\ r = Revised.MissingField f.
Proof.
  induction fs as [|f fs IH]; [discriminate|].
  rewrite RevisedFacts.check_required_cons.
  destruct (JS.get orderData f) as [v|]; simpl; [|discriminate].
  destruct (JS.truthy v); simpl.
  - intros H. destruct (IH H) as (g & Hg & ->). exists g. auto.
  - intros [= <-]. exists f. auto.
Qed.

Lemma check_identity_Return_mismatch
    (w : World) (req : Request) (orderData : value) (r : Response) :
  Revised.check_identity w req orderData = Return r -> r = Revised.IdentityMismatch.
Proof.
  unfold Revised.check_identity.
  destruct (Revised.verifyIdTokenFromRequest w req); [|discriminate].
  destruct (JS.get orderData "userId") as [v|]; simpl; [|discriminate].
  destruct (JS.string_eq _ v); simpl; intros [= <-]. reflexivity.
Qed.

Lemma validate_Return_cases (w : World) (req : Request) (r : Response) :
  Revised.validate w req = Return r -> Property.revised_response r.
Proof.
  unfold Revised.validate, Revised.authenticate, Property.revised_response. intros H.
  apply RevisedFacts.bind_Return in H as [H | (od & _ & H)].
  - apply RevisedFacts.bind_Return in H as [H | (od & _ & H)].
    { destruct (JS.get (body req) "orderData"); discriminate H. }
    apply RevisedFacts.bind_Return in H as [H | ([] & _ & H)].
    { destruct (_ || _); simpl in H; [|discriminate H]. injection H as <-. auto. }
    apply RevisedFacts.bind_Return in H as [H | ([] & _ & H)].
    { apply check_required_Return_field in H. auto. }
    apply RevisedFacts.bind_Return in H as [H | ([] & _ & H)].
    { apply check_identity_Return_mismatch in H. auto. }
    apply RevisedFacts.bind_Return in H as [H | ([] & _ & H)]; [|discriminate H].
    apply RevisedFacts.check_signature_Return in H. auto.
  - apply RevisedFacts.bind_Return in H as [H | ([] & _ & H)]; [|discriminate H].
    apply RevisedFacts.check_amount_Return in H as [-> | ->]; auto 10.
Qed.

(** X13: the answers of the revised [/save-order] are those of its error
    taxonomy and no other: the 400 for a missing [orderData], the 400 that
    names one of the five required fields, the 403 of an identity mismatch,
    the 400 of an invalid signature, the 400 of an amount mismatch, the 500
    of a failed gateway verification, the 500 of a failed write, or the
    identifier of the stored document.  In particular it never answers 401. *)
Theorem revised_responses (w : World) (req : Request) :
  Property.revised_response (fst (Revised.save_order w req)) /\
  forall error, fst (Revised.save_order w req) <> Failure 401 error.
Proof.
  assert (H : Property.revised_response (fst (Revised.save_order w req))).
  { unfold Revised.save_order.
    destruct (Revised.validate w req) as [od|r|] eqn:E.
    - unfold Property.revised_response.
      destruct (RevisedFacts.persist_response w od) as [-> | [d ->]]; eauto 10.
    - exact (validate_Return_cases w req r E).
    - unfold Property.revised_response. simpl. auto 10. }
  split; [exact H|].
  intros error E. rewrite E in H.
  destruct H as [H | [(f & _ & H) | [H | [H | [H | [H | [H | [d H]]]]]]]];
    discriminate H.
Qed.

(** X14: the answers of the [/save-order] route of [server.js] are the
    two 401 of the token middleware, the 400 for a missing [orderData], the
    400 of an invalid signature, the 500 of a failed write, or the identifier
    of the stored document; and the answer is a 401 exactly when the
    [Authorization] header does not begin with [Bearer ] or the identity
    provider rejects the token cut out of it. *)
Theorem dropin_responses (w : World) (req : Request) :
  let header := default "" (authorization req) in
  let token := JS.trim (JS.until_separator "Bearer " (JS.drop_string 7 header)) in
  Property.dropin_response (fst (DropIn.save_order w req)) /\
  ((exists error, fst (DropIn.save_order w req) = Failure 401 error) <->
   String.prefix "Bearer " header = false \/ verifyIdToken w token = None).
Proof.
  intros header token.
  assert (Hhandler : forall uid,
             let r := fst (DropIn.save_order_handler w uid req) in
             r = DropIn.MissingOrderData \/ r = DropIn.InvalidSignature \/
             r = DropIn.PersistenceFailure \/ exists doc_id, r = Saved doc_id).
  { intros uid. unfold DropIn.save_order_handler. cbv zeta.
    match goal with
    | |- context [match ?c with Next _ => _ | Return _ => _ | Throw => _ end] =>
        destruct c as [od|r|] eqn:E
    end.
    - destruct (EffectFacts.dropin_persist_effect w uid od) as [n H].
      unfold DropIn.persist in *.
      destruct (JS.get od "order_id") as [order_id|]; [|simpl; auto].
      destruct (JS.get od "payment_id") as [payment_id|]; [|simpl; auto].
      destruct (if DropIn.isNonEmptyString order_id
                then (DropIn.string_of order_id, w)
                else if DropIn.isNonEmptyString payment_id
                     then (DropIn.string_of payment_id, w)
                     else doc_auto w) as [docId w1].
      destruct (DropIn.formattedOrder (runtime w) uid od ≫= doc_set w1 docId);
        simpl; eauto 10.
    - apply EffectFacts.dropin_checks_Return in E as [-> | ->]; simpl; auto.
    - simpl. auto. }
  unfold DropIn.save_order, DropIn.verifyFirebaseToken, Property.dropin_response.
  fold header. fold token.
  destruct (String.prefix "Bearer " header) eqn:Hp; cbn [negb].
  2: { simpl. split; [auto|]. split; [auto | eauto]. }
  destruct (verifyIdToken w token) as [uid|] eqn:Hv.
  2: { simpl. split; [auto|]. split; [auto | eauto]. }
  specialize (Hhandler uid). cbv zeta in Hhandler.
  split.
  - destruct Hhandler as [-> | [-> | [-> | [d ->]]]]; eauto 10.
  - split.
    + intros [error E]. rewrite E in Hhandler.
      destruct Hhandler as [H | [H | [H | [d H]]]]; discriminate H.
    + intros [H | H]; discriminate H.
Qed.

End ResponseFacts.

(** ** [server.js]: what is stored, for whom and under which name *)
Module DropInRecordFacts.
Import DropIn.

Lemma verifyFirebaseToken_Next (w : World) (req : Request) (uid : string) :
  verifyFirebaseToken w req = Next uid ->
  exists header,
    authorization req = Some header /\
    String.prefix "Bearer " header = true /\
    verifyIdToken w (JS.trim (JS.until_separator "Bearer " (JS.drop_string 7 header)))
    = Some uid.
Proof.
  unfold verifyFirebaseToken.
  destruct (authorization req) as [header|]; cbn [default from_option id];
    [|discriminate].
  destruct (String.prefix "Bearer " header) eqn:Hp; cbn [negb]; [|discriminate].
  destruct (verifyIdToken w _) as [u|] eqn:Hv; [|discriminate].
  intros [= <-]. exists header. auto.
Qed.

(** Everything a successful confirmation went through. *)
Lemma dropin_save_order_accepted (w : World) (req : Request) (doc_id : string) (w' : World) :
  save_order w req = (Saved doc_id, w') ->
  exists uid orderData order_id payment_id signature,
    verifyFirebaseToken w req = Next uid /\
    JS.get (body req) "orderData" = Some orderData /\
    JS.get orderData "order_id" = Some order_id /\
    JS.get orderData "payment_id" = Some payment_id /\
    JS.get orderData "signature" = Some signature /\
    verifyRazorpaySignature w order_id payment_id signature = true /\
    persist w uid orderData = (Saved doc_id, w').
Proof.
  unfold save_order.
  destruct (verifyFirebaseToken w req) as [uid|r|] eqn:Ht.
  - unfold save_order_handler. cbv zeta.
    match goal with
    | |- context [match ?c with Next _ => _ | Return _ => _ | Throw => _ end] =>
        destruct c as [od|r|] eqn:E
    end.
    + intros Hpersist.
      apply RevisedFacts.bind_Next in E as (od' & Hbody & E).
      apply RevisedFacts.attempt_Next in Hbody.
      apply RevisedFacts.bind_Next in E as ([] & _ & E).
      apply RevisedFacts.bind_Next in E as (order_id & Ho & E).
      apply RevisedFacts.attempt_Next in Ho.
      apply RevisedFacts.bind_Next in E as (payment_id & Hp & E).
      apply RevisedFacts.attempt_Next in Hp.
      apply RevisedFacts.bind_Next in E as (signature & Hs & E).
      apply RevisedFacts.attempt_Next in Hs.
      apply RevisedFacts.bind_Next in E as ([] & Hsig & E).
      apply RevisedFacts.return_if_Next, negb_false_iff in Hsig.
      injection E as ->.
      exists uid, od, order_id, payment_id, signature. auto 10.
    + intros [= -> _]. apply EffectFacts.dropin_checks_Return in E as [E | E];
        discriminate E.
    + discriminate.
  - intros [= -> _]. apply EffectFacts.verifyFirebaseToken_Return in Ht as [E | E];
      discriminate E.
  - discriminate.
Qed.

Lemma persist_stored (w : World) (uid : string) (orderData : value) (doc_id : string)
    (w' : World) :
  persist w uid orderData = (Saved doc_id, w') ->
  exists order_id payment_id doc w1,
    JS.get orderData "order_id" = Some order_id /\
    JS.get orderData "payment_id" = Some payment_id /\
    (if isNonEmptyString order_id then (string_of order_id, w)
     else if isNonEmptyString payment_id then (string_of payment_id, w)
          else doc_auto w) = (doc_id, w1) /\
    formattedOrder (runtime w) uid orderData = Some doc /\
    orders w' !! doc_id = Some doc.
Proof.
  unfold persist.
  destruct (JS.get orderData "order_id") as [order_id|]; [|discriminate].
  destruct (JS.get orderData "payment_id") as [payment_id|]; [|discriminate].
  destruct (if isNonEmptyString order_id then (string_of order_id, w)
            else if isNonEmptyString payment_id then (string_of payment_id, w)
                 else doc_auto w) as [docId w1] eqn:Hid.
  destruct (formattedOrder (runtime w) uid orderData) as [doc|] eqn:Hdoc;
    simpl; [|discriminate].
  unfold doc_set. destruct (store_accepts w1 docId doc); [|discriminate].
  intros [= <- <-]. exists order_id, payment_id, doc, w1.
  repeat split; try assumption || reflexivity. apply lookup_insert_eq.
Qed.

(** The shape of the record handed to [set]. *)
Lemma dropin_formattedOrder_shape (rt : Runtime) (uid : string) (orderData : value)
    (doc : document) :
  formattedOrder rt uid orderData = Some doc ->
  exists subtotal shipping total payment_id order_id signature
         name phone address formatted_items,
    JS.get orderData "total" = Some total /\
    JS.get orderData "payment_id" = Some payment_id /\
    JS.get orderData "order_id" = Some order_id /\
    JS.get orderData "signature" = Some signature /\
    doc = [ ("userid", Data (Str uid));
            ("customerName", Data (JS.or name (Str "")));
            ("phone", Data (JS.or phone (Str "")));
            ("address", Data address);
            ("totalAmount", Data total);
            ("subtotal", Data subtotal);
            ("shipping", Data shipping);
            ("paymentId", Data payment_id);
            ("orderId", Data order_id);
            ("paymentStatus", Data (Str "Paid"));
            ("datePlaced", ServerTimestamp);
            ("items", Data formatted_items);
            ("razorpaySignature", Data (JS.or signature Null)) ].
Proof.
  unfold formattedOrder. intros H.
  do 12 RevisedFacts.invert_bind H.
  injection H as <-.
  do 10 eexists. repeat (split; [eassumption || reflexivity|]). reflexivity.
Qed.

(** X15: what [server.js] stores was sent by a verified user and carries
    a verified signature.  A successful confirmation came with an
    [Authorization] header beginning with [Bearer ], whose token the identity
    provider verified; the signature of the payload passed
    [verifyRazorpaySignature]; and the record has for [userid] the subject
    of the token, whatever the payload says, for [razorpaySignature] the
    verified signature and for [paymentStatus] the text [Paid]. *)
Theorem stored_behind_token
    (w : World) (req : Request) (doc_id : string) (w' : World) :
  save_order w req = (Saved doc_id, w') ->
  exists header uid orderData order_id payment_id signature doc,
    authorization req = Some header /\
    String.prefix "Bearer " header = true /\
    verifyIdToken w (JS.trim (JS.until_separator "Bearer " (JS.drop_string 7 header)))
    = Some uid /\
    JS.get (body req) "orderData" = Some orderData /\
    JS.get orderData "order_id" = Some order_id /\
    JS.get orderData "payment_id" = Some payment_id /\
    JS.get orderData "signature" = Some signature /\
    verifyRazorpaySignature w order_id payment_id signature = true /\
    orders w' !! doc_id = Some doc /\
    field doc "userid" = Some (Data (Str uid)) /\
    field doc "razorpaySignature" = Some (Data signature) /\
    field doc "paymentStatus" = Some (Data (Str "Paid")).
Proof.
  intros Hsave.
  apply dropin_save_order_accepted in Hsave
    as (uid & od & order_id & payment_id & signature &
        Htok & Hbody & Ho & Hp & Hs & Hsig & Hpersist).
  apply verifyFirebaseToken_Next in Htok as (header & Hheader & Hprefix & Hv).
  apply persist_stored in Hpersist as (_ & _ & doc & w1 & _ & _ & _ & Hdoc & Hlookup).
  apply dropin_formattedOrder_shape in Hdoc
    as (subtotal & shipping & total & payment_id' & order_id' &
        signature' & name & phone & address & formatted_items & _ & _ & _ & Hs' & ->).
  assert (signature' = signature) by congruence. subst signature'.
  pose proof (proj1 (DropInFacts.verifyRazorpaySignature_true w _ _ _) Hsig)
    as (_ & _ & o & p & _ & _ & Hdigest).
  exists header, uid, od, order_id, payment_id, signature. eexists.
  repeat (split; [eassumption|]).
  split; [reflexivity|]. split; [|reflexivity].
  cbn [field String.eqb Ascii.eqb Bool.eqb].
  rewrite Hdigest, (StoredFacts.or_truthy _ _ (JSFacts.truthy_digest _ _)). reflexivity.
Qed.

Lemma stored_behind_token_witness :
  let req := Sample.authenticated Sample.signed_dropin in
  let w' := snd (save_order Example.world req) in
  save_order Example.world req = (Saved "order_1", w') /\
  exists doc,
    orders w' !! "order_1" = Some doc /\
    field doc "userid" = Some (Data (Str "u1")).
Proof.
  assert (Hsave : save_order Example.world (Sample.authenticated Sample.signed_dropin)
                  = (Saved "order_1",
                     snd (save_order Example.world
                            (Sample.authenticated Sample.signed_dropin))))
    by (vm_compute; reflexivity).
  split; [exact Hsave|].
  destruct (stored_behind_token Example.world (Sample.authenticated Sample.signed_dropin)
              "order_1"
              (snd (save_order Example.world (Sample.authenticated Sample.signed_dropin)))
              Hsave)
    as (header & uid & od & order_id & payment_id & signature & doc &
        Hheader & _ & Hv & _ & _ & _ & _ & _ & Hlookup & Huser & _).
  exists doc. split; [exact Hlookup|].
  injection Hheader as <-. vm_compute in Hv. injection Hv as <-. exact Huser.
Defined.

Lemma isNonEmptyString_true (v : value) :
  isNonEmptyString v = true -> exists s, v = Str s /\ JS.trim s <> "".
Proof.
  destruct v; simpl; try discriminate.
  intros H. apply negb_true_iff, String.eqb_neq in H. eauto.
Qed.

(** X16: the identifier under which [server.js] stores a document.  It is
    the payload's [order_id] when that is a string which is not blank;
    otherwise the payload's [payment_id] when that is such a string;
    otherwise the identifier the store generates.  So a text taken from the
    payload for identifier is never empty or blank.  It is used as it is,
    not trimmed, and the signature check lets no payload through without an
    [order_id]. *)
Theorem safe_document_identifier
    (w : World) (req : Request) (doc_id : string) (w' : World) :
  save_order w req = (Saved doc_id, w') ->
  exists orderData order_id payment_id,
    JS.get (body req) "orderData" = Some orderData /\
    JS.get orderData "order_id" = Some order_id /\
    JS.get orderData "payment_id" = Some payment_id /\
    JS.truthy order_id = true /\
    (isNonEmptyString order_id = true -> order_id = Str doc_id) /\
    (isNonEmptyString order_id = false -> isNonEmptyString payment_id = true ->
     payment_id = Str doc_id) /\
    (isNonEmptyString order_id = false -> isNonEmptyString payment_id = false ->
     doc_id = auto_id w (auto_count w)) /\
    (JS.trim doc_id <> "" \/ doc_id = auto_id w (auto_count w)).
Proof.
  intros Hsave.
  apply dropin_save_order_accepted in Hsave
    as (uid & od & order_id & payment_id & signature &
        _ & Hbody & Ho & Hp & _ & Hsig & Hpersist).
  apply persist_stored in Hpersist
    as (order_id' & payment_id' & doc & w1 & Ho' & Hp' & Hid & _ & _).
  assert (order_id' = order_id) by congruence.
  assert (payment_id' = payment_id) by congruence. subst order_id' payment_id'.
  pose proof (proj1 (DropInFacts.verifyRazorpaySignature_true w _ _ _) Hsig)
    as (Hot & _).
  exists od, order_id, payment_id. repeat (split; [assumption|]).
  destruct (isNonEmptyString order_id) eqn:E1.
  - destruct (isNonEmptyString_true order_id E1) as (s & -> & Hs).
    injection Hid as <- _. simpl.
    split; [reflexivity|]. split; [discriminate|]. split; [discriminate|]. auto.
  - destruct (isNonEmptyString payment_id) eqn:E2.
    + destruct (isNonEmptyString_true payment_id E2) as (s & -> & Hs).
      injection Hid as <- _. simpl.
      split; [discriminate|]. split; [reflexivity|]. split; [discriminate|]. auto.
    + injection Hid as <- _.
      split; [discriminate|]. split; [discriminate|]. split; [reflexivity|]. auto.
Qed.

Lemma safe_document_identifier_witness :
  let req := Sample.authenticated Sample.signed_dropin in
  let w' := snd (save_order Example.world req) in
  save_order Example.world req = (Saved "order_1", w') /\
  (JS.trim "order_1" <> "" \/
   "order_1" = auto_id Example.world (auto_count Example.world)).
Proof.
  assert (Hsave : save_order Example.world (Sample.authenticated Sample.signed_dropin)
                  = (Saved "order_1",
                     snd (save_order Example.world
                            (Sample.authenticated Sample.signed_dropin))))
    by (vm_compute; reflexivity).
  split; [exact Hsave|].
  destruct (safe_document_identifier Example.world
              (Sample.authenticated Sample.signed_dropin) "order_1"
              (snd (save_order Example.world (Sample.authenticated Sample.signed_dropin)))
              Hsave)
    as (od & order_id & payment_id & _ & _ & _ & _ & _ & _ & _ & H).
  exact H.
Defined.

(** The identifier is not trimmed: blanks around an [order_id] stay. *)
Example identifier_kept_as_sent :
  let orderData :=
    Obj [ ("order_id", Str " order_1 "); ("payment_id", Str "pay_1");
          ("signature", Str (Crypto.hmac_sha256_hex "test_secret" " order_1 |pay_1")) ] in
  fst (save_order Example.world (Sample.authenticated orderData)) = Saved " order_1 ".
Proof. vm_compute. reflexivity. Qed.

(** What the handler reads of the payload before it builds the record:
    the defaults of the destructuring. *)
Lemma dropin_formattedOrder_read (rt : Runtime) (uid : string) (orderData : value)
    (doc : document) :
  formattedOrder rt uid orderData = Some doc ->
  exists items customer name phone address formatted_items,
    get_default orderData "items" (Arr []) = Some items /\
    get_default orderData "customer" (Obj []) = Some customer /\
    JS.get customer "name" = Some name /\
    JS.get customer "phone" = Some phone /\
    format_address rt customer = Some address /\
    format_items items = Some formatted_items /\
    field doc "customerName" = Some (Data (JS.or name (Str ""))) /\
    field doc "phone" = Some (Data (JS.or phone (Str ""))) /\
    field doc "address" = Some (Data address) /\
    field doc "items" = Some (Data formatted_items).
Proof.
  unfold formattedOrder. intros H.
  do 12 RevisedFacts.invert_bind H.
  injection H as <-.
  do 6 eexists. repeat (split; [eassumption || reflexivity|]). reflexivity.
Qed.

Lemma get_default_read (v : value) (k : string) (d x : value) :
  JS.get v k = Some x ->
  get_default v k d = Some (match x with Undefined => d | _ => x end).
Proof. unfold get_default. intros ->. reflexivity. Qed.

(** X17: the defaults of [server.js] for a payload without customer or
    items.  In the record of a successful confirmation, a customer that is
    absent gives the empty text for name, phone and address; items that are
    absent, null or otherwise falsy give the empty list; items that are
    truthy are an array, stored item for item.  A payload whose customer is
    null is never accepted: reading its name throws. *)
Theorem absent_customer_and_items
    (w : World) (req : Request) (doc_id : string) (w' : World) :
  save_order w req = (Saved doc_id, w') ->
  exists orderData doc items stored_items,
    JS.get (body req) "orderData" = Some orderData /\
    JS.get orderData "items" = Some items /\
    orders w' !! doc_id = Some doc /\
    field doc "items" = Some (Data (Arr stored_items)) /\
    (JS.get orderData "customer" = Some Undefined ->
     field doc "customerName" = Some (Data (Str "")) /\
     field doc "phone" = Some (Data (Str "")) /\
     field doc "address" = Some (Data (Str ""))) /\
    JS.get orderData "customer" <> Some Null /\
    (JS.truthy items = false -> stored_items = []) /\
    (JS.truthy items = true ->
     exists l, items = Arr l /\ List.length stored_items = List.length l).
Proof.
  intros Hsave.
  apply dropin_save_order_accepted in Hsave
    as (uid & od & order_id & payment_id & signature & _ & Hbody & _ & _ & _ & _ & Hpersist).
  apply persist_stored in Hpersist as (_ & _ & doc & w1 & _ & _ & _ & Hdoc & Hlookup).
  apply dropin_formattedOrder_read in Hdoc
    as (items & customer & name & phone & address & formatted & Hitems & Hcustomer &
        Hname & Hphone & Haddress & Hformat & Fname & Fphone & Faddress & Fitems).
  destruct (JS.get od "items") as [its|] eqn:Hits;
    [|unfold get_default in Hitems; rewrite Hits in Hitems; discriminate Hitems].
  rewrite (get_default_read od "items" (Arr []) its Hits) in Hitems.
  injection Hitems as <-.
  assert (Hstored : exists stored_items,
             formatted = Arr stored_items /\
             (JS.truthy its = false -> stored_items = []) /\
             (JS.truthy its = true ->
              exists l, its = Arr l /\ List.length stored_items = List.length l)).
  { assert (Hd : (its = Undefined /\
                  match its with Undefined => Arr [] | _ => its end = Arr []) \/
                 match its with Undefined => Arr [] | _ => its end = its)
      by (destruct its; auto).
    destruct Hd as [[-> _] | Hd].
    - simpl in Hformat. injection Hformat as <-. exists [].
      split; [reflexivity|]. split; [reflexivity | discriminate].
    - rewrite Hd in Hformat. unfold format_items, JS.or in Hformat.
      destruct (JS.truthy its) eqn:Ht.
      + destruct its as [| | | | |els|]; try discriminate Hformat.
        destruct (mapM format_item els) as [l|] eqn:Hmap; simpl in Hformat;
          [|discriminate Hformat].
        injection Hformat as <-. exists l. split; [reflexivity|].
        split; [discriminate|]. intros _. exists els. split; [reflexivity|].
        apply mapM_Some in Hmap. symmetry. exact (Forall2_length _ _ _ Hmap).
      + simpl in Hformat. injection Hformat as <-. exists [].
        split; [reflexivity|]. split; [reflexivity | discriminate]. }
  destruct Hstored as (stored_items & -> & Hfalsy & Htruthy).
  exists od, doc, its, stored_items.
  split; [exact Hbody|]. split; [exact Hits|]. split; [exact Hlookup|].
  split; [exact Fitems|]. split; [|split; [|split; assumption]].
  - intros Hc. rewrite (get_default_read od "customer" (Obj []) Undefined Hc) in Hcustomer.
    injection Hcustomer as <-. simpl in Hname, Hphone.
    injection Hname as <-. injection Hphone as <-.
    assert (Hempty : format_address (runtime w) (Obj []) = Some (Str ""))
      by (vm_compute; reflexivity).
    rewrite Hempty in Haddress. injection Haddress as <-.
    auto.
  - intros Hc. rewrite (get_default_read od "customer" (Obj []) Null Hc) in Hcustomer.
    injection Hcustomer as <-. discriminate Hname.
Qed.

Lemma absent_customer_and_items_witness :
  let req := Sample.authenticated Sample.signed_dropin in
  let w' := snd (save_order Example.world req) in
  save_order Example.world req = (Saved "order_1", w') /\
  exists doc,
    orders w' !! "order_1" = Some doc /\
    field doc "items" = Some (Data (Arr [])) /\
    field doc "address" = Some (Data (Str "")).
Proof.
  assert (Hsave : save_order Example.world (Sample.authenticated Sample.signed_dropin)
                  = (Saved "order_1",
                     snd (save_order Example.world
                            (Sample.authenticated Sample.signed_dropin))))
    by (vm_compute; reflexivity).
  split; [exact Hsave|].
  destruct (absent_customer_and_items Example.world
              (Sample.authenticated Sample.signed_dropin) "order_1"
              (snd (save_order Example.world (Sample.authenticated Sample.signed_dropin)))
              Hsave)
    as (od & doc & items & stored_items & Hbody & Hitems & Hlookup & Fitems &
        Hcustomer & _ & Hfalsy & _).
  injection Hbody as <-. injection Hitems as <-.
  exists doc. split; [exact Hlookup|].
  rewrite (Hfalsy eq_refl) in Fitems. split; [exact Fitems|].
  exact (proj2 (proj2 (Hcustomer eq_refl))).
Defined.

(** A customer that is null, on the other hand, costs the paid order its
    record. *)
Example null_customer_is_500 :
  let orderData :=
    Obj [ ("order_id", Str "order_1"); ("payment_id", Str "pay_1");
          ("signature", Str Example.signature_1); ("customer", Null) ] in
  save_order Example.world (Sample.authenticated orderData)
  = (PersistenceFailure, Example.world).
Proof. vm_compute. reflexivity. Qed.

End DropInRecordFacts.

(** ** The basic server *)
Module BasicFacts.
Import Basic.

Lemma doc_path_Some (v : value) (s : string) :
  doc_path v = Some s <-> v = Str s /\ s <> "".
Proof.
  destruct v; simpl; try (split; [discriminate | intros [[=] _]]).
  destruct (String.eqb_spec s0 "") as [-> | Hne]; split.
  - discriminate.
  - intros [[= <-] H]. contradiction.
  - intros [= <-]. auto.
  - intros [[= <-] _]. reflexivity.
Qed.

(** The shape of the record handed to [set]: the fields of the payload,
    one by one. *)
Lemma basic_formattedOrder_shape (rt : Runtime) (orderData : value) (doc : document) :
  formattedOrder rt orderData = Some doc ->
  exists customer name phone address total subtotal shipping payment_id order_id
         status items,
    JS.get orderData "customer" = Some customer /\
    JS.get orderData "total" = Some total /\
    JS.get orderData "order_id" = Some order_id /\
    JS.get orderData "status" = Some status /\
    JS.get orderData "items" ≫= format_items = Some items /\
    doc = [ ("customerName", Data name);
            ("phone", Data phone);
            ("address", Data address);
            ("totalAmount", Data total);
            ("subtotal", Data subtotal);
            ("shipping", Data shipping);
            ("paymentId", Data payment_id);
            ("orderId", Data order_id);
            ("paymentStatus", Data status);
            ("datePlaced", ServerTimestamp);
            ("items", Data items) ].
Proof.
  unfold formattedOrder. intros H.
  do 11 RevisedFacts.invert_bind H.
  injection H as <-.
  do 11 eexists. repeat (split; [eassumption || reflexivity|]). reflexivity.
Qed.

Lemma basic_save_order_accepted (w : World) (req : Request) (doc_id : string) (w' : World) :
  save_order w req = (Saved doc_id, w') ->
  exists orderData doc,
    JS.get (body req) "orderData" = Some orderData /\
    formattedOrder (runtime w) orderData = Some doc /\
    JS.get orderData "order_id" = Some (Str doc_id) /\
    doc_id <> "" /\
    orders w' !! doc_id = Some doc.
Proof.
  unfold save_order. cbv zeta.
  destruct (JS.get (body req) "orderData") as [od|] eqn:Hbody; cbn [mbind option_bind];
    [|discriminate].
  destruct (formattedOrder (runtime w) od) as [doc|] eqn:Hdoc; cbn [mbind option_bind];
    [|discriminate].
  destruct (JS.get od "order_id") as [order_id|] eqn:Hid; cbn [mbind option_bind];
    [|discriminate].
  destruct (doc_path order_id) as [docId|] eqn:Hpath; cbn [mbind option_bind];
    [|discriminate].
  unfold doc_set. destruct (store_accepts w docId doc); cbn [mbind option_bind];
    [|discriminate].
  intros [= <- <-]. apply doc_path_Some in Hpath as [-> Hne].
  exists od, doc. repeat split; try assumption. apply lookup_insert_eq.
Qed.

(** X18: the basic server stores what it is sent.  The document of a
    successful confirmation is stored under the payload's [order_id], a
    string that is not empty, and records the payload's [total] and [status]
    as they came: the payment status of the record is the client's word,
    and nothing was verified. *)
Theorem stored_as_sent (w : World) (req : Request) (doc_id : string) (w' : World) :
  save_order w req = (Saved doc_id, w') ->
  exists orderData doc total status,
    JS.get (body req) "orderData" = Some orderData /\
    JS.get orderData "order_id" = Some (Str doc_id) /\
    doc_id <> "" /\
    JS.get orderData "total" = Some total /\
    JS.get orderData "status" = Some status /\
    orders w' !! doc_id = Some doc /\
    field doc "orderId" = Some (Data (Str doc_id)) /\
    field doc "totalAmount" = Some (Data total) /\
    field doc "paymentStatus" = Some (Data status).
Proof.
  intros Hsave.
  apply basic_save_order_accepted in Hsave as (od & doc & Hbody & Hdoc & Hid & Hne & Hlookup).
  apply basic_formattedOrder_shape in Hdoc
    as (customer & name & phone & address & total & subtotal & shipping & payment_id &
        order_id & status & items & _ & Htotal & Hid' & Hstatus & _ & ->).
  assert (order_id = Str doc_id) by congruence. subst order_id.
  exists od. eexists. exists total, status.
  repeat (split; [eassumption|]). repeat split.
Qed.

Lemma stored_as_sent_witness :
  let req := Example.confirm None Sample.basic_payload in
  let w' := snd (save_order Example.world req) in
  save_order Example.world req = (Saved "order_1", w') /\
  exists orderData doc total status,
    JS.get (body req) "orderData" = Some orderData /\
    JS.get orderData "order_id" = Some (Str "order_1") /\
    "order_1" <> "" /\
    JS.get orderData "total" = Some total /\
    JS.get orderData "status" = Some status /\
    orders w' !! "order_1" = Some doc /\
    field doc "orderId" = Some (Data (Str "order_1")) /\
    field doc "totalAmount" = Some (Data total) /\
    field doc "paymentStatus" = Some (Data status).
Proof.
  assert (Hsave : save_order Example.world (Example.confirm None Sample.basic_payload)
                  = (Saved "order_1",
                     snd (save_order Example.world
                            (Example.confirm None Sample.basic_payload))))
    by (vm_compute; reflexivity).
  split; [exact Hsave|].
  exact (stored_as_sent Example.world (Example.confirm None Sample.basic_payload)
           "order_1"
           (snd (save_order Example.world (Example.confirm None Sample.basic_payload)))
           Hsave).
Defined.

(** The record of the example: the status is the one the client sent. *)
Example pending_stored_as_pending :
  let w' := snd (save_order Example.world (Example.confirm None Sample.basic_payload)) in
  (orders w' !! "order_1") ≫= (fun doc => field doc "paymentStatus")
  = Some (Data (Str "Pending")).
Proof. vm_compute. reflexivity. Qed.

(** X19: the basic server reports every failure as the 500 of its
    [catch], and has no 400.  A payload without customer (absent or null),
    one whose items are not an array, and one whose [order_id] is not a
    non-empty string are all answered with that 500, the world unchanged. *)
Theorem malformed_payload_is_500 (w : World) (req : Request) (orderData : value) :
  JS.get (body req) "orderData" = Some orderData ->
  (JS.get orderData "customer" = Some Undefined \/
   JS.get orderData "customer" = Some Null \/
   (forall l, JS.get orderData "items" <> Some (Arr l)) \/
   (forall s, JS.get orderData "order_id" = Some (Str s) -> s = "")) ->
  save_order w req = (PersistenceFailure, w) /\
  forall status error, fst (save_order w req) = Failure status error -> status = 500.
Proof.
  intros Hbody Hbad.
  assert (Hfail : save_order w req = (PersistenceFailure, w)).
  { unfold save_order. cbv zeta. rewrite Hbody. cbn [mbind option_bind].
    destruct (formattedOrder (runtime w) orderData) as [doc|] eqn:Hdoc;
      cbn [mbind option_bind]; [|reflexivity].
    destruct (JS.get orderData "order_id" ≫= doc_path) as [docId|] eqn:Hid;
      cbn [mbind option_bind]; [|reflexivity].
    exfalso.
    pose proof Hdoc as Hshape. apply basic_formattedOrder_shape in Hshape
      as (customer & name & phone & address & total & subtotal & shipping & payment_id &
          order_id & status & items & Hc & _ & Ho & _ & Hitems & _).
    destruct Hbad as [H | [H | [H | H]]].
    - rewrite H in Hc. injection Hc as <-.
      unfold formattedOrder in Hdoc. rewrite H in Hdoc. discriminate Hdoc.
    - rewrite H in Hc. injection Hc as <-.
      unfold formattedOrder in Hdoc. rewrite H in Hdoc. discriminate Hdoc.
    - destruct (JS.get orderData "items") as [its|] eqn:Hi; [|discriminate Hitems].
      cbn [mbind option_bind] in Hitems.
      destruct its; try discriminate Hitems. exact (H items0 eq_refl).
    - rewrite Ho in Hid. cbn [mbind option_bind] in Hid.
      apply doc_path_Some in Hid as [-> Hne]. exact (Hne (H docId Ho)). }
  split; [exact Hfail|].
  rewrite Hfail. intros status error [= <- _]. reflexivity.
Qed.

Lemma malformed_payload_is_500_witness :
  let orderData := Obj [ ("order_id", Str "order_1") ] in
  let req := Example.confirm None orderData in
  (JS.get (body req) "orderData" = Some orderData /\
   JS.get orderData "customer" = Some Undefined) /\
  save_order Example.world req = (PersistenceFailure, Example.world).
Proof.
  split; [split; reflexivity|].
  exact (proj1 (malformed_payload_is_500 Example.world
                  (Example.confirm None (Obj [ ("order_id", Str "order_1") ]))
                  (Obj [ ("order_id", Str "order_1") ])
                  eq_refl (or_introl eq_refl))).
Defined.

End BasicFacts.
